(** * multi_scraper.py: extraction, pagination and the driver loops

    A shallow embedding of [src/G2/multi_scraper.py].  The functions of the
    script ([fetch], [get_text_or_none], [parse_rating], [parse_reviews],
    [find_next_url] and the two branches of [main]) are translated one by
    one; the library calls they make (regular expressions, the Beautiful
    Soup tree, [urllib.parse], [int], [float], [str]) are modelled next to
    them, each in a module named after the library.

    Conventions.
    - A Python [str] is a [string]: the sequence of its UTF-8 bytes.  The
      character classes ([\d], [\w], white space, case folding) are the
      ASCII ones, so the model is the code on ASCII text ([Py.isascii],
      [ascii_tag]); outside it Python knows more digits, letters and
      blanks than the model.
    - The library calls are modelled on the arguments they accept:
      [urlsplit] on a URL without a square bracket ([urlsplit_accepts]),
      [unquote] on escapes that name ASCII characters ([plain_url]),
      [int] and [str] below the limit of 4300 digits ([str_accepts]),
      [time.sleep] on a delay that is not negative ([sleep_accepts]).
      A property that depends on one of them is stated for such
      arguments.
    - [None] is [None]; truthiness is written out ([Py.truthy_str],
      [Py.truthy_opt], [PyFloat.truthy]).
    - The exceptions the script handles somewhere ([ValueError] of [int]
      and [float], [requests.RequestException]) are modelled, and with
      them the [KeyError] of [sel["review_container"]], the [TypeError]
      of a conversion of [None] and the exceptions of [session.get] that
      are no [RequestException]; a function that may let one escape
      returns a [result].
    - The effects of a run ([session.get], [time.sleep], the lines on
      [sys.stderr]) are recorded in a trace; the network, the parser, the
      selector engine and the file system are parameters. *)

From Stdlib Require Import ZArith Ascii String List Bool Lia.
From Stdlib Require Import DecimalString DecimalPos.
From Stdlib Require Import Floats.SpecFloat.
From stdpp Require Import base tactics option list strings gmap.

Set Default Proof Using "Type*".

(** ** Exceptions *)

Inductive exn := ValueError | KeyError | TypeError.

Inductive result (A : Type) :=
| Ok (a : A)
| Raise (e : exn).
Arguments Ok {A} a.
Arguments Raise {A} e.

Global Instance result_ret : MRet result := fun A a => Ok a.
Global Instance result_bind : MBind result := fun A B f r =>
  match r with
  | Ok a => f a
  | Raise e => Raise e
  end.

(** ** Python strings *)

Module Py.

Definition ord (c : ascii) : nat := nat_of_ascii c.

(** [str.isspace] on one ASCII character: TAB..CR, FS..US and SPACE. *)
Definition isspace (c : ascii) : bool :=
  ((9 <=? ord c) && (ord c <=? 13)) || ((28 <=? ord c) && (ord c <=? 32)).

(** [Py_ISSPACE], the blanks [int] and [float] skip at the ends of an
    ASCII text: TAB..CR and SPACE. *)
Definition ISSPACE (c : ascii) : bool :=
  ((9 <=? ord c) && (ord c <=? 13)) || (ord c =? 32).

Definition isdigit (c : ascii) : bool := (48 <=? ord c) && (ord c <=? 57).

Definition isupper (c : ascii) : bool := (65 <=? ord c) && (ord c <=? 90).

Definition islower (c : ascii) : bool := (97 <=? ord c) && (ord c <=? 122).

Definition isalpha (c : ascii) : bool := isupper c || islower c.

Definition lower_char (c : ascii) : ascii :=
  if isupper c then ascii_of_nat (ord c + 32) else c.

Definition digit_val (c : ascii) : Z := Z.of_nat (ord c - 48).

Definition truthy_str (s : string) : bool :=
  match s with EmptyString => false | String _ _ => true end.

(** [x or None] / [if x] on an optional string. *)
Definition truthy_opt (o : option string) : bool :=
  match o with Some s => truthy_str s | None => false end.

Fixpoint lower (s : string) : string :=
  match s with
  | EmptyString => EmptyString
  | String c s' => String (lower_char c) (lower s')
  end.

Fixpoint all_chars (p : ascii -> bool) (s : string) : bool :=
  match s with
  | EmptyString => true
  | String c s' => p c && all_chars p s'
  end.

Fixpoint any_char (p : ascii -> bool) (s : string) : bool :=
  match s with
  | EmptyString => false
  | String c s' => p c || any_char p s'
  end.

(** [c in s] for a one-character [c]. *)
(** [s.isascii()] *)
Definition isascii (s : string) : bool := all_chars (fun c => ord c <? 128) s.

Definition contains_char (c : ascii) (s : string) : bool :=
  any_char (Ascii.eqb c) s.

Fixpoint startswith (p s : string) : bool :=
  match p, s with
  | EmptyString, _ => true
  | String a p', String b s' => Ascii.eqb a b && startswith p' s'
  | String _ _, EmptyString => false
  end.

(** [sub in s]. *)
Fixpoint contains (sub s : string) : bool :=
  startswith sub s ||
  match s with
  | EmptyString => false
  | String _ s' => contains sub s'
  end.

(** [s.lstrip(chars)] with the character set given as a predicate. *)
Fixpoint lstrip_by (p : ascii -> bool) (s : string) : string :=
  match s with
  | EmptyString => EmptyString
  | String c s' => if p c then lstrip_by p s' else s
  end.

Fixpoint rstrip_by (p : ascii -> bool) (s : string) : string :=
  match s with
  | EmptyString => EmptyString
  | String c s' =>
      match rstrip_by p s' with
      | EmptyString => if p c then EmptyString else String c EmptyString
      | t => String c t
      end
  end.

(** [s.strip()]. *)
Definition strip (s : string) : string := rstrip_by isspace (lstrip_by isspace s).

(** [s.replace(a, b)] for one-character [a] and [b]. *)
Fixpoint replace_char (a b : ascii) (s : string) : string :=
  match s with
  | EmptyString => EmptyString
  | String c s' => String (if Ascii.eqb c a then b else c) (replace_char a b s')
  end.

(** Deleting every character of a class, as the chained
    [url.replace(b, "")] of [urlsplit] does. *)
Fixpoint remove_chars (p : ascii -> bool) (s : string) : string :=
  match s with
  | EmptyString => EmptyString
  | String c s' => if p c then remove_chars p s' else String c (remove_chars p s')
  end.

(** The longest prefix without a character of class [p], and the rest
    (which starts with such a character, or is empty). *)
Fixpoint break (p : ascii -> bool) (s : string) : string * string :=
  match s with
  | EmptyString => (EmptyString, EmptyString)
  | String c s' =>
      if p c then (EmptyString, s)
      else let '(a, b) := break p s' in (String c a, b)
  end.

(** [s.split(c, 1)] when [c] occurs in [s]: the parts around the first
    occurrence; [None] when [c] does not occur. *)
Definition partition (c : ascii) (s : string) : option (string * string) :=
  match break (Ascii.eqb c) s with
  | (a, String _ b) => Some (a, b)
  | (_, EmptyString) => None
  end.

(** [s.split(c)]: never empty. *)
Fixpoint split (c : ascii) (s : string) : list string :=
  match s with
  | EmptyString => [EmptyString]
  | String d s' =>
      if Ascii.eqb d c then EmptyString :: split c s'
      else match split c s' with
           | [] => [String d EmptyString]
           | w :: ws => String d w :: ws
           end
  end.

(** [sep.join(l)]. *)
Fixpoint join (sep : string) (l : list string) : string :=
  match l with
  | [] => EmptyString
  | [x] => x
  | x :: l' => x +:+ sep +:+ join sep l'
  end.

(** [s.split()]: the maximal runs of non-blank characters. *)
Fixpoint words_aux (cur : option string) (s : string) : list string :=
  match s with
  | EmptyString => match cur with Some w => [w] | None => [] end
  | String c s' =>
      if isspace c then
        match cur with
        | Some w => w :: words_aux None s'
        | None => words_aux None s'
        end
      else
        words_aux (Some (match cur with Some w => w +:+ String c EmptyString
                                   | None => String c EmptyString end)) s'
  end.

Definition words (s : string) : list string := words_aux None s.

(** *** [int(s)] and [str(n)] *)

(** Digits with single underscores between them. *)
Fixpoint int_digits (acc : Z) (after_underscore : bool) (s : string) : option Z :=
  match s with
  | EmptyString => if after_underscore then None else Some acc
  | String c s' =>
      if isdigit c then int_digits (10 * acc + digit_val c)%Z false s'
      else if Ascii.eqb c "_" && negb after_underscore then int_digits acc true s'
      else None
  end.

Definition int_unsigned (s : string) : option Z :=
  match s with
  | String c _ => if isdigit c then int_digits 0 false s else None
  | EmptyString => None
  end.

(** [int(s)]: blanks around, an optional sign, decimal digits.  Anything
    else is a [ValueError]. *)
Definition int (s : string) : result Z :=
  let t := rstrip_by ISSPACE (lstrip_by ISSPACE s) in
  let r := match t with
           | String "-" t' => Z.opp <$> int_unsigned t'
           | String "+" t' => int_unsigned t'
           | _ => int_unsigned t
           end in
  match r with
  | Some n => Ok n
  | None => Raise ValueError
  end.

(** [str(n)]. *)
Definition str (n : Z) : string := NilZero.string_of_int (Z.to_int n).

End Py.

(** ** Regular expressions ([re])

    A backtracking matcher for the fragment of [re] the script uses:
    character classes, sequence, alternation, greedy repetition, one
    capturing group, [\b] and [$].  [exec r st] lists the states in which
    a match of [r] started in [st] can end, in the order in which Python's
    matcher tries them, so the head is the match [re] reports. *)

Module re.

Inductive regex :=
| Eps
| Chr (p : ascii -> bool)
| Seq (r1 r2 : regex)
| Alt (r1 r2 : regex)
| Star (r : regex)
| Group (r : regex)
| WordB
| Dollar.

Definition Plus (r : regex) : regex := Seq r (Star r).
Definition Opt (r : regex) : regex := Alt r Eps.

(** The literal [s]; with [ignorecase] each character matches both of
    its cases ([re.I]). *)
Fixpoint Lit (ignorecase : bool) (s : string) : regex :=
  match s with
  | EmptyString => Eps
  | String c s' =>
      Seq (Chr (fun d => if ignorecase
                         then Ascii.eqb (Py.lower_char d) (Py.lower_char c)
                         else Ascii.eqb d c))
          (Lit ignorecase s')
  end.

(** [\d], [\D], [\w]. *)
Definition digit : ascii -> bool := Py.isdigit.
Definition nondigit (c : ascii) : bool := negb (Py.isdigit c).
Definition word (c : ascii) : bool :=
  Py.isalpha c || Py.isdigit c || Ascii.eqb c "_".

(** A position in the subject: the character before it, the text after
    it, and what the group has captured so far. *)
Record mstate := MState {
  prev : option ascii;
  rest : string;
  group1 : option string
}.

Definition take (n : nat) (s : string) : string := substring 0 n s.

Definition is_word_opt (o : option ascii) : bool :=
  match o with Some c => word c | None => false end.

Definition next_char (s : string) : option ascii :=
  match s with String c _ => Some c | EmptyString => None end.

Definition at_boundary (st : mstate) : bool :=
  xorb (is_word_opt (prev st)) (is_word_opt (next_char (rest st))).

(** [$] without [re.M]: the end, or just before a final newline. *)
Definition at_end (st : mstate) : bool :=
  match rest st with
  | EmptyString => true
  | String c EmptyString => Ascii.eqb c "010"
  | _ => false
  end.

(** Greedy repetition of a matcher [step]: one more turn first, as long
    as the turn consumes something, then none. *)
Fixpoint star_loop (step : mstate -> list mstate) (fuel : nat) (st : mstate)
  : list mstate :=
  match fuel with
  | O => [st]
  | S fuel' =>
      flat_map (fun st' =>
                  if String.length (rest st') <? String.length (rest st)
                  then star_loop step fuel' st' else [])
               (step st)
      ++ [st]
  end.

Fixpoint exec (r : regex) (st : mstate) : list mstate :=
  match r with
  | Eps => [st]
  | Chr p =>
      match rest st with
      | String c s' => if p c then [MState (Some c) s' (group1 st)] else []
      | EmptyString => []
      end
  | Seq r1 r2 => flat_map (exec r2) (exec r1 st)
  | Alt r1 r2 => exec r1 st ++ exec r2 st
  | Star r' => star_loop (exec r') (String.length (rest st)) st
  | Group r' =>
      map (fun st' =>
             MState (prev st') (rest st')
                    (Some (take (String.length (rest st) - String.length (rest st'))
                                (rest st))))
          (exec r' st)
  | WordB => if at_boundary st then [st] else []
  | Dollar => if at_end st then [st] else []
  end.

(** [re.match] at one position. *)
Definition match_at (r : regex) (p : option ascii) (s : string) : option mstate :=
  head (exec r (MState p s None)).

(** [re.search]: the first position, from the left, where the pattern
    matches. *)
Fixpoint search_from (r : regex) (p : option ascii) (s : string) : option mstate :=
  match match_at r p s with
  | Some m => Some m
  | None =>
      match s with
      | EmptyString => None
      | String c s' => search_from r (Some c) s'
      end
  end.

Definition search (r : regex) (s : string) : option mstate :=
  search_from r None s.

(** [m.group(1)]; a group that took no part in the match gives [None]. *)
Definition group (m : mstate) : option string := group1 m.

End re.

(** The three patterns of the script. *)

(** [r"(\d+(?:\.\d+)?)"] *)
Definition RATING_RE : re.regex :=
  re.Group (re.Seq (re.Plus (re.Chr re.digit))
                   (re.Opt (re.Seq (re.Chr (Ascii.eqb ".")) (re.Plus (re.Chr re.digit))))).

(** [re.compile(r"\b(Next|Older|More)\b", re.I)] *)
Definition NEXT_TEXT_RE : re.regex :=
  re.Seq re.WordB
    (re.Seq (re.Group (re.Alt (re.Lit true "Next")
                              (re.Alt (re.Lit true "Older") (re.Lit true "More"))))
            re.WordB).

(** [r'(\d+)\D*$'] *)
Definition TRAILING_NUMBER_RE : re.regex :=
  re.Seq (re.Group (re.Plus (re.Chr re.digit)))
         (re.Seq (re.Star (re.Chr re.nondigit)) re.Dollar).


(** ** [float]

    A Python [float] is an IEEE 754 binary64 number, here a [spec_float]
    with 53 bits of precision.  [float(s)] rounds the decimal number it
    reads to the nearest such number, ties to even. *)

Module PyFloat.

Definition prec : Z := 53.
Definition emax : Z := 1024.

(** [m * 10^e], rounded. *)
Definition of_decimal (neg : bool) (m e : Z) : spec_float :=
  match m with
  | Zpos p =>
      if (0 <=? e)%Z
      then binary_normalize prec emax (Zpos p * 10 ^ e) 0 neg
      else SFdiv prec emax (S754_finite neg p 0)
                 (S754_finite false (Z.to_pos (10 ^ (- e))) 0)
  | _ => S754_zero neg
  end.

(** [bool(x)]: every float but the two zeros is true. *)
Definition truthy (x : spec_float) : bool :=
  match x with S754_zero _ => false | _ => true end.

(** The digits that follow a first digit, single underscores allowed
    between two digits: the value accumulated, the number of digits
    read, and what is left. *)
Fixpoint more_digits (acc : Z) (n : nat) (s : string) : Z * nat * string :=
  match s with
  | String c s' =>
      if Py.isdigit c then more_digits (10 * acc + Py.digit_val c) (S n) s'
      else if Ascii.eqb c "_" then
        match s' with
        | String d s'' =>
            if Py.isdigit d
            then more_digits (10 * acc + Py.digit_val d) (S n) s''
            else (acc, n, s)
        | EmptyString => (acc, n, s)
        end
      else (acc, n, s)
  | EmptyString => (acc, n, s)
  end.

(** Zero or more digits. *)
Definition digits (acc : Z) (s : string) : Z * nat * string :=
  match s with
  | String c s' =>
      if Py.isdigit c then more_digits (10 * acc + Py.digit_val c) 1 s'
      else (acc, O, s)
  | EmptyString => (acc, O, s)
  end.

(** The exponent part, after the [e]: an optional sign and at least one
    digit, up to the end of the text. *)
Definition exponent (s : string) : option Z :=
  let '(neg, t) := match s with
                   | String "-" t => (true, t)
                   | String "+" t => (false, t)
                   | _ => (false, s)
                   end in
  match digits 0 t with
  | (_, O, _) => None
  | (v, _, EmptyString) => Some (if neg then - v else v)%Z
  | _ => None
  end.

(** [digits [. digits] [e exponent]] with a digit before or after the
    point: the mantissa as an integer and the power of ten. *)
Definition decimal (s : string) : option (Z * Z) :=
  let '(m1, n1, r1) := digits 0 s in
  let '(m2, n2, r2) := match r1 with
                       | String "." r => digits m1 r
                       | _ => (m1, O, r1)
                       end in
  if (n1 + n2 =? 0)%nat then None
  else match r2 with
       | EmptyString => Some (m2, - Z.of_nat n2)%Z
       | String c r =>
           if Ascii.eqb (Py.lower_char c) "e"
           then (fun x => (m2, x - Z.of_nat n2)%Z) <$> exponent r
           else None
       end.

(** [float(s)]. *)
Definition float (s : string) : result spec_float :=
  let t := Py.rstrip_by Py.ISSPACE (Py.lstrip_by Py.ISSPACE s) in
  let '(neg, body) := match t with
                      | String "-" b => (true, b)
                      | String "+" b => (false, b)
                      | _ => (false, t)
                      end in
  let name := Py.lower body in
  if String.eqb name "inf" || String.eqb name "infinity" then Ok (S754_infinity neg)
  else if String.eqb name "nan" then Ok S754_nan
  else match decimal body with
       | Some (m, e) => Ok (of_decimal neg m e)
       | None => Raise ValueError
       end.

End PyFloat.

(** ** Beautiful Soup

    The tree that [BeautifulSoup(html, "html.parser")] builds.  Attribute
    values are kept as written in the markup; [NavigableString] stands for
    the strings [get_text] reads, [Comment] for those it skips (comments,
    declarations and the like). *)

Module bs4.

Inductive tag :=
| Tag (name : string) (attrs : list (string * string)) (contents : list node)
with node :=
| NavigableString (s : string)
| Comment (s : string)
| Element (t : tag).

Definition name (t : tag) : string := let 'Tag n _ _ := t in n.
Definition attrs (t : tag) : list (string * string) := let 'Tag _ a _ := t in a.
Definition contents (t : tag) : list node := let 'Tag _ _ c := t in c.

Fixpoint lookup_attr (key : string) (l : list (string * string)) : option string :=
  match l with
  | [] => None
  | (k, v) :: l' => if String.eqb k key then Some v else lookup_attr key l'
  end.

(** [t.get(key)] *)
Definition get (t : tag) (key : string) : option string := lookup_attr key (attrs t).

(** [t.descendants], tags only, in document order. *)
Fixpoint descendants (t : tag) : list tag :=
  match t with
  | Tag _ _ cs =>
      flat_map (fun c => match c with
                         | Element t' => t' :: descendants t'
                         | _ => []
                         end) cs
  end.

(** [t.string]: the string of a tag whose only child is a string, or a
    tag that has one. *)
Fixpoint tag_string (t : tag) : option string :=
  match t with
  | Tag _ _ [NavigableString s] => Some s
  | Tag _ _ [Comment s] => Some s
  | Tag _ _ [Element t'] => tag_string t'
  | Tag _ _ _ => None
  end.

(** The strings [get_text] joins; with [strip] each is stripped and the
    empty ones are left out. *)
Fixpoint all_strings (strip : bool) (t : tag) : list string :=
  match t with
  | Tag _ _ cs =>
      flat_map (fun c => match c with
                         | NavigableString s =>
                             if strip
                             then match Py.strip s with
                                  | EmptyString => []
                                  | s' => [s']
                                  end
                             else [s]
                         | Comment _ => []
                         | Element t' => all_strings strip t'
                         end) cs
  end.

(** [t.get_text(separator, strip=...)] *)
Definition get_text (separator : string) (strip : bool) (t : tag) : string :=
  Py.join separator (all_strings strip t).

(** [t.find_all(name, string=pattern)]: the descendants called [name]
    whose [.string] the pattern finds a match in. *)
Definition find_all_string (nm : string) (pattern : re.regex) (t : tag) : list tag :=
  List.filter
    (fun a => String.eqb (name a) nm &&
              match tag_string a with
              | Some s => bool_decide (is_Some (re.search pattern s))
              | None => false
              end)
    (descendants t).

(** The value soupsieve compares for [rel], which the parser of [a] and
    [link] keeps as a list of tokens: the tokens joined by one space. *)
Definition rel_value (t : tag) : option string :=
  Py.join " " ∘ Py.words <$> get t "rel".

(** [a[rel='next'], link[rel='next']] *)
Definition is_rel_next (t : tag) : bool :=
  (String.eqb (name t) "a" || String.eqb (name t) "link") &&
  match rel_value t with
  | Some v => String.eqb v "next"
  | None => false
  end.

(** [t.select_one("a[rel='next'], link[rel='next']")] *)
Definition select_one_rel_next (t : tag) : option tag :=
  List.find is_rel_next (descendants t).

(** A tree whose names, attributes and strings are ASCII. *)
Fixpoint ascii_tag (t : tag) : bool :=
  match t with
  | Tag n a cs =>
      Py.isascii n &&
      forallb (fun kv => Py.isascii kv.1 && Py.isascii kv.2) a &&
      forallb (fun c => match c with
                        | NavigableString s | Comment s => Py.isascii s
                        | Element t' => ascii_tag t'
                        end) cs
  end.

(** The parser, and soupsieve on the selectors given on the command
    line. *)
Class Soup := {
  BeautifulSoup : string -> tag;
  select : string -> tag -> list tag
}.

(** [t.select_one(selector)] *)
Definition select_one `{Soup} (selector : string) (t : tag) : option tag :=
  head (select selector t).

End bs4.

(** ** [urllib.parse]

    [urlparse], [urlunparse], [urljoin], [parse_qs] and [urlencode] as in
    CPython 3.12.  Not modelled: the validation of a bracketed (IPv6)
    host, which makes [urlsplit] raise, and the replacement character
    [unquote] puts for escapes that do not decode to UTF-8. *)

Module urllib.

Definition uses_relative : list string :=
  [""; "ftp"; "http"; "gopher"; "nntp"; "imap"; "wais"; "file"; "https";
   "shttp"; "mms"; "prospero"; "rtsp"; "rtsps"; "rtspu"; "sftp"; "svn";
   "svn+ssh"; "ws"; "wss"].

Definition uses_netloc : list string :=
  [""; "ftp"; "http"; "gopher"; "nntp"; "telnet"; "imap"; "wais"; "file";
   "mms"; "https"; "shttp"; "snews"; "prospero"; "rtsp"; "rtsps"; "rtspu";
   "rsync"; "svn"; "svn+ssh"; "sftp"; "nfs"; "git"; "git+ssh"; "ws"; "wss";
   "itms-services"].

Definition uses_params : list string :=
  [""; "ftp"; "hdl"; "prospero"; "http"; "imap"; "https"; "shttp"; "rtsp";
   "rtsps"; "rtspu"; "sip"; "sips"; "mms"; "sftp"; "tel"].

(** [s in l] for a list of strings. *)
Definition mem (s : string) (l : list string) : bool := existsb (String.eqb s) l.

Definition scheme_char (c : ascii) : bool :=
  Py.isalpha c || Py.isdigit c ||
  Ascii.eqb c "+" || Ascii.eqb c "-" || Ascii.eqb c ".".

(** [_WHATWG_C0_CONTROL_OR_SPACE] *)
Definition c0_control_or_space (c : ascii) : bool := Py.ord c <=? 32.

(** [_UNSAFE_URL_BYTES_TO_REMOVE] *)
Definition unsafe_url_byte (c : ascii) : bool :=
  Ascii.eqb c "009" || Ascii.eqb c "013" || Ascii.eqb c "010".

Record ParseResult := mkParseResult {
  scheme : string;
  netloc : string;
  path : string;
  params : string;
  query : string;
  fragment : string
}.

(** The scheme of [url], if it has one, and what follows the colon. *)
Definition split_scheme (url : string) : option (string * string) :=
  match url with
  | String c _ =>
      if Py.isalpha c then
        match Py.partition ":" url with
        | Some (s, r) => if Py.all_chars scheme_char s then Some (Py.lower s, r) else None
        | None => None
        end
      else None
  | EmptyString => None
  end.

(** [_splitnetloc(url, 2)] for a [url] that starts with two slashes. *)
Definition splitnetloc (url : string) : option (string * string) :=
  match url with
  | String "/" (String "/" r) =>
      Some (Py.break (fun c => Ascii.eqb c "/" || Ascii.eqb c "?" || Ascii.eqb c "#") r)
  | _ => None
  end.

(** [urlsplit(url, scheme)]: scheme, netloc, path, query, fragment. *)
Definition urlsplit (url default_scheme : string)
  : string * string * string * string * string :=
  let url := Py.lstrip_by c0_control_or_space url in
  let default_scheme :=
    Py.rstrip_by c0_control_or_space (Py.lstrip_by c0_control_or_space default_scheme) in
  let url := Py.remove_chars unsafe_url_byte url in
  let default_scheme := Py.remove_chars unsafe_url_byte default_scheme in
  let '(sch, url) := match split_scheme url with
                     | Some (s, r) => (s, r)
                     | None => (default_scheme, url)
                     end in
  let '(loc, url) := match splitnetloc url with
                     | Some (n, r) => (n, r)
                     | None => (EmptyString, url)
                     end in
  let '(url, frag) := match Py.partition "#" url with
                      | Some (u, f) => (u, f)
                      | None => (url, EmptyString)
                      end in
  let '(url, qry) := match Py.partition "?" url with
                     | Some (u, q) => (u, q)
                     | None => (url, EmptyString)
                     end in
  (sch, loc, url, qry, frag).

(** The parts before and after the last [c]. *)
Fixpoint rpartition (c : ascii) (s : string) : option (string * string) :=
  match s with
  | EmptyString => None
  | String d s' =>
      match rpartition c s' with
      | Some (a, b) => Some (String d a, b)
      | None => if Ascii.eqb d c then Some (EmptyString, s') else None
      end
  end.

Fixpoint drop_last (s : string) : string :=
  match s with
  | EmptyString => EmptyString
  | String _ EmptyString => EmptyString
  | String c s' => String c (drop_last s')
  end.

(** [_splitparams(url)]: the first semicolon of the last path segment
    separates the parameters. *)
Definition splitparams (url : string) : string * string :=
  match rpartition "/" url with
  | Some (dir, last) =>
      match Py.partition ";" last with
      | Some (a, b) => (dir +:+ "/" +:+ a, b)
      | None => (url, EmptyString)
      end
  | None =>
      match Py.partition ";" url with
      | Some (a, b) => (a, b)
      | None => (drop_last url, url)
      end
  end.

Definition urlparse_with (url default_scheme : string) : ParseResult :=
  let '(sch, loc, url, qry, frag) := urlsplit url default_scheme in
  let '(url, par) :=
    if mem sch uses_params && Py.contains_char ";" url
    then splitparams url else (url, EmptyString) in
  mkParseResult sch loc url par qry frag.

(** [urlparse(url)] *)
Definition urlparse (url : string) : ParseResult := urlparse_with url "".

(** [urlunsplit((scheme, netloc, url, query, fragment))] *)
Definition urlunsplit (sch loc url qry frag : string) : string :=
  let url :=
    if Py.truthy_str loc ||
       (Py.truthy_str sch && mem sch uses_netloc && negb (Py.startswith "//" url))
    then "//" +:+ loc +:+
         (if Py.truthy_str url && negb (Py.startswith "/" url) then "/" +:+ url else url)
    else url in
  let url := if Py.truthy_str sch then sch +:+ ":" +:+ url else url in
  let url := if Py.truthy_str qry then url +:+ "?" +:+ qry else url in
  if Py.truthy_str frag then url +:+ "#" +:+ frag else url.

(** [urlunparse((scheme, netloc, url, params, query, fragment))] *)
Definition urlunparse (p : ParseResult) : string :=
  let url := if Py.truthy_str (params p) then path p +:+ ";" +:+ params p else path p in
  urlunsplit (scheme p) (netloc p) url (query p) (fragment p).

(** *** [urljoin] *)

(** [segments[1:-1] = filter(None, segments[1:-1])] *)
Definition drop_empty_middle (segments : list string) : list string :=
  match segments with
  | [] => []
  | first :: tl =>
      match reverse tl with
      | [] => [first]
      | lst :: mid => first :: List.filter Py.truthy_str (reverse mid) ++ [lst]
      end
  end.

(** The loop over the segments: [..] pops, [.] is skipped. *)
Definition resolve_step (resolved : list string) (seg : string) : list string :=
  if String.eqb seg ".." then removelast resolved
  else if String.eqb seg "." then resolved
  else resolved ++ [seg].

Definition urljoin (base url : string) : string :=
  if negb (Py.truthy_str base) then url
  else if negb (Py.truthy_str url) then base
  else
    let b := urlparse base in
    let u := urlparse_with url (scheme b) in
    if negb (String.eqb (scheme u) (scheme b)) || negb (mem (scheme u) uses_relative)
    then url
    else if mem (scheme u) uses_netloc && Py.truthy_str (netloc u)
    then urlunparse u
    else
      let loc := if mem (scheme u) uses_netloc then netloc b else netloc u in
      if negb (Py.truthy_str (path u)) && negb (Py.truthy_str (params u))
      then urlunparse (mkParseResult (scheme u) loc (path b) (params b)
                         (if Py.truthy_str (query u) then query u else query b)
                         (fragment u))
      else
        let base_parts := Py.split "/" (path b) in
        let base_parts :=
          if negb (String.eqb (List.last base_parts "") "")
          then removelast base_parts else base_parts in
        let segments :=
          if Py.startswith "/" (path u) then Py.split "/" (path u)
          else drop_empty_middle (base_parts ++ Py.split "/" (path u)) in
        let resolved := fold_left resolve_step segments [] in
        let resolved :=
          if mem (List.last segments "") ["."; ".."]
          then resolved ++ [""] else resolved in
        let joined := Py.join "/" resolved in
        urlunparse (mkParseResult (scheme u) loc
                      (if Py.truthy_str joined then joined else "/")
                      (params u) (query u) (fragment u)).

(** *** Query strings *)

Definition hex_val (c : ascii) : option nat :=
  if Py.isdigit c then Some (Py.ord c - 48)
  else if (65 <=? Py.ord c) && (Py.ord c <=? 70) then Some (Py.ord c - 55)
  else if (97 <=? Py.ord c) && (Py.ord c <=? 102) then Some (Py.ord c - 87)
  else None.

Definition hex_digit (n : nat) : ascii :=
  if n <? 10 then ascii_of_nat (48 + n) else ascii_of_nat (55 + n).

(** [unquote(s)]: every [%XX] with two hexadecimal digits becomes the
    byte it names. *)
Fixpoint unquote (s : string) : string :=
  match s with
  | EmptyString => EmptyString
  | String c s' =>
      let keep := String c (unquote s') in
      if Ascii.eqb c "%" then
        match s' with
        | String h (String l s'') =>
            match hex_val h, hex_val l with
            | Some a, Some b => String (ascii_of_nat (16 * a + b)) (unquote s'')
            | _, _ => keep
            end
        | _ => keep
        end
      else keep
  end.

(** [_ALWAYS_SAFE] *)
Definition always_safe (c : ascii) : bool :=
  Py.isalpha c || Py.isdigit c ||
  Ascii.eqb c "_" || Ascii.eqb c "." || Ascii.eqb c "-" || Ascii.eqb c "~".

(** [quote_plus(s)] *)
Fixpoint quote_plus (s : string) : string :=
  match s with
  | EmptyString => EmptyString
  | String c s' =>
      if always_safe c then String c (quote_plus s')
      else if Ascii.eqb c " " then String "+" (quote_plus s')
      else String "%" (String (hex_digit (Py.ord c / 16))
                         (String (hex_digit (Py.ord c mod 16)) (quote_plus s')))
  end.

(** [parse_qsl(qs)]: the fields with a non-empty value, decoded. *)
Definition parse_qsl (qs : string) : list (string * string) :=
  if negb (Py.truthy_str qs) then []
  else
    flat_map (fun name_value =>
                match Py.partition "=" name_value with
                | Some (n, v) =>
                    if Py.truthy_str v
                    then [(unquote (Py.replace_char "+" " " n),
                           unquote (Py.replace_char "+" " " v))]
                    else []
                | None => []
                end)
             (Py.split "&" qs).

(** A [dict] with string keys, in insertion order. *)
Definition dict (V : Type) := list (string * V).

Fixpoint dict_get {V} (d : dict V) (k : string) : option V :=
  match d with
  | [] => None
  | (k', v) :: d' => if String.eqb k' k then Some v else dict_get d' k
  end.

(** [d[k] = v]: in place when the key is there, at the end otherwise. *)
Fixpoint dict_set {V} (d : dict V) (k : string) (v : V) : dict V :=
  match d with
  | [] => [(k, v)]
  | (k', v') :: d' =>
      if String.eqb k' k then (k', v) :: d' else (k', v') :: dict_set d' k v
  end.

(** [d[k].append(v)] or [d[k] = [v]] *)
Definition dict_append (d : dict (list string)) (kv : string * string)
  : dict (list string) :=
  match dict_get d kv.1 with
  | Some vs => dict_set d kv.1 (vs ++ [kv.2])
  | None => d ++ [(kv.1, [kv.2])]
  end.

(** [parse_qs(qs)] *)
Definition parse_qs (qs : string) : dict (list string) :=
  fold_left dict_append (parse_qsl qs) [].

(** [urlencode(d)] for a dictionary of strings. *)
Definition urlencode (d : dict string) : string :=
  Py.join "&" (map (fun kv => quote_plus kv.1 +:+ "=" +:+ quote_plus kv.2) d).

End urllib.

(** ** [os.path] (POSIX) *)

Module os_path.

Definition sep : ascii := "/".

(** [os.path.basename(p)] *)
Definition basename (p : string) : string :=
  match urllib.rpartition sep p with
  | Some (_, b) => b
  | None => p
  end.

(** [os.path.splitext(p)] for a [p] without a directory part: the
    extension starts at the last dot, unless only dots come before it. *)
Definition splitext (p : string) : string * string :=
  match urllib.rpartition "." p with
  | Some (root, ext) =>
      if Py.all_chars (Ascii.eqb ".") root then (p, EmptyString)
      else (root, String "." ext)
  | None => (p, EmptyString)
  end.

End os_path.

(** * The script *)

Import bs4 urllib.

(** [@dataclass class Review] *)
Record Review := mkReview {
  reviewer : option string;
  rating : option spec_float;
  date : option string;
  text : option string;
  source_url : string
}.

(** The effects of a run, in order.  [Fetch] marks a call of [fetch];
    the others are the calls the script makes to [session.get],
    [time.sleep] and [sys.stderr.write]. *)
Inductive event :=
| Fetch (url : string)
| Get (url : string)
| SleepBackoff (base : spec_float) (attempt : nat)
| SleepDelay (delay : spec_float)
| Stderr.

(** What [session.get] does: a response, a
    [requests.RequestException], or another exception (the adapter of
    requests lets some errors of urllib3 through unchanged, for instance
    the [LocationParseError] of a host label of more than 63
    characters, which is a [ValueError] and no [RequestException]). *)
Inductive get_outcome :=
| Response (status_code : Z) (body : string)
| RequestException
| Raises (e : exn).

(** The network: the answer to a GET may depend on everything that was
    requested before. *)
Class Session (W : Type) := {
  session_get : string -> W -> get_outcome * W
}.

(** [glob.glob], [open(fp).read()] ([None] when it raises) and
    [os.path.abspath]. *)
Class FileSystem := {
  glob_glob : string -> list string;
  read_file : string -> option string;
  abspath : string -> string
}.

(** The state of the world a run goes through. *)
Record world (W : Type) := mkWorld {
  net : W;
  trace : list event
}.
Arguments mkWorld {W} net trace.
Arguments net {W} w.
Arguments trace {W} w.

Definition emit {W} (e : event) (w : world W) : world W :=
  mkWorld (net w) (trace w ++ [e]).

(** [1.8], the default of [backoff]. *)
Definition DEFAULT_BACKOFF : spec_float := PyFloat.of_decimal false 18 (-1).

(** [max_retries=4] *)
Definition DEFAULT_MAX_RETRIES : nat := 4.

Definition retry_status (code : Z) : bool :=
  bool_decide (code ∈ [429; 500; 502; 503; 504; 403]%Z).

Section Fetch.
Context {W : Type} `{!Session W}.

(** The body of [for attempt in range(1, max_retries + 1)], for the
    attempts that are left. *)
Fixpoint fetch_loop (url : string) (backoff : spec_float) (attempts : list nat)
    (w : world W) : result (option string) * world W :=
  match attempts with
  | [] => (Ok None, w)
  | attempt :: attempts' =>
      let '(r, n) := session_get url (net w) in
      let w := emit (Get url) (mkWorld n (trace w)) in
      match r with
      | Response code body =>
          if (200 <=? code)%Z && (code <? 300)%Z then (Ok (Some body), w)
          else if retry_status code then
            fetch_loop url backoff attempts'
                       (emit (SleepBackoff backoff attempt) (emit Stderr w))
          else (Ok None, emit Stderr w)
      | RequestException =>
          fetch_loop url backoff attempts'
                     (emit (SleepBackoff backoff attempt) (emit Stderr w))
      | Raises e => (Raise e, w)
      end
  end.

(** [fetch(session, url, timeout=30, max_retries=4, backoff=1.8)] *)
Definition fetch_with (max_retries : nat) (backoff : spec_float)
    (url : string) (w : world W) : result (option string) * world W :=
  fetch_loop url backoff (seq 1 max_retries) (emit (Fetch url) w).

Definition fetch : string -> world W -> result (option string) * world W :=
  fetch_with DEFAULT_MAX_RETRIES DEFAULT_BACKOFF.

End Fetch.

Section Parsing.
Context `{!Soup}.

(** [get_text_or_none(node)] *)
Definition get_text_or_none (node : option tag) : option string :=
  match node with
  | None => None
  | Some n =>
      let txt := get_text "" true n in
      if Py.truthy_str txt then Some txt else None
  end.

(** [parse_rating(val)]: the [except ValueError] is the only handler. *)
Definition parse_rating (val : option string) : result (option spec_float) :=
  if negb (Py.truthy_opt val) then Ok None
  else
    match re.search RATING_RE (default "" val) with
    | None => Ok None
    | Some m =>
        match match re.group m with
              | Some g => PyFloat.float g
              | None => Raise TypeError
              end with
        | Ok x => Ok (Some x)
        | Raise ValueError => Ok None
        | Raise e => Raise e
        end
    end.

(** [a or b] on strings that may be [None]. *)
Definition or_else (a b : option string) : option string :=
  if Py.truthy_opt a then a else b.

(** The value of [rating_raw] for a card. *)
Definition rating_raw (sel : dict string) (it : tag) : option string :=
  let rating_node :=
    if Py.truthy_opt (dict_get sel "rating")
    then select_one (default "" (dict_get sel "rating")) it
    else None in
  match rating_node with
  | Some n =>
      or_else (get n "aria-label")
              (or_else (get n "title") (Some (get_text " " true n)))
  | None => None
  end.

(** [get_text_or_none(it.select_one(sel.get(key, ""))) if sel.get(key)
    else None] *)
Definition text_field (sel : dict string) (key : string) (it : tag) : option string :=
  if Py.truthy_opt (dict_get sel key)
  then get_text_or_none (select_one (default "" (dict_get sel key)) it)
  else None.

Definition truthy_rating (r : option spec_float) : bool :=
  match r with Some x => PyFloat.truthy x | None => false end.

(** [any([reviewer, rating, date, text])] *)
Definition any_field (reviewer : option string) (rating : option spec_float)
    (date text : option string) : bool :=
  Py.truthy_opt reviewer || truthy_rating rating ||
  Py.truthy_opt date || Py.truthy_opt text.

(** One turn of [for it in items]: the record the card adds, if any. *)
Definition parse_item (sel : dict string) (page_url : string) (it : tag)
  : result (option Review) :=
  let reviewer := text_field sel "reviewer" it in
  rating ← parse_rating (rating_raw sel it);
  let date := text_field sel "date" it in
  let text := text_field sel "text" it in
  if negb (any_field reviewer rating date text) then Ok None
  else Ok (Some (mkReview reviewer rating date text page_url)).

Fixpoint parse_items (sel : dict string) (page_url : string) (items : list tag)
    (reviews : list Review) : result (list Review) :=
  match items with
  | [] => Ok reviews
  | it :: items' =>
      r ← parse_item sel page_url it;
      parse_items sel page_url items'
                  (match r with Some rv => reviews ++ [rv] | None => reviews end)
  end.

(** [parse_reviews(html, page_url, sel)] *)
Definition parse_reviews (html page_url : string) (sel : dict string)
  : result (list Review) :=
  let soup := BeautifulSoup html in
  match dict_get sel "review_container" with
  | None => Raise KeyError
  | Some container => parse_items sel page_url (select container soup) []
  end.

(** [n and n.get("href")], when it is true. *)
Definition href_of (n : option tag) : option string :=
  match n with
  | Some t => if Py.truthy_opt (get t "href") then get t "href" else None
  | None => None
  end.

(** [for a in candidates: href = a.get("href"); if href: return ...] *)
Fixpoint first_href (candidates : list tag) : option string :=
  match candidates with
  | [] => None
  | a :: candidates' =>
      if Py.truthy_opt (get a "href") then get a "href" else first_href candidates'
  end.

(** The last part of [find_next_url]: the [?start=] offsets of Yelp. *)
Definition yelp_fallback (page_url : string) : result (option string) :=
  let u := urlparse page_url in
  if Py.contains "yelp.com" (netloc u) && Py.contains "/biz/" (path u) then
    let q := parse_qs (query u) in
    start ← Py.int (hd "" (default ["0"] (dict_get q "start")));
    let next_start := (start + 20)%Z in
    let q := dict_set q "start" [Py.str next_start] in
    let new_query := urlencode (map (fun kv => (kv.1, hd "" kv.2)) q) in
    Ok (Some (urlunparse (mkParseResult (scheme u) (netloc u) (path u) (params u)
                            new_query (fragment u))))
  else Ok None.

(** [find_next_url(html, page_url, sel_next)] *)
Definition find_next_url (html page_url : string) (sel_next : option string)
  : result (option string) :=
  let soup := BeautifulSoup html in
  match (if Py.truthy_opt sel_next
         then href_of (select_one (default "" sel_next) soup) else None) with
  | Some h => Ok (Some (urljoin page_url h))
  | None =>
      match href_of (select_one_rel_next soup) with
      | Some h => Ok (Some (urljoin page_url h))
      | None =>
          match first_href (find_all_string "a" NEXT_TEXT_RE soup) with
          | Some h => Ok (Some (urljoin page_url h))
          | None => yelp_fallback page_url
          end
      end
  end.

End Parsing.

(** ** [main] *)

(** The command line, after [argparse]. *)
Record Args := mkArgs {
  start_url : string;
  pages : Z;
  delay : spec_float;
  review_container : string;
  sel_reviewer : string;
  sel_rating : string;
  sel_date : string;
  sel_text : string;
  sel_next : string;
  offline_files : list string;
  offline_base : string
}.

(** The dictionary [selectors] that [main] builds. *)
Definition selectors (args : Args) : dict string :=
  [("review_container", review_container args);
   ("reviewer", sel_reviewer args);
   ("rating", sel_rating args);
   ("date", sel_date args);
   ("text", sel_text args)].

(** [x or None] *)
Definition or_none (s : string) : option string :=
  if Py.truthy_str s then Some s else None.

Section Offline.
Context `{!Soup} `{!FileSystem}.

(** The guess of the offset from the file name:
    [m = re.search(r'(\d+)\D*$', stem)], then [max(0, (n - 1) * 20)],
    with [0] when nothing matches or [int] raises [ValueError]. *)
Definition guess_offset (fp : string) : result Z :=
  let stem := (os_path.splitext (os_path.basename fp)).1 in
  match re.search TRAILING_NUMBER_RE stem with
  | Some m =>
      match match re.group m with
            | Some g => Py.int g
            | None => Raise TypeError
            end with
      | Ok n => Ok (Z.max 0 ((n - 1) * 20))
      | Raise ValueError => Ok 0%Z
      | Raise e => Raise e
      end
  | None => Ok 0%Z
  end.

(** The base URL with [start] set to the offset. *)
Definition with_start (base : string) (offset : Z) : string :=
  let u := urlparse base in
  let q := parse_qs (query u) in
  let q := dict_set q "start" [Py.str offset] in
  let new_query := urlencode (map (fun kv => (kv.1, hd "" kv.2)) q) in
  urlunparse (mkParseResult (scheme u) (netloc u) (path u) (params u)
                new_query (fragment u)).

(** The value of [source_url] for the file [fp]. *)
Definition offline_source_url (args : Args) (fp : string) : result string :=
  let source_url := "file:///" +:+ Py.replace_char os_path.sep "/" (abspath fp) in
  if Py.truthy_str (offline_base args) then
    offset ← guess_offset fp;
    Ok (with_start (offline_base args) offset)
  else Ok source_url.

(** [for fp in expanded] *)
Fixpoint offline_loop (args : Args) (expanded : list string)
    (all_reviews : list Review) (log : list event)
  : result (list Review) * list event :=
  match expanded with
  | [] => (Ok all_reviews, log)
  | fp :: expanded' =>
      match read_file fp with
      | None => offline_loop args expanded' all_reviews (log ++ [Stderr])
      | Some html =>
          match offline_source_url args fp with
          | Raise e => (Raise e, log)
          | Ok source_url =>
              match parse_reviews html source_url (selectors args) with
              | Raise e => (Raise e, log)
              | Ok page_reviews =>
                  offline_loop args expanded' (all_reviews ++ page_reviews)
                               (log ++ [Stderr])
              end
          end
      end
  end.

(** The offline branch of [main]. *)
Definition main_offline (args : Args) : result (list Review) * list event :=
  let expanded := flat_map glob_glob (offline_files args) in
  match expanded with
  | [] => (Ok [], [Stderr])
  | _ => offline_loop args expanded [] [Stderr]
  end.

End Offline.

Section Online.
Context {W : Type} `{!Session W} `{!Soup}.

(** [for page_idx in range(1, args.pages + 1)], for the turns that are
    left; every [break] ends the loop with the reviews collected.
    [SleepDelay (delay args)] stands for
    [time.sleep(args.delay + random.uniform(0, 0.6))]; the loop is the
    code's for a delay [time.sleep] accepts ([sleep_accepts] below). *)
Fixpoint online_loop (args : Args) (turns : nat) (url : string)
    (seen_urls : gset string) (all_reviews : list Review) (w : world W)
  : result (list Review) * world W :=
  match turns with
  | O => (Ok all_reviews, w)
  | S turns' =>
      if negb (Py.truthy_str url) || bool_decide (url ∈ seen_urls)
      then (Ok all_reviews, emit Stderr w)
      else
        let seen_urls := seen_urls ∪ {[url]} in
        match fetch url w with
        | (Raise e, w) => (Raise e, w)
        | (Ok html, w) =>
            if negb (Py.truthy_opt html) then (Ok all_reviews, emit Stderr w)
            else
              let html := default "" html in
              match parse_reviews html url (selectors args) with
              | Raise e => (Raise e, w)
              | Ok page_reviews =>
                  let w := emit Stderr w in
                  let all_reviews := all_reviews ++ page_reviews in
                  match find_next_url html url (or_none (sel_next args)) with
                  | Raise e => (Raise e, w)
                  | Ok next_url =>
                      if negb (Py.truthy_opt next_url)
                      then (Ok all_reviews, emit Stderr w)
                      else
                        online_loop args turns' (default "" next_url) seen_urls
                                    all_reviews
                                    (emit (SleepDelay (delay args)) w)
                  end
              end
        end
  end.

(** The online branch of [main]. *)
Definition main_online (args : Args) (w : world W)
  : result (list Review) * world W :=
  online_loop args (Z.to_nat (pages args)) (start_url args) ∅ [] w.

End Online.

(** [main], up to the writing of the output: one of the two branches,
    then the line on [sys.stderr] when fewer than 15 reviews were
    collected. *)
Definition main {W : Type} `{!Session W} `{!Soup} `{!FileSystem}
    (args : Args) (w : world W) : result (list Review) * world W :=
  let '(r, w) :=
    match offline_files args with
    | _ :: _ =>
        let '(r, log) := main_offline args in
        (r, mkWorld (net w) (trace w ++ log))
    | [] => main_online args w
    end in
  match r with
  | Ok all_reviews =>
      (r, if length all_reviews <? 15 then emit Stderr w else w)
  | Raise _ => (r, w)
  end.

(** The URLs [fetch] was called with, in order. *)
Definition fetched (t : list event) : list string :=
  omap (fun e => match e with Fetch u => Some u | _ => None end) t.

(** The URLs requested with [session.get], in order. *)
Definition requested (t : list event) : list string :=
  omap (fun e => match e with Get u => Some u | _ => None end) t.

(** * Specifications

    The definitions the properties below are stated with. *)

Section FetchSpec.
Context {W : Type} `{!Session W}.

(** What the documentation of [fetch] promises, as a relation:
    [attempts url backoff k left n r evs n'] says that, with [left]
    attempts to go, the next one being number [k], and the network in
    state [n], the result is [r], the effects are [evs] and the network
    ends in state [n']. *)
Inductive attempts (url : string) (backoff : spec_float)
  : nat -> nat -> W -> result (option string) -> list event -> W -> Prop :=
| attempts_exhausted k n :
    attempts url backoff k 0 n (Ok None) [] n
| attempts_success k left n code body n' :
    session_get url n = (Response code body, n') ->
    (200 <= code < 300)%Z ->
    attempts url backoff k (S left) n (Ok (Some body)) [Get url] n'
| attempts_terminal k left n code body n' :
    session_get url n = (Response code body, n') ->
    ¬ (200 <= code < 300)%Z ->
    code ∉ [429; 500; 502; 503; 504; 403]%Z ->
    attempts url backoff k (S left) n (Ok None) [Get url; Stderr] n'
| attempts_raise k left n e n' :
    session_get url n = (Raises e, n') ->
    attempts url backoff k (S left) n (Raise e) [Get url] n'
| attempts_retry_status k left n code body n' r evs n'' :
    session_get url n = (Response code body, n') ->
    ¬ (200 <= code < 300)%Z ->
    code ∈ [429; 500; 502; 503; 504; 403]%Z ->
    attempts url backoff (S k) left n' r evs n'' ->
    attempts url backoff k (S left) n r
             (Get url :: Stderr :: SleepBackoff backoff k :: evs) n''
| attempts_retry_exception k left n n' r evs n'' :
    session_get url n = (RequestException, n') ->
    attempts url backoff (S k) left n' r evs n'' ->
    attempts url backoff k (S left) n r
             (Get url :: Stderr :: SleepBackoff backoff k :: evs) n''.

End FetchSpec.

(** ** Texts and patterns *)

(** [s] does not start with a character of class [p]. *)
Definition not_starting (p : ascii -> bool) (s : string) : bool :=
  match s with String c _ => negb (p c) | EmptyString => true end.

(** The states after the longest run of [p], then after shorter ones. *)
Fixpoint star_chr (p : ascii -> bool) (pv : option ascii) (s : string)
    (g : option string) : list re.mstate :=
  match s with
  | String c s' =>
      if p c then star_chr p (Some c) s' g ++ [re.MState pv s g]
      else [re.MState pv s g]
  | EmptyString => [re.MState pv s g]
  end.

(** [\.\d+] *)
Definition FRACTION : re.regex :=
  re.Seq (re.Chr (Ascii.eqb ".")) (re.Plus (re.Chr re.digit)).

(** [r] does not start with a point and a digit. *)
Definition no_fraction (r : string) : bool :=
  match r with
  | String "." (String c _) => negb (Py.isdigit c)
  | _ => true
  end.

(** The number a string of digits writes, after [acc]. *)
Fixpoint dec_value (acc : Z) (s : string) : Z :=
  match s with
  | EmptyString => acc
  | String c s' => dec_value (10 * acc + Py.digit_val c) s'
  end.

(** [r] starts with neither a digit nor an underscore. *)
Definition ends_number (r : string) : bool :=
  match r with
  | String c _ => negb (Py.isdigit c) && negb (Ascii.eqb c "_")
  | EmptyString => true
  end.

(** The last character of [s] is of class [p]. *)
Fixpoint last_is (p : ascii -> bool) (s : string) : bool :=
  match s with
  | EmptyString => false
  | String c EmptyString => p c
  | String _ s' => last_is p s'
  end.

(** The longest suffix of [s] made of characters of class [p]. *)
Fixpoint suffix_by (p : ascii -> bool) (s : string) : string :=
  match s with
  | EmptyString => EmptyString
  | String c s' => if p c && Py.all_chars p s' then s else suffix_by p s'
  end.

(** The digits at the end of [s], the characters after the last digit set
    aside: the number the offline branch reads in a file name. *)
Definition trailing_digits (s : string) : string :=
  suffix_by Py.isdigit (Py.rstrip_by re.nondigit s).

(** The first decimal number written in [s]: the first run of digits
    and, when a point and a digit follow it, the point and the digits
    after it. *)
Fixpoint first_number (s : string) : option string :=
  match s with
  | EmptyString => None
  | String c s' =>
      if Py.isdigit c then
        let '(ip, r) := Py.break re.nondigit s in
        match r with
        | String x r' =>
            if Ascii.eqb x "." then
              match Py.break re.nondigit r' with
              | (EmptyString, _) => Some ip
              | (fp, _) => Some (ip +:+ "." +:+ fp)
              end
            else Some ip
        | EmptyString => Some ip
        end
      else first_number s'
  end.

(** The float nearest to the number that [digits] or [digits.digits]
    writes. *)
Definition literal_value (lit : string) : spec_float :=
  match Py.partition "." lit with
  | Some (ip, fp) =>
      PyFloat.of_decimal false (dec_value 0 (ip +:+ fp)) (- Z.of_nat (String.length fp))
  | None => PyFloat.of_decimal false (dec_value 0 lit) 0
  end.

(** ** The offline source URL *)

(** The name of the file without directory and extension. *)
Definition stem (fp : string) : string := (os_path.splitext (os_path.basename fp)).1.

(** The offset of the file [fp]: the number at the end of its name, less
    one, times twenty, and never below zero; zero when the name has no
    digit. *)
Definition expected_offset (fp : string) : Z :=
  match trailing_digits (stem fp) with
  | EmptyString => 0
  | d => Z.max 0 ((dec_value 0 d - 1) * 20)
  end.

(** The same without the lower bound. *)
Definition unclamped_offset (fp : string) : Z :=
  match trailing_digits (stem fp) with
  | EmptyString => 0
  | d => (dec_value 0 d - 1) * 20
  end.

(** ** Pagination *)

(** [t.get("href")] is a non-empty string. *)
Definition has_href (t : tag) : bool := Py.truthy_opt (get t "href").

(** The string of [t] has the word Next, Older or More, in any case. *)
Definition says_next (t : tag) : bool :=
  match tag_string t with
  | Some s => bool_decide (is_Some (re.search NEXT_TEXT_RE s))
  | None => false
  end.

(** The text [urlsplit] looks at. *)
Definition cleaned (url : string) : string :=
  Py.remove_chars unsafe_url_byte (Py.lstrip_by c0_control_or_space url).

Definition cleaned_scheme (s : string) : string :=
  Py.remove_chars unsafe_url_byte
    (Py.rstrip_by c0_control_or_space (Py.lstrip_by c0_control_or_space s)).

(** The URL has a scheme. *)
Definition is_absolute (url : string) : bool := Py.truthy_str (scheme (urlparse url)).

(** The host and the path are those of a Yelp business page. *)
Definition yelp_page (url : string) : bool :=
  Py.contains "yelp.com" (netloc (urlparse url)) &&
  Py.contains "/biz/" (path (urlparse url)).

(** The value of the [start] parameter of the URL, as text; ["0"] when
    there is none. *)
Definition start_text (url : string) : string :=
  hd "" (default ["0"] (dict_get (parse_qs (query (urlparse url))) "start")).

Section NextSpec.
Context `{!Soup}.

(** 1. The element the configured selector finds first, when it has an
    href. *)
Definition next_by_selector (soup : tag) (sel_next : option string) : option string :=
  match sel_next with
  | Some sel =>
      if Py.truthy_str sel
      then t ← select_one sel soup; if has_href t then get t "href" else None
      else None
  | None => None
  end.

(** 2. The first [a] or [link] with [rel="next"], when it has an href. *)
Definition next_by_rel (soup : tag) : option string :=
  t ← List.find is_rel_next (descendants soup);
  if has_href t then get t "href" else None.

(** 3. The first anchor that says Next, Older or More and has an href. *)
Definition next_by_text (soup : tag) : option string :=
  t ← List.find (fun t => String.eqb (name t) "a" && says_next t && has_href t)
                (descendants soup);
  get t "href".

(** The three, in this order. *)
Definition next_href (soup : tag) (sel_next : option string) : option string :=
  match next_by_selector soup sel_next with
  | Some h => Some h
  | None =>
      match next_by_rel soup with
      | Some h => Some h
      | None => next_by_text soup
      end
  end.

End NextSpec.

(** ** Fields of a record *)

Inductive field := Reviewer | Rating | Date | Text.

(** The key of the selector of a field in the dictionary [sel]. *)
Definition field_key (f : field) : string :=
  match f with
  | Reviewer => "reviewer"
  | Rating => "rating"
  | Date => "date"
  | Text => "text"
  end.

(** The field of the record is [None]. *)
Definition field_is_none (f : field) (r : Review) : bool :=
  match f with
  | Reviewer => bool_decide (reviewer r = None)
  | Rating => match rating r with None => true | Some _ => false end
  | Date => bool_decide (date r = None)
  | Text => bool_decide (text r = None)
  end.

(** ** A site to run the script on

    Pages written as trees, the text that renders them, a parser that
    knows these texts, selectors that are tag names, and a server that
    answers 200 for the pages and 404 for the rest. *)

Module Fixture.

Definition document (cs : list node) : tag := Tag "[document]" [] cs.

Definition render_attr (kv : string * string) : string :=
  " " +:+ kv.1 +:+ "='" +:+ kv.2 +:+ "'".

Fixpoint render (t : tag) : string :=
  match t with
  | Tag nm ats cs =>
      "<" +:+ nm +:+ String.concat "" (map render_attr ats) +:+ ">" +:+
      String.concat ""
        (map (fun c => match c with
                       | NavigableString s => s
                       | Comment s => "<!--" +:+ s +:+ "-->"
                       | Element t' => render t'
                       end) cs) +:+
      "</" +:+ nm +:+ ">"
  end.

(** The text of a whole page. *)
Definition html_of (t : tag) : string :=
  String.concat ""
    (map (fun c => match c with
                   | NavigableString s => s
                   | Comment s => "<!--" +:+ s +:+ "-->"
                   | Element t' => render t'
                   end) (contents t)).

Record page := Page { page_url : string; page_soup : tag }.

Definition page_html (p : page) : string := html_of (page_soup p).

Definition parse (site : list page) (html : string) : tag :=
  match List.find (fun p => String.eqb (page_html p) html) site with
  | Some p => page_soup p
  | None => document []
  end.

(** A type selector: the descendants with this tag name. *)
Definition by_name (selector : string) (t : tag) : list tag :=
  List.filter (fun d => String.eqb (name d) selector) (descendants t).

Definition soup (site : list page) : Soup :=
  {| BeautifulSoup := parse site; select := by_name |}.

Definition serve (site : list page) (url : string) (n : nat) : get_outcome * nat :=
  (match List.find (fun p => String.eqb (page_url p) url) site with
   | Some p => Response 200 (page_html p)
   | None => Response 404 ""
   end, S n).

(** The state of the server is the number of requests it has seen. *)
Definition session (site : list page) : Session nat :=
  {| session_get := serve site |}.

Definition files : FileSystem :=
  {| glob_glob pat := [pat];
     read_file fp := None;
     abspath fp := "/srv/pages/" +:+ fp |}.

(** A review card. *)
Definition card (who stars said : string) : node :=
  Element (Tag "div" [("class", "review")]
             [Element (Tag "span" [] [NavigableString who]);
              Element (Tag "i" [("aria-label", stars)] []);
              Element (Tag "p" [] [NavigableString said])]).

Definition next_link (href : string) : node :=
  Element (Tag "a" [("rel", "next"); ("href", href)] [NavigableString "Next"]).

Definition args (start : string) (n : Z) : Args :=
  {| start_url := start; pages := n; delay := PyFloat.of_decimal false 1 0;
     review_container := "div"; sel_reviewer := "span"; sel_rating := "i";
     sel_date := ""; sel_text := "p"; sel_next := "";
     offline_files := []; offline_base := "" |}.

Definition offline_args (base : string) : Args :=
  {| start_url := ""; pages := 3; delay := PyFloat.of_decimal false 1 0;
     review_container := "div"; sel_reviewer := "span"; sel_rating := "i";
     sel_date := ""; sel_text := "p"; sel_next := "";
     offline_files := ["reviews_*.html"]; offline_base := base |}.

(** Two pages: twenty cards and a link to the second, then five cards. *)
Definition page1 : page :=
  Page "https://x.com/p1"
       (document (repeat (card "Ann" "4.5 star rating" "Good.") 20 ++ [next_link "/p2"])).

Definition page2 : page :=
  Page "https://x.com/p2" (document (repeat (card "Bob" "3 star rating" "Fine.") 5)).

Definition two_pages : list page := [page1; page2].

(** A page whose next link leads back to itself. *)
Definition self_linked : page :=
  Page "https://x.com/p1" (document [card "Ann" "5 star rating" "Good."; next_link "/p1"]).

Definition loop_page : list page := [self_linked].

(** A card with nothing but a rating of zero. *)
Definition zero_card : tag :=
  Tag "div" [("class", "review")] [Element (Tag "i" [("aria-label", "0 star rating")] [])].

Definition zero_page : list page :=
  [Page "https://x.com/p1" (document [Element zero_card])].

End Fixture.

(** * The rest of the script

    [load_headers] and [load_cookies], with the reading of a text file
    line by line, and the definitions that the properties of the other
    functions are stated with.  [make_session], [save_json] and
    [save_csv] hand their arguments over to [requests], [json] and [csv],
    and are not modelled. *)

(** [for line in f]: the lines of the text (decoded, its newlines
    translated to a line feed), each with its newline. *)
Fixpoint file_lines (content : string) : list string :=
  match content with
  | EmptyString => []
  | String c s' =>
      if Ascii.eqb c "010" then String c EmptyString :: file_lines s'
      else match file_lines s' with
           | [] => [String c EmptyString]
           | l :: ls => String c l :: ls
           end
  end.

Definition DEFAULT_UA : string :=
  "Mozilla/5.0 (Windows NT 10.0; Win64; x64) AppleWebKit/537.36 (KHTML, like Gecko) Chrome/124.0 Safari/537.36".

(** The headers [load_headers] gives when there is no file to read. *)
Definition DEFAULT_HEADERS : dict string :=
  [("User-Agent", DEFAULT_UA);
   ("Accept", "text/html,application/xhtml+xml,application/xml;q=0.9,*/*;q=0.8");
   ("Accept-Language", "en-US,en;q=0.9");
   ("Connection", "keep-alive");
   ("Referer", "https://www.yelp.com/");
   ("Upgrade-Insecure-Requests", "1")].

(** [d.setdefault(k, v)] *)
Definition dict_setdefault {V} (d : dict V) (k : string) (v : V) : dict V :=
  match dict_get d k with
  | Some _ => d
  | None => d ++ [(k, v)]
  end.

(** One turn of the loop of [load_headers]. *)
Definition header_line (headers : dict string) (line : string) : dict string :=
  let line := Py.strip line in
  if negb (Py.truthy_str line) || negb (Py.contains_char ":" line) then headers
  else
    match Py.partition ":" line with
    | Some (k, v) => dict_set headers (Py.strip k) (Py.strip v)
    | None => headers
    end.

(** What opening a text file and iterating over it gives: the lines the
    loop sees, and whether the reading ended by an exception ([open]
    raising [OSError], in which case there is no line, or a line further
    on that cannot be decoded). *)
Record reading := mkReading {
  lines_read : list string;
  read_failed : bool
}.

(** The reading of a file of the file system: whole, or not at all. *)
Definition read_lines `{!FileSystem} (fp : string) : reading :=
  match read_file fp with
  | Some content => mkReading (file_lines content) false
  | None => mkReading [] true
  end.

(** The [try] block of [load_headers] and its handler: the headers, and
    what is written on [stderr]. *)
Definition load_headers_from (r : reading) : dict string * list event :=
  if read_failed r then ([("User-Agent", DEFAULT_UA)], [Stderr])
  else (dict_setdefault (fold_left header_line (lines_read r) [])
                        "User-Agent" DEFAULT_UA, []).

(** [load_headers(path)] *)
Definition load_headers `{!FileSystem} (path : option string)
  : dict string * list event :=
  if negb (Py.truthy_opt path) then (DEFAULT_HEADERS, [])
  else load_headers_from (read_lines (default "" path)).

(** [parts[-2]] and [parts[-1]] of a list with two elements at least. *)
Definition last_two (parts : list string) : string * string :=
  match reverse parts with
  | z :: y :: _ => (y, z)
  | _ => (EmptyString, EmptyString)
  end.

(** One turn of the loop of [load_cookies]. *)
Definition cookie_line (jar : dict string) (line : string) : dict string :=
  let line := Py.strip line in
  if negb (Py.truthy_str line) || Py.startswith "#" line then jar
  else if Py.contains_char "009" line then
    let parts := Py.split "009" line in
    if 7 <=? length parts
    then dict_set jar (Py.strip (last_two parts).1) (Py.strip (last_two parts).2)
    else jar
  else
    match Py.partition "=" line with
    | Some (name, value) => dict_set jar (Py.strip name) (Py.strip value)
    | None => jar
    end.

(** The [try] block of [load_cookies] and its handler: the jar keeps
    what the lines read before an exception put in it. *)
Definition load_cookies_from (r : reading) : dict string * list event :=
  (fold_left cookie_line (lines_read r) [],
   if read_failed r then [Stderr] else []).

(** [load_cookies(path)] *)
Definition load_cookies `{!FileSystem} (path : option string)
  : dict string * list event :=
  if negb (Py.truthy_opt path) then ([], [])
  else load_cookies_from (read_lines (default "" path)).

(** ** Specifications for them *)

(** The header a line of the file gives, if it gives one. *)
Definition header_of_line (line : string) : option (string * string) :=
  match Py.partition ":" (Py.strip line) with
  | Some (k, v) => Some (Py.strip k, Py.strip v)
  | None => None
  end.

(** The cookie a line of the file gives, if it gives one. *)
Definition cookie_of_line (line : string) : option (string * string) :=
  let line := Py.strip line in
  if Py.startswith "#" line then None
  else if Py.contains_char "009" line then
    let parts := Py.split "009" line in
    if 7 <=? length parts
    then Some (Py.strip (last_two parts).1, Py.strip (last_two parts).2)
    else None
  else
    match Py.partition "=" line with
    | Some (name, value) => Some (Py.strip name, Py.strip value)
    | None => None
    end.


(** ** The records of a page *)

(** The rating a raw text gives: the value of its first number. *)
Definition rating_of (raw : option string) : option spec_float :=
  literal_value <$> (raw ≫= first_number).

(** The record of a card, when the card is kept. *)
Definition review_of `{!Soup} (sel : dict string) (page_url : string) (it : tag)
  : option Review :=
  let reviewer := text_field sel "reviewer" it in
  let rating := rating_of (rating_raw sel it) in
  let date := text_field sel "date" it in
  let text := text_field sel "text" it in
  if any_field reviewer rating date text
  then Some (mkReview reviewer rating date text page_url)
  else None.

(** The records of a page, in the order of its cards. *)
Definition page_records `{!Soup} (args : Args) (html page_url : string) : list Review :=
  omap (review_of (selectors args) page_url)
       (select (review_container args) (BeautifulSoup html)).

(** The source URL the offline branch gives the file [fp]. *)
Definition expected_source_url `{!FileSystem} (args : Args) (fp : string) : string :=
  if Py.truthy_str (offline_base args)
  then with_start (offline_base args) (expected_offset fp)
  else "file:///" +:+ Py.replace_char os_path.sep "/" (abspath fp).

(** The records of the file [fp], none when it cannot be read. *)
Definition file_records `{!Soup} `{!FileSystem} (args : Args) (fp : string)
  : list Review :=
  match read_file fp with
  | Some html => page_records args html (expected_source_url args fp)
  | None => []
  end.

(** The text is empty or white space. *)
Definition blank (s : string) : bool := negb (Py.truthy_str (Py.strip s)).

(** ** The words of a next link *)

(** [w] is next, older or more, in any case. *)
Definition next_word (w : string) : bool :=
  String.eqb (Py.lower w) "next" || String.eqb (Py.lower w) "older" ||
  String.eqb (Py.lower w) "more".

(** The text has one of the three words, with no letter, digit or
    underscore right before it or right after it. *)
Definition has_next_word (s : string) : Prop :=
  exists a w b, s = a +:+ w +:+ b /\ next_word w = true /\
    last_is re.word a = false /\ not_starting re.word b = true.

(** The character before the position after [a], when the one before
    [a] is [p]. *)
Fixpoint prev_after (p : option ascii) (a : string) : option ascii :=
  match a with
  | EmptyString => p
  | String c a' => prev_after (Some c) a'
  end.

(** The literal [w], in any case, at the start of [s]: what is left of
    [s]. *)
Fixpoint lit_rest (w s : string) : option string :=
  match w, s with
  | EmptyString, _ => Some s
  | String c w', String d s' =>
      if Ascii.eqb (Py.lower_char d) (Py.lower_char c) then lit_rest w' s' else None
  | String _ _, EmptyString => None
  end.

(** The literals of the pattern. *)
Definition next_literal (w0 : string) : Prop :=
  w0 = "Next" \/ w0 = "Older" \/ w0 = "More".

(** ** The sign of a rating *)

(** A number that is neither negative nor NaN: [+0.0], a positive
    number or [+inf]. *)
Definition not_negative (x : spec_float) : Prop :=
  match x with
  | S754_zero s | S754_infinity s | S754_finite s _ _ => s = false
  | S754_nan => False
  end.

(** ** Query strings *)

(** What [quote_plus] and [unquote] need of one character. *)
Definition quote_char_ok (c : ascii) : bool :=
  if always_safe c then negb (Ascii.eqb c "+") && negb (Ascii.eqb c "%")
  else if Ascii.eqb c " " then true
  else
    let h := hex_digit (Py.ord c / 16) in
    let l := hex_digit (Py.ord c mod 16) in
    always_safe h && always_safe l &&
    negb (Ascii.eqb h "+") && negb (Ascii.eqb l "+") &&
    match hex_val h, hex_val l with
    | Some a, Some b => Ascii.eqb (ascii_of_nat (16 * a + b)) c
    | _, _ => false
    end.

(** The characters [quote_plus] writes. *)
Definition encoded_char (c : ascii) : bool :=
  always_safe c || Ascii.eqb c "+" || Ascii.eqb c "%".

(** One field of [urlencode]. *)
Definition encode_pair (kv : string * string) : string :=
  quote_plus kv.1 +:+ "=" +:+ quote_plus kv.2.

(** A list of values [parse_qs] can give: not empty, and none of its
    values empty. *)
Definition values_ok (kv : string * list string) : Prop :=
  kv.2 <> [] /\ Forall (fun v => v <> "") kv.2.

(** The dictionary that [with_start] encodes. *)
Definition start_query (q : dict (list string)) (offset : Z) : dict string :=
  map (fun kv => (kv.1, hd "" kv.2)) (dict_set q "start" [Py.str offset]).

(** The characters that end the path of a URL. *)
Definition mark (c : ascii) : bool := Ascii.eqb c "?" || Ascii.eqb c "#".

(** The characters of an encoded query. *)
Definition query_char (c : ascii) : bool :=
  encoded_char c || Ascii.eqb c "=" || Ascii.eqb c "&".

(** ** A URL written and read again *)

(** The characters that end the host of a URL. *)
Definition host_end (c : ascii) : bool :=
  Ascii.eqb c "/" || Ascii.eqb c "?" || Ascii.eqb c "#".

(** What [urlsplit] gives as a scheme: nothing, or a letter followed by
    letters, digits, [+], [-] and [.], none of them a capital. *)
Definition scheme_ok (s : string) : bool :=
  match s with
  | EmptyString => true
  | String c _ =>
      Py.isalpha c && Py.all_chars scheme_char s && String.eqb (Py.lower s) s
  end.

(** A path that can follow a host: empty, or one that starts with a
    slash. *)
Definition rooted (p : string) : bool :=
  match p with
  | EmptyString => true
  | String c _ => Ascii.eqb c "/"
  end.

(** The path and the parameters [urlparse] makes of a path. *)
Definition path_params (sch url : string) : string * string :=
  if mem sch uses_params && Py.contains_char ";" url
  then splitparams url else (url, "").

(** The path [urlunparse] writes for a path and its parameters. *)
Definition join_params (pp : string * string) : string :=
  if Py.truthy_str pp.2 then pp.1 +:+ ";" +:+ pp.2 else pp.1.

(** ** Runs *)

(** The answer of the server asks for another attempt. *)
Definition asks_retry (o : get_outcome) : bool :=
  match o with
  | Response code _ => retry_status code
  | RequestException => true
  | Raises _ => false
  end.

(** What a run of the online loop that started with the records [all]
    and added the events [evs] returns, when it returns: more records,
    each from a page that was fetched. *)
Definition online_outcome (all : list Review) (evs : list event)
    (r : result (list Review)) : Prop :=
  match r with
  | Ok rs => exists new, rs = all ++ new /\
               Forall (fun rv => source_url rv ∈ fetched evs) new
  | Raise _ => True
  end.

(** ** A run along the Yelp offsets *)

(** The URLs the Yelp fallback leads through: [k] of them, from [url],
    whose [start] is [n]. *)
Fixpoint yelp_chain (url : string) (n : Z) (k : nat) : list string :=
  match k with
  | O => []
  | S k' => url :: yelp_chain (with_start url (n + 20)) (n + 20) k'
  end.

(** Every GET is answered at once by a page that is not empty, is
    ASCII and has no next link. *)
Definition always_a_page {W : Type} `{!Session W} `{!Soup}
    (sel_next : option string) : Prop :=
  forall u m, exists c body m',
    session_get u m = (Response c body, m') /\ (200 <= c < 300)%Z /\
    body <> "" /\ ascii_tag (BeautifulSoup body) = true /\
    next_href (BeautifulSoup body) sel_next = None.

(** ** Files to run it on *)

Module Disk.

Definition nl : string := String "010" EmptyString.
Definition tab : string := String "009" EmptyString.

Definition headers_txt : string :=
  "User-Agent: TestBot/1.0" +:+ nl +:+
  "Accept: text/html" +:+ nl +:+
  nl +:+
  "no colon here" +:+ nl +:+
  "  Accept :  */* " +:+ nl +:+
  "X-Time: 12:30".

Definition cookies_txt : string :=
  "# Netscape HTTP Cookie File" +:+ nl +:+
  ".yelp.com" +:+ tab +:+ "TRUE" +:+ tab +:+ "/" +:+ tab +:+ "FALSE" +:+ tab +:+
  "1790000000" +:+ tab +:+ "bse" +:+ tab +:+ "abc123" +:+ nl +:+
  "short" +:+ tab +:+ "line=1" +:+ nl +:+
  "token = a=b " +:+ nl.

Definition files : FileSystem :=
  {| glob_glob pat :=
       if String.eqb pat "reviews_*.html"
       then ["reviews_1.html"; "reviews_2.html"; "reviews_9.html"] else [];
     read_file fp :=
       if String.eqb fp "headers_ua.txt" then Some headers_txt
       else if String.eqb fp "cookies.txt" then Some cookies_txt
       else if String.eqb fp "reviews_1.html" then Some (Fixture.page_html Fixture.page1)
       else if String.eqb fp "reviews_2.html" then Some (Fixture.page_html Fixture.page2)
       else None;
     abspath fp := "/srv/pages/" +:+ fp |}.

(** A server that is down. *)
Definition down : Session nat :=
  {| session_get url n := (RequestException, S n) |}.

(** A server that answers every request with the same page, which has
    five cards and no next link. *)
Definition same_page : Session nat :=
  {| session_get url n := (Response 200 (Fixture.page_html Fixture.page2), S n) |}.

End Disk.

(** ** The arguments the library models are exact on *)

(** A URL with which [urlsplit] raises nothing: ASCII text without a
    square bracket.  (A host in brackets must be an IPv6 address, and a
    host that is not ASCII is checked after normalisation; both make
    [urlsplit], and with it [urlparse] and [urljoin], raise
    [ValueError].) *)
Definition urlsplit_accepts (url : string) : bool :=
  Py.isascii url && negb (Py.contains_char "[" url) &&
  negb (Py.contains_char "]" url).

(** A URL whose parameters [parse_qs] and [int] read as the model does:
    one [urlsplit] accepts, of 4096 characters at most, whose escapes
    name ASCII characters (for the bytes of an escape that are not
    UTF-8 [unquote] puts U+FFFD). *)
Definition plain_url (url : string) : bool :=
  urlsplit_accepts url && Py.isascii (unquote url) &&
  (String.length url <=? 4096).

(** A file name whose number [int] reads as the model does: ASCII, of
    4096 characters at most. *)
Definition plain_name (fp : string) : bool :=
  Py.isascii fp && (String.length fp <=? 4096).

(** A number [str] writes: one of 4300 digits at most. *)
Definition str_accepts (n : Z) : bool := (Z.abs n <? 10 ^ 4300)%Z.

(** A delay with which [time.sleep(delay + random.uniform(0, 0.6))]
    raises nothing: zero, or a positive number up to [2 ** 32].  (A
    negative sum and NaN give [ValueError], a large sum
    [OverflowError].) *)
Definition sleep_accepts (d : spec_float) : bool :=
  match d with
  | S754_zero _ => true
  | S754_finite false m e => (Z.pos m <=? 2 ^ (32 - e))%Z
  | _ => false
  end.

(** What soupsieve gives is in the tree it is asked about. *)
Definition select_within `{!Soup} : Prop :=
  forall selector t x, x ∈ select selector t -> x ∈ descendants t.

(** ** The next link, strategy by strategy *)

(** [t] is the first element of [l] with the property [P]. *)
Definition first_with (P : tag -> Prop) (l : list tag) (t : tag) : Prop :=
  exists l1 l2, l = l1 ++ t :: l2 /\ P t /\ Forall (fun x => ~ P x) l1.

(** The href of [t] is [h], and [h] is not empty. *)
Definition href_is (t : tag) (h : string) : Prop :=
  get t "href" = Some h /\ h <> "".

(** An [a] or a [link] whose [rel] is the one token [next]. *)
Definition rel_next (t : tag) : Prop :=
  (name t = "a" \/ name t = "link") /\
  exists v, get t "rel" = Some v /\ Py.words v = ["next"].

(** An anchor with an href whose string has one of the three words. *)
Definition next_anchor (t : tag) : Prop :=
  name t = "a" /\
  (exists s, tag_string t = Some s /\ has_next_word s) /\
  exists h, href_is t h.

(** The href of [t] is one [urljoin] accepts. *)
Definition href_accepted (t : tag) : bool :=
  match get t "href" with
  | Some h => urlsplit_accepts h
  | None => true
  end.

Section NextLink.
Context `{!Soup}.

(** 1. The first element the configured selector gives has the href
    [h]. *)
Definition selector_link (soup : tag) (sel_next : option string) (h : string)
  : Prop :=
  exists sel t, sel_next = Some sel /\ sel <> "" /\
    head (select sel soup) = Some t /\ href_is t h.

(** 2. The first [a] or [link] of the page with [rel="next"] has the
    href [h]. *)
Definition rel_link (soup : tag) (h : string) : Prop :=
  exists t, first_with rel_next (descendants soup) t /\ href_is t h.

(** 3. The first anchor of the page that has an href and whose string
    has the word has the href [h]. *)
Definition text_link (soup : tag) (h : string) : Prop :=
  exists t, first_with next_anchor (descendants soup) t /\ href_is t h.

(** One of the three strategies gives [h]. *)
Definition some_link (soup : tag) (sel_next : option string) (h : string)
  : Prop :=
  selector_link soup sel_next h \/ rel_link soup h \/ text_link soup h.

(** The hrefs of the page, and of what the configured selector gives,
    are hrefs [urljoin] accepts. *)
Definition hrefs_accepted (soup : tag) (sel_next : option string) : bool :=
  forallb href_accepted (descendants soup) &&
  match sel_next with
  | Some sel => forallb href_accepted (select sel soup)
  | None => true
  end.

(** The pages of the files that can be read are ASCII. *)
Definition ascii_files `{!FileSystem} (fps : list string) : bool :=
  forallb (fun fp => match read_file fp with
                     | Some html => ascii_tag (BeautifulSoup html)
                     | None => true
                     end) fps.

End NextLink.

(** ** More pages and servers *)

Module Pages.

(** A next link marked by [rel] alone. *)
Definition rel_anchor : tag := Tag "a" [("rel", "next"); ("href", "/p2")] [].

Definition rel_page : Fixture.page :=
  Fixture.Page "https://x.com/p1" (Fixture.document [Element rel_anchor]).

(** An anchor that says Next with an element beside the word. *)
Definition mixed_anchor : tag :=
  Tag "a" [("href", "/p2")]
      [NavigableString "Next "; Element (Tag "b" [] [NavigableString "page"])].

Definition mixed_page : Fixture.page :=
  Fixture.Page "https://x.com/p1" (Fixture.document [Element mixed_anchor]).

(** A host label of 64 characters: urllib3 refuses it with a
    [LocationParseError], a [ValueError] that requests hands on as it
    is. *)
Definition long_label_url : string :=
  "http://aaaaaaaaaaaaaaaaaaaaaaaaaaaaaaaaaaaaaaaaaaaaaaaaaaaaaaaaaaaaaaaa.com/".

Definition refusing : Session nat :=
  {| session_get url n := (Raises ValueError, S n) |}.

End Pages.
(** * Properties *)

(** ** Strings *)

Lemma app_String c a b : String c a +:+ b = String c (a +:+ b).
Proof. reflexivity. Qed.

Lemma app_empty_l b : "" +:+ b = b.
Proof. reflexivity. Qed.

Lemma app_empty_r a : a +:+ "" = a.
Proof. induction a as [|c a IH]; [done|]. by rewrite app_String, IH. Qed.

Lemma app_assoc_str a b c : (a +:+ b) +:+ c = a +:+ (b +:+ c).
Proof. induction a as [|x a IH]; [done|]. by rewrite !app_String, IH. Qed.

Lemma length_app_str a b : String.length (a +:+ b) = String.length a + String.length b.
Proof. induction a as [|c a IH]; [done|]. rewrite app_String. simpl. by rewrite IH. Qed.

Lemma take_app a b : re.take (String.length a) (a +:+ b) = a.
Proof.
  unfold re.take. induction a as [|c a IH].
  - rewrite app_empty_l. by destruct b.
  - rewrite app_String. simpl. by rewrite IH.
Qed.

Lemma all_chars_app p a b :
  Py.all_chars p (a +:+ b) = Py.all_chars p a && Py.all_chars p b.
Proof.
  induction a as [|c a IH]; [done|]. rewrite app_String. simpl.
  by rewrite IH, andb_assoc.
Qed.

(** ** Repetition of a character class *)

Lemma star_loop_chr p fuel : forall pv s g,
  String.length s <= fuel ->
  re.star_loop (re.exec (re.Chr p)) fuel (re.MState pv s g) = star_chr p pv s g.
Proof.
  induction fuel as [|fuel IH]; intros pv s g Hlen.
  - destruct s; [done|simpl in Hlen; lia].
  - destruct s as [|c s]; [done|]. simpl in *.
    destruct (p c); [|done]. simpl.
    rewrite app_nil_r.
    destruct (Nat.ltb_spec (String.length s) (S (String.length s))); [|lia].
    rewrite IH by lia. done.
Qed.

Lemma exec_star_chr p pv s g :
  re.exec (re.Star (re.Chr p)) (re.MState pv s g) = star_chr p pv s g.
Proof. simpl. by apply star_loop_chr. Qed.

Lemma exec_plus_chr p pv s g :
  re.exec (re.Plus (re.Chr p)) (re.MState pv s g) =
  match s with
  | String c s' => if p c then star_chr p (Some c) s' g else []
  | EmptyString => []
  end.
Proof.
  unfold re.Plus. cbn [re.exec]. simpl re.rest. 
  destruct s as [|c s]; [done|]. destruct (p c); [|done].
  cbn [flat_map]. rewrite app_nil_r. apply (exec_star_chr p (Some c) s g).
Qed.

(** The first state is the one after the whole run. *)
Lemma star_chr_head p a : forall pv r g,
  Py.all_chars p a = true -> not_starting p r = true ->
  exists pv' tl, star_chr p pv (a +:+ r) g = re.MState pv' r g :: tl.
Proof.
  induction a as [|c a IH]; intros pv r g Ha Hr.
  - rewrite app_empty_l. destruct r as [|d r]; simpl; [by eexists _, _|].
    simpl in Hr. apply negb_true_iff in Hr. rewrite Hr. by eexists _, _.
  - rewrite app_String. simpl in *. apply andb_true_iff in Ha as [-> Ha].
    destruct (IH (Some c) r g Ha Hr) as (pv' & tl & ->). by eexists _, _.
Qed.

Lemma star_chr_head_all p a pv g :
  Py.all_chars p a = true ->
  exists pv' tl, star_chr p pv a g = re.MState pv' "" g :: tl.
Proof.
  intros Ha. destruct (star_chr_head p a pv "" g Ha) as (pv' & tl & Heq); [done|].
  rewrite app_empty_r in Heq. by eexists _, _.
Qed.

(** Every state is reached by reading characters of the class. *)
Lemma star_chr_elem p s : forall pv g st,
  st ∈ star_chr p pv s g ->
  exists a, s = a +:+ re.rest st /\ Py.all_chars p a = true /\ re.group1 st = g.
Proof.
  induction s as [|c s IH]; intros pv g st Hin; simpl in Hin.
  - apply list_elem_of_singleton in Hin as ->. by exists "".
  - destruct (p c) eqn:Hc.
    + apply elem_of_app in Hin as [Hin|Hin].
      * destruct (IH _ _ _ Hin) as (a & -> & Ha & Hg).
        exists (String c a). simpl. by rewrite Hc, Ha.
      * apply list_elem_of_singleton in Hin as ->. by exists "".
    + apply list_elem_of_singleton in Hin as ->. by exists "".
Qed.

(** ** The rating pattern *)

Lemma exec_plus_digits_head c a pv r g :
  Py.isdigit c = true -> Py.all_chars Py.isdigit a = true ->
  not_starting Py.isdigit r = true ->
  exists pv' tl,
    re.exec (re.Plus (re.Chr re.digit)) (re.MState pv (String c a +:+ r) g)
    = re.MState pv' r g :: tl.
Proof.
  intros Hc Ha Hr. rewrite exec_plus_chr, app_String. unfold re.digit. rewrite Hc.
  by apply star_chr_head.
Qed.

Lemma exec_plus_digits_nil pv s g :
  not_starting Py.isdigit s = true ->
  re.exec (re.Plus (re.Chr re.digit)) (re.MState pv s g) = [].
Proof.
  intros Hs. rewrite exec_plus_chr. destruct s as [|c s]; [done|].
  simpl in Hs. apply negb_true_iff in Hs. unfold re.digit. by rewrite Hs.
Qed.

Lemma exec_fraction_nil pv r g :
  no_fraction r = true -> re.exec FRACTION (re.MState pv r g) = [].
Proof.
  intros Hr. unfold FRACTION. cbn [re.exec re.rest].
  destruct r as [|d r]; [done|].
  destruct (Ascii.eqb "." d) eqn:Hd; [|done].
  apply Ascii.eqb_eq in Hd as <-. cbn [flat_map]. rewrite app_nil_r.
  apply exec_plus_digits_nil. destruct r as [|c r]; [done|]. exact Hr.
Qed.

Lemma exec_fraction_head pv c a r g :
  Py.isdigit c = true -> Py.all_chars Py.isdigit a = true ->
  not_starting Py.isdigit r = true ->
  exists pv' tl,
    re.exec FRACTION (re.MState pv (String "." (String c a +:+ r)) g)
    = re.MState pv' r g :: tl.
Proof.
  intros Hc Ha Hr. unfold FRACTION. cbn [re.exec re.rest].
  change (Ascii.eqb "." ".") with true. cbn [flat_map]. rewrite app_nil_r.
  by apply exec_plus_digits_head.
Qed.

Lemma rating_exec_unfold st :
  re.exec RATING_RE st =
  map (fun st' =>
         re.MState (re.prev st') (re.rest st')
           (Some (re.take (String.length (re.rest st) - String.length (re.rest st'))
                          (re.rest st))))
      (flat_map (fun s1 => re.exec FRACTION s1 ++ [s1])
                (re.exec (re.Plus (re.Chr re.digit)) st)).
Proof. reflexivity. Qed.

(** At a digit, the pattern takes the digits and, if a point and a digit
    follow, the point and the digits after it. *)
Lemma match_at_rating_integer p c a r :
  Py.isdigit c = true -> Py.all_chars Py.isdigit a = true ->
  not_starting Py.isdigit r = true -> no_fraction r = true ->
  re.group <$> re.match_at RATING_RE p (String c a +:+ r) = Some (Some (String c a)).
Proof.
  intros Hc Ha Hr Hf. unfold re.match_at. rewrite rating_exec_unfold.
  destruct (exec_plus_digits_head c a p r None Hc Ha Hr) as (pv & tl & ->).
  cbn [flat_map]. rewrite exec_fraction_nil by done.
  cbn [app map head fmap option_fmap option_map re.group re.group1 re.rest].
  rewrite length_app_str, Nat.add_sub, take_app. done.
Qed.

Lemma match_at_rating_fraction p c a d b r :
  Py.isdigit c = true -> Py.all_chars Py.isdigit a = true ->
  Py.isdigit d = true -> Py.all_chars Py.isdigit b = true ->
  not_starting Py.isdigit r = true ->
  re.group <$> re.match_at RATING_RE p (String c a +:+ String "." (String d b +:+ r))
  = Some (Some (String c a +:+ String "." (String d b))).
Proof.
  intros Hc Ha Hd Hb Hr. unfold re.match_at. rewrite rating_exec_unfold.
  destruct (exec_plus_digits_head c a p (String "." (String d b +:+ r)) None Hc Ha)
    as (pv & tl & ->); [done|].
  cbn [flat_map].
  destruct (exec_fraction_head pv d b r None Hd Hb Hr) as (pv' & tl' & ->).
  cbn [app map head fmap option_fmap option_map re.group re.group1 re.rest].
  replace (String c a +:+ String "." (String d b +:+ r))
    with ((String c a +:+ String "." (String d b)) +:+ r).
  - rewrite length_app_str, Nat.add_sub, take_app. done.
  - rewrite app_assoc_str. done.
Qed.

Lemma match_at_rating_none p s :
  not_starting Py.isdigit s = true -> re.match_at RATING_RE p s = None.
Proof.
  intros Hs. unfold re.match_at. rewrite rating_exec_unfold.
  by rewrite exec_plus_digits_nil.
Qed.

(** [re.search] passes over a prefix without digits. *)
Lemma search_rating_skip pre : forall p s,
  Py.any_char Py.isdigit pre = false ->
  pre = "" \/ exists p', re.search_from RATING_RE p (pre +:+ s) = re.search_from RATING_RE p' s.
Proof.
  induction pre as [|c pre IH]; intros p s Hpre; [by left|right].
  simpl in Hpre. apply orb_false_iff in Hpre as [Hc Hpre].
  rewrite app_String. cbn [re.search_from].
  rewrite match_at_rating_none by (simpl; by rewrite Hc).
  destruct (IH (Some c) s Hpre) as [->|[p' ->]]; by eexists.
Qed.

Lemma search_rating_no_digit s : forall p,
  Py.any_char Py.isdigit s = false -> re.search_from RATING_RE p s = None.
Proof.
  induction s as [|c s IH]; intros p Hs.
  - done.
  - simpl in Hs. apply orb_false_iff in Hs as [Hc Hs]. cbn [re.search_from].
    rewrite match_at_rating_none by (simpl; by rewrite Hc). by apply IH.
Qed.

Lemma search_of_match_at r p s g :
  re.group <$> re.match_at r p s = Some g ->
  re.group <$> re.search_from r p s = Some g.
Proof.
  destruct s; simpl; destruct (re.match_at _ _ _); simpl; congruence.
Qed.

Lemma search_rating_integer pre c a r :
  Py.any_char Py.isdigit pre = false ->
  Py.isdigit c = true -> Py.all_chars Py.isdigit a = true ->
  not_starting Py.isdigit r = true -> no_fraction r = true ->
  re.group <$> re.search RATING_RE (pre +:+ String c a +:+ r) = Some (Some (String c a)).
Proof.
  intros Hpre Hc Ha Hr Hf. unfold re.search.
  destruct (search_rating_skip pre None (String c a +:+ r) Hpre) as [->|[p' ->]];
    apply search_of_match_at; by apply match_at_rating_integer.
Qed.

Lemma search_rating_fraction pre c a d b r :
  Py.any_char Py.isdigit pre = false ->
  Py.isdigit c = true -> Py.all_chars Py.isdigit a = true ->
  Py.isdigit d = true -> Py.all_chars Py.isdigit b = true ->
  not_starting Py.isdigit r = true ->
  re.group <$> re.search RATING_RE (pre +:+ String c a +:+ String "." (String d b +:+ r))
  = Some (Some (String c a +:+ String "." (String d b))).
Proof.
  intros Hpre Hc Ha Hd Hb Hr. unfold re.search.
  destruct (search_rating_skip pre None
              (String c a +:+ String "." (String d b +:+ r)) Hpre) as [->|[p' ->]];
    apply search_of_match_at; by apply match_at_rating_fraction.
Qed.

(** ** [int] and [float] on digits *)

Lemma dec_value_app acc a b : dec_value acc (a +:+ b) = dec_value (dec_value acc a) b.
Proof.
  revert acc. induction a as [|c a IH]; intros acc; [done|].
  rewrite app_String. simpl. apply IH.
Qed.

Lemma more_digits_run a : forall acc n r,
  Py.all_chars Py.isdigit a = true -> ends_number r = true ->
  PyFloat.more_digits acc n (a +:+ r) = (dec_value acc a, n + String.length a, r).
Proof.
  induction a as [|c a IH]; intros acc n r Ha Hr.
  - rewrite app_empty_l, Nat.add_0_r. destruct r as [|d r]; [done|].
    simpl in Hr. apply andb_true_iff in Hr as [Hd Hu].
    apply negb_true_iff in Hd, Hu. simpl. by rewrite Hd, Hu.
  - rewrite app_String. simpl in *. apply andb_true_iff in Ha as [-> Ha].
    rewrite IH by done. f_equal. f_equal. lia.
Qed.

Lemma digits_run c a acc r :
  Py.isdigit c = true -> Py.all_chars Py.isdigit a = true -> ends_number r = true ->
  PyFloat.digits acc (String c a +:+ r)
  = (dec_value acc (String c a), S (String.length a), r).
Proof.
  intros Hc Ha Hr. rewrite app_String. unfold PyFloat.digits. rewrite Hc.
  by rewrite more_digits_run.
Qed.

Lemma decimal_integer c a :
  Py.isdigit c = true -> Py.all_chars Py.isdigit a = true ->
  PyFloat.decimal (String c a) = Some (dec_value 0 (String c a), 0%Z).
Proof.
  intros Hc Ha. unfold PyFloat.decimal.
  rewrite <- (app_empty_r (String c a)) at 1. rewrite digits_run by done. done.
Qed.

Lemma decimal_fraction c a d b :
  Py.isdigit c = true -> Py.all_chars Py.isdigit a = true ->
  Py.isdigit d = true -> Py.all_chars Py.isdigit b = true ->
  PyFloat.decimal (String c a +:+ String "." (String d b))
  = Some (dec_value 0 (String c a +:+ String d b),
          (- Z.of_nat (String.length (String d b)))%Z).
Proof.
  intros Hc Ha Hd Hb. unfold PyFloat.decimal.
  rewrite digits_run by done.
  rewrite <- (app_empty_r (String d b)) at 1. rewrite digits_run by done.
  rewrite dec_value_app. done.
Qed.

Lemma lstrip_by_id p c s : p c = false -> Py.lstrip_by p (String c s) = String c s.
Proof. simpl. by intros ->. Qed.

Lemma rstrip_by_id p s :
  Py.all_chars (fun c => negb (p c)) s = true -> Py.rstrip_by p s = s.
Proof.
  induction s as [|c s IH]; [done|]. simpl. intros [Hc Hs]%andb_true_iff.
  rewrite IH by done. apply negb_true_iff in Hc. rewrite Hc. by destruct s.
Qed.

Lemma digit_not_space c : Py.isdigit c = true -> Py.isspace c = false.
Proof.
  unfold Py.isdigit, Py.isspace. intros [H1 H2]%andb_true_iff.
  apply Nat.leb_le in H1, H2.
  apply orb_false_iff. split; apply andb_false_iff; right; apply Nat.leb_gt; lia.
Qed.

Lemma digits_not_space s :
  Py.all_chars Py.isdigit s = true ->
  Py.all_chars (fun c => negb (Py.isspace c)) s = true.
Proof.
  induction s as [|c s IH]; [done|]. simpl. intros [Hc Hs]%andb_true_iff.
  by rewrite (digit_not_space c Hc), IH.
Qed.

Lemma not_space_ISSPACE c : Py.isspace c = false -> Py.ISSPACE c = false.
Proof. destruct c as [[] [] [] [] [] [] [] []]; vm_compute; congruence. Qed.

Lemma no_space_ISSPACE s :
  Py.all_chars (fun c => negb (Py.isspace c)) s = true ->
  Py.all_chars (fun c => negb (Py.ISSPACE c)) s = true.
Proof.
  induction s as [|c s IH]; [done|]. simpl. intros [Hc Hs]%andb_true_iff.
  apply negb_true_iff in Hc. by rewrite (not_space_ISSPACE c Hc), IH.
Qed.

(** A text that starts with a digit and has no blank is read as a decimal
    number, without sign. *)
Lemma float_unsigned c s :
  Py.isdigit c = true ->
  Py.all_chars (fun c => negb (Py.isspace c)) s = true ->
  PyFloat.float (String c s)
  = match PyFloat.decimal (String c s) with
    | Some (m, e) => Ok (PyFloat.of_decimal false m e)
    | None => Raise ValueError
    end.
Proof.
  intros Hc Hs. unfold PyFloat.float.
  rewrite lstrip_by_id by by apply not_space_ISSPACE, digit_not_space.
  rewrite rstrip_by_id
    by (apply no_space_ISSPACE; simpl; by rewrite (digit_not_space c Hc), Hs).
  destruct c as [[] [] [] [] [] [] [] []]; try discriminate Hc;
    cbn -[PyFloat.decimal PyFloat.of_decimal]; reflexivity.
Qed.

Lemma int_digits_run s : forall acc,
  Py.all_chars Py.isdigit s = true -> Py.int_digits acc false s = Some (dec_value acc s).
Proof.
  induction s as [|c s IH]; intros acc Hs; [done|].
  simpl in *. apply andb_true_iff in Hs as [-> Hs]. by apply IH.
Qed.

(** [int] of a non-empty string of digits. *)
Lemma int_of_digits c s :
  Py.isdigit c = true -> Py.all_chars Py.isdigit s = true ->
  Py.int (String c s) = Ok (dec_value 0 (String c s)).
Proof.
  intros Hc Hs. unfold Py.int.
  rewrite lstrip_by_id by by apply not_space_ISSPACE, digit_not_space.
  rewrite rstrip_by_id
    by (apply no_space_ISSPACE; simpl;
        by rewrite (digit_not_space c Hc), (digits_not_space s Hs)).
  assert (Py.int_unsigned (String c s) = Some (dec_value 0 (String c s))) as Hu.
  { unfold Py.int_unsigned. rewrite Hc. apply int_digits_run. simpl. by rewrite Hc. }
  generalize dependent (Py.int_unsigned (String c s)). intros o ->.
  destruct c as [[] [] [] [] [] [] [] []]; try discriminate Hc; reflexivity.
Qed.

Lemma dec_value_nonneg s : forall acc, (0 <= acc)%Z -> (0 <= dec_value acc s)%Z.
Proof.
  induction s as [|c s IH]; intros acc Hacc; [done|]. simpl. apply IH.
  unfold Py.digit_val. lia.
Qed.

(** ** The pattern for the number at the end of a file name *)

Lemma trailing_exec_unfold st :
  re.exec TRAILING_NUMBER_RE st =
  flat_map (fun s1 => flat_map (re.exec re.Dollar)
                        (re.exec (re.Star (re.Chr re.nondigit)) s1))
    (map (fun st' =>
            re.MState (re.prev st') (re.rest st')
              (Some (re.take (String.length (re.rest st) - String.length (re.rest st'))
                             (re.rest st))))
         (re.exec (re.Plus (re.Chr re.digit)) st)).
Proof. reflexivity. Qed.

Lemma all_nondigit_not_starting b :
  Py.all_chars re.nondigit b = true -> not_starting Py.isdigit b = true.
Proof. destruct b as [|c b]; [done|]. simpl. by intros [? _]%andb_true_iff. Qed.

(** At the last run of digits the pattern matches and captures the run. *)
Lemma match_at_trailing p c a b :
  Py.isdigit c = true -> Py.all_chars Py.isdigit a = true ->
  Py.all_chars re.nondigit b = true ->
  re.group <$> re.match_at TRAILING_NUMBER_RE p (String c a +:+ b)
  = Some (Some (String c a)).
Proof.
  intros Hc Ha Hb. unfold re.match_at. rewrite trailing_exec_unfold.
  destruct (exec_plus_digits_head c a p b None Hc Ha) as (pv & tl & ->);
    [by apply all_nondigit_not_starting|].
  cbn [map flat_map re.rest re.prev]. rewrite exec_star_chr.
  destruct (star_chr_head_all re.nondigit b pv
              (Some (re.take (String.length (String c a +:+ b) - String.length b)
                             (String c a +:+ b))) Hb) as (pv' & tl' & ->).
  cbn [flat_map re.exec re.at_end re.rest app head fmap option_fmap option_map
       re.group re.group1].
  rewrite length_app_str, Nat.add_sub, take_app. done.
Qed.

Lemma at_end_nondigit st :
  re.at_end st = true -> Py.all_chars re.nondigit (re.rest st) = true.
Proof.
  unfold re.at_end. destruct (re.rest st) as [|c [|d r]]; try done.
  intros ->%Ascii.eqb_eq. done.
Qed.

(** Where the pattern matches, digits come first and no digit follows
    them. *)
Lemma match_at_trailing_inv p s m :
  re.match_at TRAILING_NUMBER_RE p s = Some m ->
  exists c a b, s = String c a +:+ b /\ Py.isdigit c = true /\
    Py.all_chars Py.isdigit a = true /\ Py.all_chars re.nondigit b = true.
Proof.
  unfold re.match_at. intros Hm%head_Some_elem_of.
  rewrite trailing_exec_unfold in Hm.
  apply list_elem_of_In, in_flat_map in Hm as (s1 & Hs1 & Hm).
  apply in_flat_map in Hm as (y & Hy & Hm).
  apply list_elem_of_In, list_elem_of_fmap in Hs1 as (x & -> & Hx).
  rewrite exec_plus_chr in Hx. destruct s as [|c s]; [by apply elem_of_nil in Hx|].
  unfold re.digit in Hx. destruct (Py.isdigit c) eqn:Hc; [|by apply elem_of_nil in Hx].
  apply star_chr_elem in Hx as (a & -> & Ha & _).
  cbn [re.rest re.prev] in Hy.
  rewrite exec_star_chr in Hy. apply list_elem_of_In, star_chr_elem in Hy as (b & Hb & Hb' & _).
  simpl in Hm. destruct (re.at_end y) eqn:Hend; [|done].
  exists c, a, (b +:+ re.rest y). repeat split; try done.
  - rewrite app_String. by rewrite Hb.
  - rewrite all_chars_app, Hb'. by apply at_end_nondigit.
Qed.

Lemma match_at_trailing_none p s :
  not_starting Py.isdigit s = true -> re.match_at TRAILING_NUMBER_RE p s = None.
Proof.
  intros Hs. destruct (re.match_at _ _ _) as [m|] eqn:Hm; [|done].
  apply match_at_trailing_inv in Hm as (c & a & b & -> & Hc & _).
  rewrite app_String in Hs. simpl in Hs. by rewrite Hc in Hs.
Qed.

Lemma search_trailing_no_digit s : forall p,
  Py.any_char Py.isdigit s = false -> re.search_from TRAILING_NUMBER_RE p s = None.
Proof.
  induction s as [|c s IH]; intros p Hs.
  - cbn [re.search_from]. by rewrite match_at_trailing_none.
  - simpl in Hs. apply orb_false_iff in Hs as [Hc Hs]. cbn [re.search_from].
    rewrite match_at_trailing_none by (simpl; by rewrite Hc). by apply IH.
Qed.

(** Digits and then no digit cannot be a text in which a digit comes
    after a character that is none. *)
Lemma digits_then_none_clash a0 : forall b0 pre c r,
  Py.all_chars Py.isdigit a0 = true -> Py.all_chars re.nondigit b0 = true ->
  pre <> "" -> last_is Py.isdigit pre = false -> Py.isdigit c = true ->
  a0 +:+ b0 = pre +:+ String c r -> False.
Proof.
  induction a0 as [|y a0 IH]; intros b0 pre c r Ha Hb Hpre Hlast Hc Heq.
  - rewrite app_empty_l in Heq. subst b0. rewrite all_chars_app in Hb.
    apply andb_true_iff in Hb as [_ Hb]. simpl in Hb. unfold re.nondigit in Hb.
    by rewrite Hc in Hb.
  - destruct pre as [|x pre]; [done|]. rewrite !app_String in Heq.
    injection Heq as -> Heq. simpl in Ha. apply andb_true_iff in Ha as [Hx Ha].
    destruct pre as [|x' pre].
    + simpl in Hlast. congruence.
    + eapply (IH b0 (String x' pre)); eauto.
Qed.

(** [re.search] finds the last run of digits. *)
Lemma search_trailing pre : forall p c a b,
  last_is Py.isdigit pre = false ->
  Py.isdigit c = true -> Py.all_chars Py.isdigit a = true ->
  Py.all_chars re.nondigit b = true ->
  re.group <$> re.search_from TRAILING_NUMBER_RE p (pre +:+ String c a +:+ b)
  = Some (Some (String c a)).
Proof.
  induction pre as [|x pre IH]; intros p c a b Hlast Hc Ha Hb.
  - rewrite app_empty_l. apply search_of_match_at. by apply match_at_trailing.
  - rewrite app_String. cbn [re.search_from].
    destruct (re.match_at _ _ _) as [m|] eqn:Hm.
    + exfalso. apply match_at_trailing_inv in Hm as (c0 & a0 & b0 & Heq & Hc0 & Ha0 & Hb0).
      apply (digits_then_none_clash (String c0 a0) b0 (String x pre) c (a +:+ b));
        try done.
      simpl. by rewrite Hc0.
    + apply IH; try done. destruct pre; [done|exact Hlast].
Qed.

Lemma rstrip_by_all p b : Py.all_chars p b = true -> Py.rstrip_by p b = "".
Proof.
  induction b as [|c b IH]; [done|]. simpl. intros [Hc Hb]%andb_true_iff.
  by rewrite IH, Hc.
Qed.

Lemma rstrip_by_app p x b :
  last_is p x = false -> Py.all_chars p b = true -> Py.rstrip_by p (x +:+ b) = x.
Proof.
  intros Hx Hb. induction x as [|c x IH].
  - rewrite app_empty_l. by apply rstrip_by_all.
  - rewrite app_String. cbn [Py.rstrip_by]. destruct x as [|d x].
    + rewrite app_empty_l, rstrip_by_all by done. simpl in Hx. by rewrite Hx.
    + rewrite IH by exact Hx. done.
Qed.

Lemma last_is_app p a b : b <> "" -> last_is p (a +:+ b) = last_is p b.
Proof.
  intros Hb. induction a as [|c a IH]; [done|]. rewrite app_String.
  cbn [last_is]. rewrite IH. destruct (a +:+ b) eqn:Hab; [|done].
  destruct a; [|done]. rewrite app_empty_l in Hab. done.
Qed.

Lemma last_is_nondigit_digits s :
  Py.all_chars Py.isdigit s = true -> last_is re.nondigit s = false.
Proof.
  induction s as [|c s IH]; [done|]. simpl. intros [Hc Hs]%andb_true_iff.
  destruct s; [|by apply IH]. unfold re.nondigit. by rewrite Hc.
Qed.

Lemma last_is_false_not_all p s :
  s <> "" -> last_is p s = false -> Py.all_chars p s = false.
Proof.
  induction s as [|c s IH]; [done|]. intros _ Hl. simpl.
  destruct s as [|d s].
  - simpl in Hl. by rewrite Hl.
  - rewrite IH by done. apply andb_false_r.
Qed.

Lemma suffix_by_app p pre d :
  last_is p pre = false -> Py.all_chars p d = true -> suffix_by p (pre +:+ d) = d.
Proof.
  intros Hpre Hd. induction pre as [|x pre IH].
  - rewrite app_empty_l. destruct d as [|c a]; [done|]. simpl in *. by rewrite Hd.
  - rewrite app_String. cbn [suffix_by].
    assert (p x && Py.all_chars p (pre +:+ d) = false) as ->.
    { rewrite all_chars_app, andb_assoc.
      change (p x && Py.all_chars p pre) with (Py.all_chars p (String x pre)).
      by rewrite last_is_false_not_all. }
    apply IH. destruct pre; [done|exact Hpre].
Qed.

Lemma trailing_digits_run pre c a b :
  last_is Py.isdigit pre = false ->
  Py.isdigit c = true -> Py.all_chars Py.isdigit a = true ->
  Py.all_chars re.nondigit b = true ->
  trailing_digits (pre +:+ String c a +:+ b) = String c a.
Proof.
  intros Hpre Hc Ha Hb. unfold trailing_digits.
  rewrite <- app_assoc_str, rstrip_by_app; [|rewrite last_is_app by done|done].
  - apply suffix_by_app; [done|]. simpl. by rewrite Hc.
  - apply last_is_nondigit_digits. simpl. by rewrite Hc.
Qed.

Lemma no_digit_all_nondigit s :
  Py.any_char Py.isdigit s = false -> Py.all_chars re.nondigit s = true.
Proof.
  induction s as [|c s IH]; [done|]. simpl. intros [Hc Hs]%orb_false_iff.
  unfold re.nondigit at 1. by rewrite Hc, IH.
Qed.

Lemma trailing_digits_none s :
  Py.any_char Py.isdigit s = false -> trailing_digits s = "".
Proof.
  intros Hs. unfold trailing_digits.
  by rewrite rstrip_by_all by by apply no_digit_all_nondigit.
Qed.

(** Every text has no digit at all, or a last run of digits. *)
Lemma last_run_cases s :
  Py.any_char Py.isdigit s = false \/
  exists pre c a b,
    s = pre +:+ String c a +:+ b /\ last_is Py.isdigit pre = false /\
    Py.isdigit c = true /\ Py.all_chars Py.isdigit a = true /\
    Py.all_chars re.nondigit b = true.
Proof.
  induction s as [|x s IH]; [by left|].
  destruct IH as [Hs|(pre & c & a & b & -> & Hpre & Hc & Ha & Hb)].
  - destruct (Py.isdigit x) eqn:Hx.
    + right. exists "", x, "", s. rewrite app_empty_l.
      repeat split; try done. by apply no_digit_all_nondigit.
    + left. simpl. by rewrite Hx.
  - right. destruct pre as [|y pre].
    + destruct (Py.isdigit x) eqn:Hx.
      * exists "", x, (String c a), b. repeat split; try done. simpl. by rewrite Hc.
      * exists (String x ""), c, a, b. repeat split; done.
    + exists (String x (String y pre)), c, a, b. repeat split; done.
Qed.

(** What [re.search(r'(\d+)\D*$', s)] captures is the trailing digits of
    [s]; there is no match when [s] has no digit. *)
Lemma search_trailing_spec s :
  re.group <$> re.search TRAILING_NUMBER_RE s
  = match trailing_digits s with
    | EmptyString => None
    | d => Some (Some d)
    end.
Proof.
  destruct (last_run_cases s) as [Hs|(pre & c & a & b & -> & Hpre & Hc & Ha & Hb)].
  - unfold re.search. by rewrite search_trailing_no_digit, trailing_digits_none.
  - unfold re.search. by rewrite search_trailing, trailing_digits_run.
Qed.

Lemma trailing_digits_digits s :
  Py.all_chars Py.isdigit (trailing_digits s) = true.
Proof.
  destruct (last_run_cases s) as [Hs|(pre & c & a & b & -> & Hpre & Hc & Ha & Hb)].
  - by rewrite trailing_digits_none.
  - rewrite trailing_digits_run by done. simpl. by rewrite Hc.
Qed.

(** ** The first number of a text *)

(** [Py.break] at the first character that is no digit. *)
Lemma break_digits s :
  exists a r, Py.break re.nondigit s = (a, r) /\ s = a +:+ r /\
    Py.all_chars Py.isdigit a = true /\ not_starting Py.isdigit r = true.
Proof.
  induction s as [|c s (a & r & Hbr & Hs & Ha & Hr)].
  - by exists "", "".
  - simpl. unfold re.nondigit at 1. destruct (Py.isdigit c) eqn:Hc; simpl.
    + rewrite Hbr. exists (String c a), r. rewrite app_String, <- Hs. simpl.
      by rewrite Hc, Ha.
    + exists "", (String c s). simpl. by rewrite Hc.
Qed.

Lemma break_digits_cons c s :
  Py.isdigit c = true ->
  exists a r, Py.break re.nondigit (String c s) = (String c a, r) /\
    s = a +:+ r /\
    Py.all_chars Py.isdigit a = true /\ not_starting Py.isdigit r = true.
Proof.
  intros Hc. destruct (break_digits s) as (a & r & Hbr & Hs & Ha & Hr).
  exists a, r. simpl. unfold re.nondigit at 1. by rewrite Hc, Hbr.
Qed.

(** What [re.search(r"(\d+(?:\.\d+)?)", s)] captures is the first number
    of [s]. *)
Lemma search_rating_spec s : forall p,
  re.group <$> re.search_from RATING_RE p s = Some <$> first_number s.
Proof.
  induction s as [|c s IH]; intros p.
  - done.
  - destruct (Py.isdigit c) eqn:Hc.
    + cbn [first_number]. rewrite Hc.
      destruct (break_digits_cons c s Hc) as (a & r & -> & -> & Ha & Hr).
      rewrite <- app_String.
      destruct r as [|x r'].
      { apply search_of_match_at. by apply match_at_rating_integer. }
      destruct (Ascii.eqb x ".") eqn:Hx.
      * apply Ascii.eqb_eq in Hx as ->.
        destruct (break_digits r') as (b & r'' & -> & -> & Hb & Hr'').
        destruct b as [|d b].
        -- apply search_of_match_at. by apply match_at_rating_integer.
        -- simpl in Hb. apply andb_true_iff in Hb as [Hd Hb].
           apply search_of_match_at. by apply match_at_rating_fraction.
      * apply search_of_match_at. apply match_at_rating_integer; try done.
        destruct x as [[] [] [] [] [] [] [] []]; try done.
    + cbn [first_number re.search_from]. rewrite Hc.
      rewrite match_at_rating_none by (simpl; by rewrite Hc). apply IH.
Qed.

Lemma break_cons p c s :
  Py.break p (String c s)
  = if p c then ("", String c s) else let '(a, b) := Py.break p s in (String c a, b).
Proof. reflexivity. Qed.

Lemma break_point_digits a r :
  Py.all_chars Py.isdigit a = true -> not_starting (fun c => negb (Ascii.eqb "." c)) r = true ->
  Py.break (Ascii.eqb ".") (a +:+ r) = (a, r).
Proof.
  intros Ha Hr. induction a as [|c a IH].
  - rewrite app_empty_l. destruct r as [|x r]; [done|]. rewrite break_cons.
    unfold not_starting in Hr. apply negb_true_iff, negb_false_iff in Hr. by rewrite Hr.
  - rewrite app_String, break_cons. cbn [Py.all_chars] in Ha.
    apply andb_true_iff in Ha as [Hc Ha]. rewrite IH by done.
    destruct (Ascii.eqb "." c) eqn:Heq; [|done].
    apply Ascii.eqb_eq in Heq. subst c. discriminate Hc.
Qed.

Lemma partition_digits_none s :
  Py.all_chars Py.isdigit s = true -> Py.partition "." s = None.
Proof.
  unfold Py.partition. intros Hs.
  rewrite <- (app_empty_r s). by rewrite break_point_digits.
Qed.

Lemma partition_digits_point a b :
  Py.all_chars Py.isdigit a = true ->
  Py.partition "." (a +:+ String "." b) = Some (a, b).
Proof.
  unfold Py.partition. intros Ha. by rewrite break_point_digits.
Qed.

(** The first number of a text is a literal that [float] reads as
    [literal_value]. *)
Lemma float_first_number s lit :
  first_number s = Some lit -> PyFloat.float lit = Ok (literal_value lit).
Proof.
  induction s as [|c s IH]; [done|]. cbn [first_number].
  destruct (Py.isdigit c) eqn:Hc; [|exact IH].
  destruct (break_digits_cons c s Hc) as (a & r & -> & _ & Ha & Hr).
  assert (PyFloat.float (String c a) = Ok (literal_value (String c a))) as Hint.
  { rewrite float_unsigned, decimal_integer by (try apply digits_not_space; done).
    unfold literal_value. rewrite partition_digits_none; [done|]. simpl. by rewrite Hc. }
  destruct r as [|x r']; [by intros [= <-]|].
  destruct (Ascii.eqb x ".") eqn:Hx.
  - apply Ascii.eqb_eq in Hx as ->.
    destruct (break_digits r') as (b & r'' & -> & _ & Hb & _).
    destruct b as [|d b]; [by intros [= <-]|]. intros [= <-].
    simpl in Hb. apply andb_true_iff in Hb as [Hd Hb].
    change ("." +:+ String d b) with (String "." (String d b)).
    pose proof (float_unsigned c (a +:+ String "." (String d b)) Hc) as Hf.
    rewrite <- app_String in Hf. rewrite Hf.
    + rewrite decimal_fraction by done. unfold literal_value.
      rewrite partition_digits_point; [done|]. simpl. by rewrite Hc.
    + rewrite all_chars_app. rewrite (digits_not_space a Ha). simpl.
      rewrite (digit_not_space d Hd), (digits_not_space b Hb). done.
  - by intros [= <-].
Qed.

Lemma first_number_nonempty s lit : first_number s = Some lit -> s <> "".
Proof. by destruct s. Qed.

Lemma first_number_no_digit s :
  Py.any_char Py.isdigit s = false -> first_number s = None.
Proof.
  induction s as [|c s IH]; [done|]. simpl. intros [Hc Hs]%orb_false_iff.
  rewrite Hc. by apply IH.
Qed.

(** ** [int(str(n))] *)

Lemma dec_value_uint_acc d : forall acc : positive,
  dec_value (Zpos acc) (NilEmpty.string_of_uint d) = Zpos (Pos.of_uint_acc d acc).
Proof.
  induction d; intros acc; simpl; [done|..]; rewrite <- IHd; f_equal;
    match goal with
    | |- context [Py.digit_val ?c] =>
        let v := eval vm_compute in (Py.digit_val c) in
        change (Py.digit_val c) with v
    end; lia.
Qed.

Lemma dec_value_uint d :
  dec_value 0 (NilEmpty.string_of_uint d) = Z.of_N (Pos.of_uint d).
Proof.
  induction d; simpl; [done|exact IHd|..]; apply dec_value_uint_acc.
Qed.

Lemma uint_digits d : Py.all_chars Py.isdigit (NilEmpty.string_of_uint d) = true.
Proof. induction d; simpl; [done|..]; exact IHd. Qed.

Lemma nilzero_nonnil d :
  d <> Decimal.Nil -> NilZero.string_of_uint d = NilEmpty.string_of_uint d.
Proof. by destruct d. Qed.

Lemma uint_nonempty d : d <> Decimal.Nil -> NilEmpty.string_of_uint d <> "".
Proof. by destruct d. Qed.

Lemma str_positive p :
  exists c s, Py.str (Zpos p) = String c s /\ Py.isdigit c = true /\
    Py.all_chars Py.isdigit s = true /\ dec_value 0 (String c s) = Zpos p.
Proof.
  unfold Py.str. cbn [Z.to_int NilZero.string_of_int].
  pose proof (DecimalPos.Unsigned.to_uint_nonnil p) as Hnil.
  rewrite nilzero_nonnil by done.
  pose proof (uint_nonempty _ Hnil) as Hne.
  pose proof (uint_digits (Pos.to_uint p)) as Hd.
  pose proof (dec_value_uint (Pos.to_uint p)) as Hv.
  rewrite DecimalPos.Unsigned.of_to in Hv.
  destruct (NilEmpty.string_of_uint (Pos.to_uint p)) as [|c s]; [done|].
  simpl in Hd. apply andb_true_iff in Hd as [Hc Hs]. by exists c, s.
Qed.

(** [str] writes an integer that [int] reads back. *)
Lemma int_str n : Py.int (Py.str n) = Ok n.
Proof.
  destruct n as [|p|p].
  - reflexivity.
  - destruct (str_positive p) as (c & s & -> & Hc & Hs & Hv).
    by rewrite int_of_digits, Hv.
  - destruct (str_positive p) as (c & s & Hstr & Hc & Hs & Hv).
    unfold Py.str in *. cbn [Z.to_int NilZero.string_of_int] in *. rewrite Hstr.
    unfold Py.int. rewrite lstrip_by_id by done.
    rewrite rstrip_by_id.
    + cbn [fmap option_fmap option_map]. unfold Py.int_unsigned. rewrite Hc.
      rewrite int_digits_run by (simpl; by rewrite Hc). by rewrite Hv.
    + apply no_space_ISSPACE. cbn [Py.all_chars].
      rewrite (digit_not_space c Hc), (digits_not_space s Hs). done.
Qed.

(** The text of a number that is not negative is made of digits. *)
Lemma str_nonneg_digits n :
  (0 <= n)%Z -> Py.all_chars Py.isdigit (Py.str n) = true.
Proof.
  destruct n as [|p|p]; [done| |lia]. intros _.
  destruct (str_positive p) as (c & s & -> & Hc & Hs & _). simpl. by rewrite Hc.
Qed.

(** ** Traces *)

Lemma fetched_app (t1 t2 : list event) : fetched (t1 ++ t2) = fetched t1 ++ fetched t2.
Proof. apply omap_app. Qed.

Lemma requested_app (t1 t2 : list event) :
  requested (t1 ++ t2) = requested t1 ++ requested t2.
Proof. apply omap_app. Qed.

(** ** [fetch] *)

Section FetchProperties.
Context {W : Type} `{!Session W}.

Lemma retry_status_spec code :
  retry_status code = true <-> code ∈ [429; 500; 502; 503; 504; 403]%Z.
Proof. unfold retry_status. by rewrite bool_decide_eq_true. Qed.

Lemma fetch_loop_attempts url backoff left : forall k w,
  exists r evs n',
    fetch_loop url backoff (seq k left) w = (r, mkWorld n' (trace w ++ evs)) /\
    attempts url backoff k left (net w) r evs n'.
Proof.
  induction left as [|left IH]; intros k w; simpl.
  - exists (Ok None), [], (net w). rewrite app_nil_r.
    destruct w; split; [done|constructor].
  - destruct (session_get url (net w)) as [o n1] eqn:Hget.
    destruct o as [code body| |e].
    + destruct ((200 <=? code)%Z && (code <? 300)%Z) eqn:H2xx.
      * exists (Ok (Some body)), [Get url], n1. split; [done|].
        eapply attempts_success; [done|]. apply andb_true_iff in H2xx. lia.
      * assert (¬ (200 <= code < 300)%Z) as Hn2xx.
        { apply andb_false_iff in H2xx. lia. }
        destruct (retry_status code) eqn:Hretry.
        -- destruct (IH (S k) (emit (SleepBackoff backoff k)
                      (emit Stderr (emit (Get url) (mkWorld n1 (trace w))))))
             as (r & evs & n2 & Heq & Hatt).
           exists r, (Get url :: Stderr :: SleepBackoff backoff k :: evs), n2.
           split.
           ++ rewrite Heq. simpl. by rewrite <- !app_assoc.
           ++ eapply attempts_retry_status; eauto. by apply retry_status_spec.
        -- exists (Ok None), [Get url; Stderr], n1. split.
           ++ simpl. unfold emit. simpl. by rewrite <- app_assoc.
           ++ eapply attempts_terminal; eauto.
              rewrite <- retry_status_spec. by rewrite Hretry.
    + destruct (IH (S k) (emit (SleepBackoff backoff k)
                      (emit Stderr (emit (Get url) (mkWorld n1 (trace w))))))
             as (r & evs & n2 & Heq & Hatt).
      exists r, (Get url :: Stderr :: SleepBackoff backoff k :: evs), n2.
      split.
      * rewrite Heq. simpl. by rewrite <- !app_assoc.
      * eapply attempts_retry_exception; eauto.
    + exists (Raise e), [Get url], n1. split; [done|].
      by eapply attempts_raise.
Qed.

(** The effects of the attempts: GETs of [url] only, at most one for
    each attempt, and no call of [fetch]. *)
Lemma attempts_effects url backoff k left n r evs n' :
  attempts url backoff k left n r evs n' ->
  fetched evs = [] /\
  Forall (eq url) (requested evs) /\
  length (requested evs) <= left.
Proof.
  induction 1 as [| | | | ? ? ? ? ? ? ? ? ? ? ? ? ? (IH1 & IH2 & IH3)
                  | ? ? ? ? ? ? ? ? ? (IH1 & IH2 & IH3)]; simpl.
  - repeat split; [constructor|lia].
  - repeat split; [by repeat constructor|lia].
  - repeat split; [by repeat constructor|lia].
  - repeat split; [by repeat constructor|lia].
  - repeat split; [done|by constructor|lia].
  - repeat split; [done|by constructor|lia].
Qed.

(** A sleep happens only between attempts, after an exception or one of
    the six status codes, and lasts [backoff ** attempt]. *)
Lemma attempts_sleeps url backoff k left n r evs n' :
  attempts url backoff k left n r evs n' ->
  forall b a, SleepBackoff b a ∈ evs -> b = backoff /\ k <= a < k + left.
Proof.
  induction 1 as [| | | | ? ? ? ? ? ? ? ? ? ? ? ? ? IH | ? ? ? ? ? ? ? ? ? IH];
    intros b a Hin.
  - by apply elem_of_nil in Hin.
  - apply elem_of_cons in Hin as [?|Hin]; [done|]. by apply elem_of_nil in Hin.
  - apply elem_of_cons in Hin as [?|Hin]; [done|].
    apply elem_of_cons in Hin as [?|Hin]; [done|]. by apply elem_of_nil in Hin.
  - apply elem_of_cons in Hin as [?|Hin]; [done|]. by apply elem_of_nil in Hin.
  - rewrite !elem_of_cons in Hin. destruct Hin as [?|[?|[Heq|Hin]]]; try done.
    + injection Heq as -> ->. split; [done|lia].
    + destruct (IH _ _ Hin). split; [done|lia].
  - rewrite !elem_of_cons in Hin. destruct Hin as [?|[?|[Heq|Hin]]]; try done.
    + injection Heq as -> ->. split; [done|lia].
    + destruct (IH _ _ Hin). split; [done|lia].
Qed.

(** The effects, one by one: no call of [fetch], and only sleeps of
    [backoff ** attempt] for an attempt that was made. *)
Lemma attempts_events url backoff k left n r evs n' :
  attempts url backoff k left n r evs n' ->
  Forall (fun e => match e with
                   | SleepBackoff b a => b = backoff /\ k <= a < k + left
                   | Fetch _ | SleepDelay _ => False
                   | Get u => u = url
                   | Stderr => True
                   end) evs.
Proof.
  induction 1 as [| | | | ? ? ? ? ? ? ? ? ? ? ? ? ? IH | ? ? ? ? ? ? ? ? ? IH].
  - constructor.
  - by repeat constructor.
  - by repeat constructor.
  - by repeat constructor.
  - repeat (constructor; [first [done | split; [done|lia]]|]).
    eapply Forall_impl; [exact IH|]. intros [] ?; try done. simpl in *. split; [tauto|lia].
  - repeat (constructor; [first [done | split; [done|lia]]|]).
    eapply Forall_impl; [exact IH|]. intros [] ?; try done. simpl in *. split; [tauto|lia].
Qed.

(** A result is the body of a 2xx response. *)
Lemma attempts_result url backoff k left n r evs n' :
  attempts url backoff k left n r evs n' ->
  forall body, r = Ok (Some body) ->
  exists m m' code,
    session_get url m = (Response code body, m') /\ (200 <= code < 300)%Z.
Proof.
  induction 1; intros b Hb; try done; eauto.
  injection Hb as <-. eauto.
Qed.

Lemma fetch_trace url w :
  exists evs,
    trace (fetch url w).2 = trace w ++ Fetch url :: evs /\
    fetched evs = [] /\
    Forall (eq url) (requested evs) /\
    length (requested evs) <= DEFAULT_MAX_RETRIES.
Proof.
  unfold fetch, fetch_with.
  destruct (fetch_loop_attempts url DEFAULT_BACKOFF DEFAULT_MAX_RETRIES 1
              (emit (Fetch url) w)) as (r & evs & n' & Heq & Hatt).
  exists evs. rewrite Heq. simpl. rewrite <- app_assoc. split; [done|].
  eapply attempts_effects, Hatt.
Qed.

End FetchProperties.

(** ** The online loop *)

Section OnlineProperties.
Context {W : Type} `{!Session W} `{!Soup}.

Lemma truthy_str_nonempty s : Py.truthy_str s = true <-> s <> "".
Proof. destruct s; simpl; split; congruence. Qed.

(** The loop fetches no URL of [seen_urls], nor the empty one, and none
    twice. *)
Lemma online_loop_fetches_fresh args turns : forall url seen all w,
  exists evs,
    trace (online_loop args turns url seen all w).2 = trace w ++ evs /\
    NoDup (fetched evs) /\
    (forall u, u ∈ fetched evs -> (u ∉ seen) /\ u <> "").
Proof.
  induction turns as [|turns IH]; intros url seen all w.
  - exists []. simpl. rewrite app_nil_r. split; [done|]. split; [constructor|].
    intros u Hu. by apply elem_of_nil in Hu.
  - assert (forall w0 : world W, exists evs,
              trace (emit Stderr w0) = trace w0 ++ evs /\
              NoDup (fetched evs) /\
              (forall u, u ∈ fetched evs -> (u ∉ seen) /\ u <> "")) as Hstop.
    { intros w0. exists [Stderr]. split; [done|]. split; [constructor|].
      intros u Hu. by apply elem_of_nil in Hu. }
    simpl.
    destruct (negb (Py.truthy_str url) || bool_decide (url ∈ seen)) eqn:Hguard;
      [apply Hstop|].
    apply orb_false_iff in Hguard as [Hurl Hseen].
    apply negb_false_iff, truthy_str_nonempty in Hurl.
    apply bool_decide_eq_false in Hseen.
    destruct (fetch_trace url w) as (evs1 & Htr & Hf1 & _).
    destruct (fetch url w) as [html w1]. simpl in Htr.
    (* every way out of this turn that makes no further call of [fetch] *)
    assert (forall (w2 : world W) tl, trace w2 = trace w1 ++ tl -> fetched tl = [] ->
              exists evs, trace w2 = trace w ++ evs /\
                NoDup (fetched evs) /\
                (forall u, u ∈ fetched evs -> (u ∉ seen) /\ u <> "")) as Hout.
    { intros w2 tl -> Htl. exists (Fetch url :: evs1 ++ tl).
      rewrite Htr, <- app_assoc. split; [done|].
      simpl. rewrite fetched_app, Hf1, Htl. simpl.
      split; [apply NoDup_singleton|].
      intros u Hu. apply list_elem_of_singleton in Hu as ->. done. }
    destruct html as [html|e];
      [|apply (Hout w1 []); [by rewrite app_nil_r|done]].
    destruct (negb (Py.truthy_opt html)); [by apply (Hout (emit Stderr w1) [Stderr])|].
    destruct (parse_reviews _ _ _) as [page_reviews|e];
      [|apply (Hout w1 []); [by rewrite app_nil_r|done]].
    destruct (find_next_url _ _ _) as [next_url|e];
      [|by apply (Hout (emit Stderr w1) [Stderr])].
    destruct (negb (Py.truthy_opt next_url)).
    { apply (Hout (emit Stderr (emit Stderr w1)) [Stderr; Stderr]); [|done].
      simpl. by rewrite <- app_assoc. }
    destruct (IH (default "" next_url) (seen ∪ {[url]}) (all ++ page_reviews)
                (emit (SleepDelay (delay args)) (emit Stderr w1)))
      as (evs2 & Htr2 & Hnd2 & Hfresh2).
    exists (Fetch url :: evs1 ++ [Stderr; SleepDelay (delay args)] ++ evs2).
    rewrite Htr2. simpl. rewrite Htr, <- !app_assoc. split; [done|].
    rewrite !fetched_app, Hf1. simpl. split.
    + apply NoDup_cons. split; [|done].
      intros Hin. destruct (Hfresh2 _ Hin) as [Hns _].
      apply not_elem_of_union in Hns as [_ Hns]. by apply Hns, elem_of_singleton.
    + intros u Hu. apply elem_of_cons in Hu as [->|Hu]; [done|].
      destruct (Hfresh2 _ Hu) as [Hns Hne].
      apply not_elem_of_union in Hns as [Hns _]. done.
Qed.

(** A URL that is empty or was seen stops the loop at once. *)
Lemma online_loop_stops_on_seen args turns url seen all (w : world W) :
  url = "" \/ url ∈ seen ->
  online_loop args (S turns) url seen all w = (Ok all, emit Stderr w).
Proof.
  intros Hstop. simpl.
  assert (negb (Py.truthy_str url) || bool_decide (url ∈ seen) = true) as ->; [|done].
  destruct Hstop as [->|Hin]; [done|].
  rewrite (bool_decide_eq_true_2 _ Hin). apply orb_true_r.
Qed.

End OnlineProperties.

Section TwoPages.
Context {W : Type} `{!Session W} `{!Soup}.

(** A 2xx answer to the first GET ends [fetch] with the body. *)
Lemma fetch_2xx url (w : world W) code body n' :
  session_get url (net w) = (Response code body, n') ->
  (200 <= code < 300)%Z ->
  fetch url w = (Ok (Some body), mkWorld n' (trace w ++ [Fetch url; Get url])).
Proof.
  intros Hget Hcode. unfold fetch, fetch_with. simpl. rewrite Hget.
  assert ((200 <=? code)%Z && (code <? 300)%Z = true) as ->.
  { apply andb_true_iff. lia. }
  unfold emit. simpl. by rewrite <- app_assoc.
Qed.

(** The run over a site of two pages: the first links to the second,
    the second to nothing. *)
Lemma online_two_pages args (w : world W) u1 u2 h1 h2 rs1 rs2 turns :
  u1 <> "" -> u2 <> "" -> u1 <> u2 -> h1 <> "" -> h2 <> "" ->
  (forall n, exists c n', session_get u1 n = (Response c h1, n') /\ (200 <= c < 300)%Z) ->
  (forall n, exists c n', session_get u2 n = (Response c h2, n') /\ (200 <= c < 300)%Z) ->
  parse_reviews h1 u1 (selectors args) = Ok rs1 ->
  find_next_url h1 u1 (or_none (sel_next args)) = Ok (Some u2) ->
  parse_reviews h2 u2 (selectors args) = Ok rs2 ->
  find_next_url h2 u2 (or_none (sel_next args)) = Ok None ->
  exists w' evs,
    online_loop args (S (S turns)) u1 ∅ [] w = (Ok (rs1 ++ rs2), w') /\
    trace w' = trace w ++ evs /\
    fetched evs = [u1; u2] /\
    requested evs = [u1; u2].
Proof.
  intros Hu1 Hu2 Hne Hh1 Hh2 Hget1 Hget2 Hp1 Hn1 Hp2 Hn2.
  destruct (Hget1 (net w)) as (c1 & n1 & Hg1 & Hc1).
  destruct (Hget2 n1) as (c2 & n2 & Hg2 & Hc2).
  eexists _, _.
  cbn [online_loop].
  apply truthy_str_nonempty in Hu1 as Hu1', Hu2 as Hu2', Hh1 as Hh1', Hh2 as Hh2'.
  rewrite Hu1'. rewrite bool_decide_eq_false_2 by apply not_elem_of_empty.
  cbn [negb orb].
  rewrite (fetch_2xx u1 w c1 h1 n1 Hg1 Hc1).
  cbn [Py.truthy_opt from_option id]. rewrite Hh1'. cbn [negb].
  rewrite Hp1, Hn1. cbn [Py.truthy_opt]. rewrite Hu2'. cbn [negb from_option id].
  cbn [online_loop]. rewrite Hu2'. cbn [negb].
  rewrite bool_decide_eq_false_2; last first.
  { intros Hin. apply elem_of_union in Hin as [Hin|Hin].
    - by apply not_elem_of_empty in Hin.
    - apply elem_of_singleton in Hin. congruence. }
  cbn [orb].
  erewrite fetch_2xx; [|exact Hg2|exact Hc2].
  cbn [Py.truthy_opt from_option id]. rewrite Hh2'. cbn [negb].
  rewrite Hp2, Hn2. cbn [Py.truthy_opt negb].
  split; [reflexivity|].
  unfold emit; cbn [trace net]. rewrite <- !app_assoc.
  split; [reflexivity|]. split; reflexivity.
Qed.

End TwoPages.

(** ** [parse_reviews] *)

Section ParseProperties.
Context `{!Soup}.

(** [parse_rating] lets no exception out: the group of the pattern is set
    whenever the pattern matches. *)
Lemma exec_group_set r st st' :
  st' ∈ re.exec (re.Group r) st -> is_Some (re.group1 st').
Proof.
  simpl. intros Hin. apply list_elem_of_fmap in Hin as (x & -> & _). by eexists.
Qed.

Lemma search_from_group_set r p s m :
  re.search_from (re.Group r) p s = Some m -> is_Some (re.group m).
Proof.
  revert p. induction s as [|c s IH]; intros p; simpl.
  - destruct (re.match_at _ _ _) eqn:Hm; [|done].
    intros [= <-]. unfold re.match_at in Hm.
    apply (exec_group_set r (re.MState p "" None)).
    apply head_Some_elem_of. exact Hm.
  - destruct (re.match_at _ _ _) eqn:Hm.
    + intros [= <-]. unfold re.match_at in Hm.
      apply (exec_group_set r (re.MState p (String c s) None)).
      apply head_Some_elem_of. exact Hm.
    + apply IH.
Qed.

Lemma parse_rating_total val : exists r, parse_rating val = Ok r.
Proof.
  unfold parse_rating. destruct (negb (Py.truthy_opt val)); [by eexists|].
  destruct (re.search RATING_RE _) as [m|] eqn:Hs; [|by eexists].
  apply search_from_group_set in Hs as [g Hg]. rewrite Hg.
  destruct (PyFloat.float g) as [x|[]] eqn:Hf; try by eexists.
  - unfold PyFloat.float in Hf. repeat case_match; simplify_eq.
  - unfold PyFloat.float in Hf. repeat case_match; simplify_eq.
Qed.

(** [parse_rating] reads the first number of the text. *)
Lemma parse_rating_spec val :
  parse_rating val = Ok (literal_value <$> (val ≫= first_number)).
Proof.
  unfold parse_rating. destruct val as [s|]; [|done]. cbn [Py.truthy_opt mbind option_bind].
  destruct s as [|c s]; [done|]. cbn [Py.truthy_str negb default from_option id].
  pose proof (search_rating_spec (String c s) None) as Hs. unfold re.search.
  destruct (re.search_from RATING_RE None (String c s)) as [m|];
    destruct (first_number (String c s)) as [lit|] eqn:Hlit;
    cbn [fmap option_fmap option_map] in Hs; try done.
  injection Hs as Hs. cbn [mbind option_bind fmap option_fmap option_map].
  rewrite Hs. by rewrite (float_first_number _ _ Hlit).
Qed.

(** A property of every record a card can add holds of every record of
    the page. *)
Lemma parse_items_Forall (P : Review -> Prop) sel page_url items : forall acc rs,
  (forall it r, it ∈ items -> parse_item sel page_url it = Ok (Some r) -> P r) ->
  Forall P acc ->
  parse_items sel page_url items acc = Ok rs ->
  Forall P rs.
Proof.
  induction items as [|it items IH]; intros acc rs Hitem Hacc; simpl.
  - by intros [= <-].
  - destruct (parse_item sel page_url it) as [r|e] eqn:Hit; simpl; [|done].
    apply IH.
    + intros it' r' Hin. apply Hitem. by right.
    + destruct r as [rv|]; [|done].
      apply Forall_app. split; [done|]. constructor; [|constructor].
      eapply Hitem; [left|done].
Qed.

Lemma parse_item_inv sel page_url it r :
  parse_item sel page_url it = Ok (Some r) ->
  exists rt,
    parse_rating (rating_raw sel it) = Ok rt /\
    r = mkReview (text_field sel "reviewer" it) rt (text_field sel "date" it)
                 (text_field sel "text" it) page_url /\
    any_field (reviewer r) (rating r) (date r) (text r) = true.
Proof.
  unfold parse_item. destruct (parse_rating _) as [rt|e]; simpl; [|done].
  destruct (any_field _ _ _ _) eqn:Hany; simpl; [|done].
  intros [= <-]. by exists rt.
Qed.

Lemma text_field_unset sel key it :
  Py.truthy_opt (dict_get sel key) = false -> text_field sel key it = None.
Proof. unfold text_field. by intros ->. Qed.

Lemma rating_unset sel it :
  Py.truthy_opt (dict_get sel "rating") = false ->
  parse_rating (rating_raw sel it) = Ok None.
Proof. unfold rating_raw. by intros ->. Qed.

End ParseProperties.
(** ** The offline branch *)

Lemma guess_offset_spec fp : guess_offset fp = Ok (expected_offset fp).
Proof.
  unfold guess_offset, expected_offset. fold (stem fp).
  pose proof (search_trailing_spec (stem fp)) as Hs.
  pose proof (trailing_digits_digits (stem fp)) as Hd.
  destruct (trailing_digits (stem fp)) as [|c d].
  - by destruct (re.search TRAILING_NUMBER_RE (stem fp)).
  - destruct (re.search TRAILING_NUMBER_RE (stem fp)) as [m|]; [|done].
    injection Hs as ->. simpl in Hd. apply andb_true_iff in Hd as [Hc Hd].
    by rewrite int_of_digits.
Qed.

Lemma expected_offset_nonneg fp : (0 <= expected_offset fp)%Z.
Proof. unfold expected_offset. destruct (trailing_digits _); lia. Qed.

Lemma dict_get_set_eq {V} (d : dict V) k v : dict_get (dict_set d k v) k = Some v.
Proof.
  induction d as [|[k' v'] d IH]; simpl.
  - by rewrite String.eqb_refl.
  - destruct (String.eqb k' k) eqn:Hk; simpl; by rewrite Hk.
Qed.

Lemma dict_get_set_ne {V} (d : dict V) k k' v :
  k <> k' -> dict_get (dict_set d k v) k' = dict_get d k'.
Proof.
  intros Hne. induction d as [|[k0 v0] d IH]; simpl.
  - apply String.eqb_neq in Hne. by rewrite Hne.
  - destruct (String.eqb k0 k) eqn:Hk; simpl.
    + apply String.eqb_eq in Hk as ->. apply String.eqb_neq in Hne. by rewrite Hne.
    + by rewrite IH.
Qed.

Section OfflineProperties.
Context `{!Soup} `{!FileSystem}.

Lemma offline_source_url_spec args fp :
  offline_source_url args fp
  = Ok (if Py.truthy_str (offline_base args)
        then with_start (offline_base args) (expected_offset fp)
        else "file:///" +:+ Py.replace_char os_path.sep "/" (abspath fp)).
Proof.
  unfold offline_source_url. destruct (Py.truthy_str _); [|done].
  by rewrite guess_offset_spec.
Qed.

Lemma parse_reviews_source_url html page_url sel rs :
  parse_reviews html page_url sel = Ok rs ->
  Forall (fun r => source_url r = page_url) rs.
Proof.
  unfold parse_reviews. destruct (dict_get sel "review_container"); [|done].
  apply parse_items_Forall; [|constructor].
  intros it r _ (rt & _ & -> & _)%parse_item_inv. done.
Qed.

(** Every record of the offline run carries the source URL of a file
    that could be read. *)
Lemma offline_loop_sources args expanded : forall acc log rs log',
  offline_loop args expanded acc log = (Ok rs, log') ->
  exists new, rs = acc ++ new /\
    Forall (fun r => exists fp, fp ∈ expanded /\ is_Some (read_file fp) /\
                       offline_source_url args fp = Ok (source_url r)) new.
Proof.
  induction expanded as [|fp expanded IH]; intros acc log rs log'; simpl.
  - intros [= <- <-]. exists []. by rewrite app_nil_r.
  - destruct (read_file fp) as [html|] eqn:Hread.
    + destruct (offline_source_url args fp) as [url|e] eqn:Hurl; [|done].
      destruct (parse_reviews html url (selectors args)) as [page|e] eqn:Hp; [|done].
      intros (new & -> & Hnew)%IH. exists (page ++ new).
      rewrite app_assoc. split; [done|]. apply Forall_app. split.
      * apply parse_reviews_source_url in Hp.
        eapply Forall_impl; [exact Hp|]. intros r ->. exists fp.
        split; [by left|]. rewrite Hread. split; [by eexists|done].
      * eapply Forall_impl; [exact Hnew|]. intros r (fp' & Hin & Hr).
        exists fp'. split; [by right|done].
    + intros (new & -> & Hnew)%IH. exists new. split; [done|].
      eapply Forall_impl; [exact Hnew|]. intros r (fp' & Hin & Hr).
      exists fp'. split; [by right|done].
Qed.

End OfflineProperties.

(** ** [find_next_url] *)

Example says_next_examples :
  map (fun s => says_next (Tag "a" [] [NavigableString s]))
      ["Next"; "next page"; "OLDER posts"; "Show More"; "Nextpage"; "Moreover"; "Previous"]
  = [true; true; true; true; false; false; false].
Proof. vm_compute. reflexivity. Qed.

(** An anchor with more than one child has no [.string]. *)
Example says_next_mixed_content :
  says_next (Tag "a" [] [NavigableString "Next "; Element (Tag "b" [] [NavigableString "page"])])
  = false.
Proof. reflexivity. Qed.

Example urljoin_examples :
  map (urljoin "http://a/b/c/d;p?q") ["g"; "/g"; "//g"; "?y"; "g?y#s"; ".."; "../../g"; "https://x.com/p2"]
  = ["http://a/b/c/g"; "http://a/g"; "http://g"; "http://a/b/c/d;p?y"; "http://a/b/c/g?y#s";
     "http://a/b/"; "http://a/g"; "https://x.com/p2"].
Proof. vm_compute. reflexivity. Qed.

Lemma first_href_find p l :
  first_href (List.filter p l)
  = t ← List.find (fun t => p t && has_href t) l; get t "href".
Proof.
  induction l as [|t l IH]; [done|]. simpl. destruct (p t); simpl; [|done].
  unfold has_href at 1. destruct (Py.truthy_opt (get t "href")); done.
Qed.

Section NextProperties.
Context `{!Soup}.

Lemma yelp_fallback_elsewhere page_url :
  yelp_page page_url = false -> yelp_fallback page_url = Ok None.
Proof. unfold yelp_page, yelp_fallback. by intros ->. Qed.

(** [find_next_url] tries the three kinds of link in order and joins the
    href of the first it finds with the URL of the page; the Yelp
    fallback comes last. *)
Lemma find_next_url_spec html page_url sel_next :
  find_next_url html page_url sel_next
  = match next_href (BeautifulSoup html) sel_next with
    | Some href => Ok (Some (urljoin page_url href))
    | None => if yelp_page page_url then yelp_fallback page_url else Ok None
    end.
Proof.
  unfold find_next_url, next_href.
  assert ((if Py.truthy_opt sel_next
           then href_of (select_one (default "" sel_next) (BeautifulSoup html))
           else None) = next_by_selector (BeautifulSoup html) sel_next) as ->.
  { unfold next_by_selector, href_of, has_href. destruct sel_next as [sel|]; [|done].
    simpl. destruct (Py.truthy_str sel); [|done]. by destruct (select_one _ _). }
  destruct (next_by_selector _ _); [done|].
  assert (href_of (select_one_rel_next (BeautifulSoup html))
          = next_by_rel (BeautifulSoup html)) as ->.
  { unfold next_by_rel, href_of, select_one_rel_next, has_href.
    by destruct (List.find _ _). }
  destruct (next_by_rel _); [done|].
  assert (first_href (find_all_string "a" NEXT_TEXT_RE (BeautifulSoup html))
          = next_by_text (BeautifulSoup html)) as ->.
  { unfold find_all_string, next_by_text. rewrite first_href_find. done. }
  destruct (next_by_text _); [done|].
  destruct (yelp_page page_url) eqn:Hy; [done|]. by apply yelp_fallback_elsewhere.
Qed.

End NextProperties.

(** ** [urljoin] gives absolute URLs *)

Lemma urlparse_with_scheme url d :
  scheme (urlparse_with url d)
  = match split_scheme (cleaned url) with
    | Some (s, _) => s
    | None => cleaned_scheme d
    end.
Proof.
  unfold urlparse_with, urlsplit. fold (cleaned url). fold (cleaned_scheme d).
  destruct (split_scheme (cleaned url)) as [[s r]|];
    repeat (case_match; simplify_eq/=); done.
Qed.

Lemma split_scheme_nonempty url s r : split_scheme url = Some (s, r) -> s <> "".
Proof.
  unfold split_scheme. destruct url as [|c url]; [done|].
  destruct (Py.isalpha c) eqn:Hc; [|done].
  unfold Py.partition. rewrite break_cons.
  destruct (Ascii.eqb ":" c) eqn:Hcolon.
  { apply Ascii.eqb_eq in Hcolon. subst c. done. }
  destruct (Py.break (Ascii.eqb ":") url) as [a b]. destruct b; [done|].
  destruct (Py.all_chars scheme_char (String c a)); [|done].
  intros [= <- <-]. done.
Qed.

Lemma urlparse_http_prefix x :
  scheme (urlparse ("http:" +:+ x)) = "http".
Proof.
  unfold urlparse. rewrite urlparse_with_scheme.
  change (cleaned ("http:" +:+ x))
    with (String "h" (String "t" (String "t" (String "p"
            (Py.remove_chars unsafe_url_byte (String ":" x)))))).
  change (Py.remove_chars unsafe_url_byte (String ":" x))
    with (String ":" (Py.remove_chars unsafe_url_byte x)).
  reflexivity.
Qed.

Lemma urlparse_https_prefix x :
  scheme (urlparse ("https:" +:+ x)) = "https".
Proof.
  unfold urlparse. rewrite urlparse_with_scheme.
  change (cleaned ("https:" +:+ x))
    with (String "h" (String "t" (String "t" (String "p" (String "s"
            (String ":" (Py.remove_chars unsafe_url_byte x))))))).
  reflexivity.
Qed.

Lemma urlunsplit_prefix sch loc url qry frag :
  sch <> "" -> exists x, urlunsplit sch loc url qry frag = sch +:+ ":" +:+ x.
Proof.
  intros Hsch. unfold urlunsplit.
  apply truthy_str_nonempty in Hsch. rewrite Hsch.
  match goal with |- context [sch +:+ ":" +:+ ?u] => generalize u end. intros u.
  destruct (Py.truthy_str qry), (Py.truthy_str frag);
    rewrite ?app_assoc_str; by eexists.
Qed.

Lemma urlunparse_absolute p :
  scheme p = "http" \/ scheme p = "https" -> is_absolute (urlunparse p) = true.
Proof.
  intros Hs. unfold urlunparse, is_absolute.
  destruct (urlunsplit_prefix (scheme p) (netloc p)
              (if Py.truthy_str (params p) then path p +:+ ";" +:+ params p else path p)
              (query p) (fragment p)) as [x ->].
  { by destruct Hs as [-> | ->]. }
  destruct Hs as [-> | ->].
  - change ("http" +:+ ":" +:+ x) with ("http:" +:+ x). by rewrite urlparse_http_prefix.
  - change ("https" +:+ ":" +:+ x) with ("https:" +:+ x). by rewrite urlparse_https_prefix.
Qed.

(** Joined with the URL of a page fetched over http or https, an href
    gives an absolute URL. *)
Lemma urljoin_absolute base url :
  scheme (urlparse base) = "http" \/ scheme (urlparse base) = "https" ->
  url <> "" ->
  is_absolute (urljoin base url) = true.
Proof.
  intros Hb Hu. unfold urljoin.
  assert (Py.truthy_str base = true) as ->.
  { destruct base; [|done]. by destruct Hb. }
  apply truthy_str_nonempty in Hu as Hu'. rewrite Hu'. cbn [negb].
  set (b := urlparse base) in *.
  set (u := urlparse_with url (scheme b)).
  destruct (negb (String.eqb (scheme u) (scheme b)) || negb (mem (scheme u) uses_relative))
    eqn:Hdiff.
  - (* the href has a scheme of its own *)
    assert (scheme u <> scheme b) as Hne.
    { intros Heq. rewrite Heq, String.eqb_refl in Hdiff.
      destruct Hb as [Hb|Hb]; rewrite Hb in Hdiff; done. }
    unfold is_absolute, urlparse. rewrite urlparse_with_scheme.
    subst u. rewrite urlparse_with_scheme in Hne.
    destruct (split_scheme (cleaned url)) as [[s r]|] eqn:Hsplit.
    + apply truthy_str_nonempty. by eapply split_scheme_nonempty.
    + exfalso. apply Hne. destruct Hb as [Hb|Hb]; by rewrite Hb.
  - apply orb_false_iff in Hdiff as [Heq _].
    apply negb_false_iff, String.eqb_eq in Heq.
    assert (scheme u = "http" \/ scheme u = "https") as Hs by (by rewrite Heq).
    repeat case_match; by apply urlunparse_absolute.
Qed.

(** ** The Yelp fallback *)

Lemma yelp_fallback_numeric url n :
  yelp_page url = true -> Py.int (start_text url) = Ok n ->
  yelp_fallback url = Ok (Some (with_start url (n + 20))).
Proof.
  unfold yelp_page, yelp_fallback, start_text, with_start. intros -> Hn.
  by rewrite Hn.
Qed.

Lemma yelp_fallback_raises url e :
  yelp_page url = true -> Py.int (start_text url) = Raise e ->
  yelp_fallback url = Raise e.
Proof.
  unfold yelp_page, yelp_fallback, start_text. intros -> Hn. by rewrite Hn.
Qed.

Example yelp_fallback_start_20 :
  yelp_fallback "https://yelp.com/biz/x?start=20" = Ok (Some "https://yelp.com/biz/x?start=40").
Proof. vm_compute. reflexivity. Qed.

Example yelp_fallback_no_start :
  yelp_fallback "https://www.yelp.com/biz/x?sort_by=date_desc"
  = Ok (Some "https://www.yelp.com/biz/x?sort_by=date_desc&start=20").
Proof. vm_compute. reflexivity. Qed.

Example yelp_fallback_other_site :
  yelp_fallback "https://x.com/biz/x?start=20" = Ok None.
Proof. vm_compute. reflexivity. Qed.

(** ** Records and fields *)

Section FieldProperties.
Context `{!Soup}.

Lemma next_href_nonempty soup sel_next href :
  next_href soup sel_next = Some href -> href <> "".
Proof.
  assert (forall t, has_href t = true -> get t "href" = Some href -> href <> "") as Hh.
  { unfold has_href. intros t Ht Hg. rewrite Hg in Ht. by destruct href. }
  unfold next_href. destruct (next_by_selector soup sel_next) as [h|] eqn:H1.
  { intros [= <-]. unfold next_by_selector in H1.
    destruct sel_next as [sel|]; [|done]. destruct (Py.truthy_str sel); [|done].
    destruct (select_one sel soup) as [t|]; [|done]. simpl in H1.
    destruct (has_href t) eqn:Ht; [|done]. by eapply Hh. }
  destruct (next_by_rel soup) as [h|] eqn:H2.
  { intros [= <-]. unfold next_by_rel in H2.
    destruct (List.find is_rel_next (descendants soup)) as [t|]; [|done].
    simpl in H2. destruct (has_href t) eqn:Ht; [|done]. by eapply Hh. }
  unfold next_by_text.
  destruct (List.find _ (descendants soup)) as [t|] eqn:Hf; [|done]. simpl.
  apply find_some in Hf as [_ Hf]. apply andb_true_iff in Hf as [_ Hf].
  by apply Hh.
Qed.

(** A card is dropped when none of its four fields is true, and only
    then; a rating of zero is not true. *)
Lemma parse_item_dropped sel page_url it :
  parse_item sel page_url it = Ok None <->
  exists rt, parse_rating (rating_raw sel it) = Ok rt /\
    any_field (text_field sel "reviewer" it) rt (text_field sel "date" it)
              (text_field sel "text" it) = false.
Proof.
  unfold parse_item. destruct (parse_rating _) as [rt|e]; simpl.
  - destruct (any_field _ _ _ _) eqn:Hany; simpl; split; try done.
    + intros (rt' & [= <-] & Hf). congruence.
    + by exists rt.
  - split; [done|]. by intros (rt & ? & _).
Qed.

(** A card adds one record at most. *)
Lemma parse_items_length sel page_url items : forall acc rs,
  parse_items sel page_url items acc = Ok rs ->
  length acc <= length rs <= length acc + length items.
Proof.
  induction items as [|it items IH]; intros acc rs; simpl.
  - intros [= <-]. lia.
  - destruct (parse_item sel page_url it) as [[r|]|e]; simpl; [| |done].
    + intros Hrs%IH. rewrite length_app in Hrs. simpl in Hrs. lia.
    + intros Hrs%IH. lia.
Qed.

Lemma get_text_or_none_nonempty node s :
  get_text_or_none node = Some s -> s <> "".
Proof.
  unfold get_text_or_none. destruct node as [n|]; [|done].
  destruct (Py.truthy_str _) eqn:Ht; [|done]. intros [= <-].
  by apply truthy_str_nonempty.
Qed.

(** A text field that is not [None] is true. *)
Lemma text_field_truthy sel key it :
  Py.truthy_opt (text_field sel key it) = bool_decide (text_field sel key it <> None).
Proof.
  destruct (text_field sel key it) as [s|] eqn:Hf; [|done]. simpl.
  unfold text_field in Hf. destruct (Py.truthy_opt (dict_get sel key)); [|done].
  apply get_text_or_none_nonempty, truthy_str_nonempty in Hf. by rewrite Hf.
Qed.

Lemma missing_selector_field sel page_url it r f :
  Py.truthy_opt (dict_get sel (field_key f)) = false ->
  parse_item sel page_url it = Ok (Some r) ->
  field_is_none f r = true.
Proof.
  intros Hsel (rt & Hrt & -> & _)%parse_item_inv.
  destruct f; simpl in *.
  - by rewrite text_field_unset.
  - rewrite rating_unset in Hrt by done. by injection Hrt as <-.
  - by rewrite text_field_unset.
  - by rewrite text_field_unset.
Qed.

End FieldProperties.

(** * More properties *)

(** ** Dictionaries *)

Lemma dict_get_app {V} (d1 d2 : dict V) k :
  dict_get (d1 ++ d2) k
  = match dict_get d1 k with Some v => Some v | None => dict_get d2 k end.
Proof.
  induction d1 as [|[k' v'] d1 IH]; [done|]. simpl.
  destruct (String.eqb k' k); [done|apply IH].
Qed.

Lemma dict_get_setdefault_eq {V} (d : dict V) k v :
  dict_get (dict_setdefault d k v) k = Some (default v (dict_get d k)).
Proof.
  unfold dict_setdefault. destruct (dict_get d k) as [x|] eqn:Hd; [done|].
  rewrite dict_get_app, Hd. simpl. by rewrite String.eqb_refl.
Qed.


Lemma dict_set_Forall {V} (P : string * V -> Prop) (d : dict V) k v :
  Forall P d -> P (k, v) -> Forall P (dict_set d k v).
Proof.
  intros Hd Hkv. induction Hd as [|[k' v'] d Hx Hd IH]; simpl.
  - by constructor.
  - destruct (String.eqb k' k) eqn:Hk.
    + apply String.eqb_eq in Hk as ->. by constructor.
    + by constructor.
Qed.

(** ** [strip] *)

Lemma rstrip_by_idem p s : Py.rstrip_by p (Py.rstrip_by p s) = Py.rstrip_by p s.
Proof.
  induction s as [|c s IH]; [done|]. cbn [Py.rstrip_by].
  destruct (Py.rstrip_by p s) as [|d t] eqn:Hr.
  - destruct (p c) eqn:Hc; [done|]. cbn [Py.rstrip_by]. by rewrite Hc.
  - cbn [Py.rstrip_by]. cbn [Py.rstrip_by] in IH. by rewrite IH.
Qed.

Lemma lstrip_by_not_starting p s : not_starting p (Py.lstrip_by p s) = true.
Proof.
  induction s as [|c s IH]; [done|]. simpl. destruct (p c) eqn:Hc; [done|].
  simpl. by rewrite Hc.
Qed.

Lemma rstrip_by_not_starting p s :
  not_starting p s = true -> not_starting p (Py.rstrip_by p s) = true.
Proof.
  destruct s as [|c s]; [done|]. cbn [Py.rstrip_by not_starting].
  intros Hc. apply negb_true_iff in Hc. rewrite Hc.
  destruct (Py.rstrip_by p s); simpl; by rewrite Hc.
Qed.

Lemma lstrip_by_fix p s : not_starting p s = true -> Py.lstrip_by p s = s.
Proof.
  destruct s as [|c s]; [done|]. simpl. intros Hc%negb_true_iff. by rewrite Hc.
Qed.

Lemma strip_not_starting s : not_starting Py.isspace (Py.strip s) = true.
Proof. unfold Py.strip. apply rstrip_by_not_starting, lstrip_by_not_starting. Qed.

(** [strip] changes nothing in a text that was stripped. *)
Lemma strip_idem s : Py.strip (Py.strip s) = Py.strip s.
Proof.
  unfold Py.strip at 1. rewrite lstrip_by_fix by apply strip_not_starting.
  unfold Py.strip. apply rstrip_by_idem.
Qed.

(** ** [partition] *)

Lemma partition_contains c s :
  Py.partition c s = None <-> Py.contains_char c s = false.
Proof.
  unfold Py.partition, Py.contains_char.
  induction s as [|d s IH]; [done|]. rewrite break_cons. cbn [Py.any_char].
  destruct (Ascii.eqb c d); [done|]. cbn [orb].
  destruct (Py.break (Ascii.eqb c) s) as [a [|x b]]; [exact IH|].
  split; [done|]. intros H. by apply IH in H.
Qed.

(** ** [load_headers] and [load_cookies] *)




Lemma header_line_entry d line :
  header_line d line = match header_of_line line with
                       | Some (k, v) => dict_set d k v
                       | None => d
                       end.
Proof.
  unfold header_line, header_of_line.
  destruct (Py.partition ":" (Py.strip line)) as [[k v]|] eqn:Hp.
  - assert (Py.contains_char ":" (Py.strip line) = true) as ->.
    { destruct (Py.contains_char ":" (Py.strip line)) eqn:Hc; [done|].
      apply partition_contains in Hc. congruence. }
    destruct (Py.strip line); [done|]. done.
  - apply partition_contains in Hp as ->. by rewrite orb_true_r.
Qed.

Lemma cookie_line_entry jar line :
  cookie_line jar line = match cookie_of_line line with
                         | Some (k, v) => dict_set jar k v
                         | None => jar
                         end.
Proof.
  unfold cookie_line, cookie_of_line.
  destruct (Py.strip line) as [|c s] eqn:Hs; [done|]. cbn [Py.truthy_str negb orb].
  destruct (Py.startswith "#" (String c s)); [done|].
  destruct (Py.contains_char "009" (String c s)).
  - by destruct (7 <=? length (Py.split "009" (String c s))).
  - by destruct (Py.partition "=" (String c s)) as [[? ?]|].
Qed.

(** ** [split] and [join] *)

Lemma split_cons c d s :
  Py.split c (String d s)
  = if Ascii.eqb d c then "" :: Py.split c s
    else match Py.split c s with
         | [] => [String d ""]
         | w :: ws => String d w :: ws
         end.
Proof. reflexivity. Qed.

Lemma split_no_sep c s : Py.contains_char c s = false -> Py.split c s = [s].
Proof.
  unfold Py.contains_char. induction s as [|d s IH]; [done|].
  cbn [Py.any_char]. intros [Hd Hs]%orb_false_iff. rewrite split_cons.
  rewrite Ascii.eqb_sym, Hd. by rewrite IH.
Qed.

Lemma split_app c a b :
  Py.contains_char c a = false ->
  Py.split c (a +:+ String c b) = a :: Py.split c b.
Proof.
  unfold Py.contains_char. induction a as [|d a IH].
  - intros _. rewrite app_empty_l, split_cons. by rewrite Ascii.eqb_refl.
  - cbn [Py.any_char]. intros [Hd Ha]%orb_false_iff.
    rewrite app_String, split_cons, Ascii.eqb_sym, Hd. by rewrite IH.
Qed.

Lemma join_cons2 c x y l :
  Py.join (String c "") (x :: y :: l)
  = x +:+ String c (Py.join (String c "") (y :: l)).
Proof. reflexivity. Qed.

(** Fields without the separator, joined and split again, are the
    fields. *)
Lemma split_join c l :
  l <> [] -> Forall (fun f => Py.contains_char c f = false) l ->
  Py.split c (Py.join (String c "") l) = l.
Proof.
  intros Hne Hl. induction Hl as [|x l Hx Hl IH]; [done|].
  destruct l as [|y l].
  - by apply split_no_sep.
  - rewrite join_cons2, split_app by done. by rewrite IH.
Qed.

Lemma contains_char_app c a b :
  Py.contains_char c (a +:+ b) = Py.contains_char c a || Py.contains_char c b.
Proof.
  unfold Py.contains_char. induction a as [|d a IH]; [done|].
  rewrite app_String. cbn [Py.any_char]. by rewrite IH, orb_assoc.
Qed.

Lemma join_two_contains c x y l :
  Py.contains_char c (Py.join (String c "") (x :: y :: l)) = true.
Proof.
  rewrite join_cons2, contains_char_app.
  unfold Py.contains_char at 2. cbn [Py.any_char]. rewrite Ascii.eqb_refl.
  apply orb_true_r.
Qed.

Lemma fold_left_Forall {A B} (P : A -> Prop) (f : A -> B -> A) l : forall a,
  (forall a b, P a -> P (f a b)) -> P a -> P (fold_left f l a).
Proof. induction l as [|b l IH]; intros a Hf Ha; [done|]. simpl. by apply IH, Hf. Qed.

(** ** Texts without white space at their ends *)

Lemma rstrip_by_fix p s : last_is p s = false -> Py.rstrip_by p s = s.
Proof.
  induction s as [|c s IH]; [done|]. cbn [last_is Py.rstrip_by].
  destruct s as [|d s].
  - intros ->. done.
  - intros Hl. rewrite IH by done. done.
Qed.

Lemma rstrip_by_last p s : s <> "" -> Py.rstrip_by p s = s -> last_is p s = false.
Proof.
  induction s as [|c s IH]; [done|]. intros _. cbn [last_is Py.rstrip_by].
  destruct s as [|d s].
  - simpl. destruct (p c); [done|done].
  - destruct (Py.rstrip_by p (String d s)) as [|x t] eqn:Hr.
    + destruct (p c); [done|]. intros [= ]. 
    + intros Heq. apply IH; [done|]. congruence.
Qed.

Lemma strip_fix s :
  not_starting Py.isspace s = true -> last_is Py.isspace s = false -> Py.strip s = s.
Proof.
  intros Hs Hl. unfold Py.strip. rewrite lstrip_by_fix by done. by apply rstrip_by_fix.
Qed.

Lemma strip_fix_ends s :
  s <> "" -> Py.strip s = s ->
  not_starting Py.isspace s = true /\ last_is Py.isspace s = false.
Proof.
  intros Hne Hs. assert (Hn : not_starting Py.isspace s = true).
  { rewrite <- Hs. apply strip_not_starting. }
  split; [done|]. apply rstrip_by_last; [done|].
  unfold Py.strip in Hs. by rewrite lstrip_by_fix in Hs.
Qed.

Lemma not_starting_app p a b : a <> "" -> not_starting p (a +:+ b) = not_starting p a.
Proof. by destruct a. Qed.

Lemma app_nonempty_r a b : b <> "" -> a +:+ b <> "".
Proof. intros Hb. destruct a; [done|]. by rewrite app_String. Qed.

(** Texts that are not empty and have no white space at their ends,
    put one after the other, give such a text. *)
Lemma join_stripped l :
  l <> [] -> Forall (fun s => s <> "" /\ Py.strip s = s) l ->
  Py.join "" l <> "" /\ Py.strip (Py.join "" l) = Py.join "" l.
Proof.
  intros Hne Hl. induction Hl as [|x l [Hx Hsx] Hl IH]; [done|].
  destruct l as [|y l]; [done|].
  destruct IH as [IH1 IH2]; [done|].
  change (Py.join "" (x :: y :: l)) with (x +:+ "" +:+ Py.join "" (y :: l)).
  rewrite app_empty_l. split.
  - by apply app_nonempty_r.
  - apply strip_fix_ends in Hsx as [Hx1 Hx2]; [|done].
    apply strip_fix_ends in IH2 as [Hy1 Hy2]; [|done].
    apply strip_fix.
    + by rewrite not_starting_app.
    + by rewrite last_is_app.
Qed.

(** ** The strings of a tag *)

Section TagInd.
Variable P : tag -> Prop.
Hypothesis HTag : forall nm ats cs,
  Forall (fun c => match c with Element t => P t | _ => True end) cs ->
  P (Tag nm ats cs).

Lemma tag_nested_ind : forall t, P t.
Proof.
  fix IH 1. intros [nm ats cs]. apply HTag.
  induction cs as [|c cs IHcs]; constructor; [|exact IHcs].
  destruct c as [s|s|t]; [exact I|exact I|apply IH].
Qed.
End TagInd.

Lemma flat_map_filter_map {A B C} (f : A -> list B) (g : A -> list C)
    (p : C -> bool) (h : C -> B) l :
  Forall (fun a => f a = map h (filter p (g a))) l ->
  flat_map f l = map h (filter p (flat_map g l)).
Proof.
  induction 1 as [|a l Ha Hl IH]; [done|]. simpl.
  by rewrite filter_app, map_app, Ha, IH.
Qed.

(** The strings [get_text] joins with [strip=True] are those it joins
    without, stripped, the blank ones left out. *)
Lemma all_strings_strip t :
  all_strings true t
  = map Py.strip (filter (fun s => negb (blank s)) (all_strings false t)).
Proof.
  induction t as [nm ats cs IH] using tag_nested_ind. cbn [all_strings].
  apply flat_map_filter_map. eapply Forall_impl; [exact IH|].
  intros [s|s|t] Ht; [|done|exact Ht].
  unfold filter. simpl. unfold blank.
  destruct (Py.strip s) eqn:Hs; simpl; [done|]. by rewrite Hs.
Qed.

Lemma all_strings_stripped t :
  Forall (fun s => s <> "" /\ Py.strip s = s) (all_strings true t).
Proof.
  rewrite all_strings_strip. apply Forall_map, Forall_forall.
  intros s [Hs _]%list_elem_of_filter. unfold blank in Hs.
  apply negb_prop_elim in Hs. 
  split; [|apply strip_idem].
  apply truthy_str_nonempty. by destruct (Py.truthy_str (Py.strip s)).
Qed.

(** ** The records of a page *)

Section PageRecords.
Context `{!Soup}.

Lemma parse_item_review_of sel page_url it :
  parse_item sel page_url it = Ok (review_of sel page_url it).
Proof.
  unfold parse_item, review_of, rating_of. rewrite parse_rating_spec. simpl.
  by destruct (any_field _ _ _ _).
Qed.

Lemma parse_items_omap sel page_url items : forall acc,
  parse_items sel page_url items acc
  = Ok (acc ++ omap (review_of sel page_url) items).
Proof.
  induction items as [|it items IH]; intros acc; simpl.
  - by rewrite app_nil_r.
  - rewrite parse_item_review_of. simpl. rewrite IH.
    destruct (review_of sel page_url it); [|done]. by rewrite <- app_assoc.
Qed.

Lemma parse_reviews_selectors args html page_url :
  parse_reviews html page_url (selectors args) = Ok (page_records args html page_url).
Proof. unfold parse_reviews, page_records. simpl. by rewrite parse_items_omap. Qed.

Lemma truthy_rating_false r :
  truthy_rating r = false <-> r = None \/ exists sg, r = Some (S754_zero sg).
Proof.
  destruct r as [[sg| | |]|]; simpl; split; try done; try (intros [?|[? ?]]; done).
  - intros _. right. by exists sg.
  - intros _. by left.
Qed.

End PageRecords.

(** ** Runs *)

Section FetchMore.
Context {W : Type} `{!Session W}.

Lemma retry_status_not_2xx code :
  retry_status code = true -> (200 <=? code)%Z && (code <? 300)%Z = false.
Proof.
  intros Hc%retry_status_spec. apply andb_false_iff.
  repeat (apply elem_of_cons in Hc as [->|Hc]; [by right|]).
  by apply elem_of_nil in Hc.
Qed.

Lemma fetch_loop_all_retry url backoff attempts : forall w,
  (forall n, asks_retry (session_get url n).1 = true) ->
  exists n',
    fetch_loop url backoff attempts w
    = (Ok None, mkWorld n' (trace w ++
         flat_map (fun k => [Get url; Stderr; SleepBackoff backoff k]) attempts)).
Proof.
  intros w Hretry. revert w.
  induction attempts as [|k attempts IH]; intros w.
  - exists (net w). simpl. rewrite app_nil_r. by destruct w.
  - cbn [fetch_loop]. specialize (Hretry (net w)).
    destruct (session_get url (net w)) as [[code body| |e] n1]; simpl in Hretry;
      [| |done].
    + rewrite (retry_status_not_2xx _ Hretry), Hretry.
      destruct (IH (emit (SleepBackoff backoff k)
                      (emit Stderr (emit (Get url) (mkWorld n1 (trace w))))))
        as [n' ->].
      exists n'. simpl. by rewrite <- !app_assoc.
    + destruct (IH (emit (SleepBackoff backoff k)
                      (emit Stderr (emit (Get url) (mkWorld n1 (trace w))))))
        as [n' ->].
      exists n'. simpl. by rewrite <- !app_assoc.
Qed.

End FetchMore.

Lemma int_raises s e : Py.int s = Raise e -> e = ValueError.
Proof.
  unfold Py.int.
  match goal with |- match ?r with _ => _ end = _ -> _ => destruct r end;
    [done|by intros [= <-]].
Qed.

Section OnlineMore.
Context {W : Type} `{!Session W} `{!Soup}.

Lemma find_next_url_raises html page_url sel_next e :
  find_next_url html page_url sel_next = Raise e ->
  e = ValueError /\ yelp_page page_url = true.
Proof.
  rewrite find_next_url_spec. destruct (next_href _ _); [done|].
  destruct (yelp_page page_url) eqn:Hy; [|done].
  unfold yelp_fallback. unfold yelp_page in Hy. rewrite Hy.
  destruct (Py.int _) as [n|e'] eqn:Hint; [done|]. simpl. intros [= <-].
  split; [|done]. by apply int_raises in Hint.
Qed.

Local Ltac count_gets :=
  rewrite ?app_nil_r, ?length_app; unfold DEFAULT_MAX_RETRIES in *; simpl; lia.

Lemma online_loop_run args turns : forall url seen all w,
  exists evs,
    trace (online_loop args turns url seen all w).2 = trace w ++ evs /\
    length (fetched evs) <= turns /\
    length (requested evs) <= DEFAULT_MAX_RETRIES * length (fetched evs) /\
    online_outcome all evs (online_loop args turns url seen all w).1.
Proof.
  induction turns as [|turns IH]; intros url seen all w.
  - exists []. simpl. rewrite !app_nil_r. split; [done|]. split; [lia|].
    split; [lia|]. exists []. by rewrite app_nil_r.
  - cbn [online_loop].
    destruct (negb (Py.truthy_str url) || bool_decide (url ∈ seen)).
    { exists [Stderr]. simpl. split; [done|]. split; [lia|]. split; [count_gets|].
      exists []. by rewrite app_nil_r. }
    destruct (fetch_trace url w) as (evs1 & Htr & Hf1 & _ & Hreq).
    destruct (fetch url w) as [html w1]. simpl in Htr.
    assert (length (fetched (Fetch url :: evs1)) = 1) as Hone.
    { simpl. by rewrite Hf1. }
    destruct html as [html|e].
    2:{ exists (Fetch url :: evs1). simpl.
        rewrite Htr, Hf1. simpl. split; [done|]. split; [lia|].
        split; [count_gets|done]. }
    destruct (negb (Py.truthy_opt html)).
    { exists (Fetch url :: evs1 ++ [Stderr]). simpl.
      rewrite Htr, <- app_assoc, fetched_app, requested_app, Hf1, app_nil_r.
      simpl. split; [done|]. split; [lia|]. split; [count_gets|].
      exists []. by rewrite app_nil_r. }
    rewrite parse_reviews_selectors.
    destruct (find_next_url _ _ _) as [next_url|e] eqn:Hnext.
    2:{ exists (Fetch url :: evs1 ++ [Stderr]). simpl.
        rewrite Htr, <- app_assoc, fetched_app, requested_app, Hf1, app_nil_r.
        simpl. split; [done|]. split; [lia|]. split; [count_gets|done]. }
    assert (Forall (fun rv => source_url rv = url)
              (page_records args (default "" html) url)) as Hsrc.
    { eapply parse_reviews_source_url, parse_reviews_selectors. }
    destruct (negb (Py.truthy_opt next_url)).
    { exists (Fetch url :: evs1 ++ [Stderr; Stderr]). simpl.
      rewrite Htr, <- !app_assoc, fetched_app, requested_app, Hf1, app_nil_r.
      simpl. split; [done|]. split; [lia|]. split; [count_gets|].
      exists (page_records args (default "" html) url). split; [done|].
      eapply Forall_impl; [exact Hsrc|]. intros rv ->. apply list_elem_of_here. }
    destruct (IH (default "" next_url) (seen ∪ {[url]})
                (all ++ page_records args (default "" html) url)
                (emit (SleepDelay (delay args)) (emit Stderr w1)))
      as (evs2 & Htr2 & Hlen2 & Hreq2 & Hout2).
    exists (Fetch url :: evs1 ++ [Stderr; SleepDelay (delay args)] ++ evs2).
    rewrite Htr2. simpl. rewrite Htr, <- !app_assoc.
    rewrite !fetched_app, !requested_app, Hf1, !length_app. simpl.
    split; [done|]. split; [lia|].
    split; [unfold DEFAULT_MAX_RETRIES in *; lia|].
    destruct (online_loop _ _ _ _ _ _).1 as [rs|e]; simpl in Hout2 |- *;
      rewrite ?fetched_app, ?Hf1; simpl.
    + destruct Hout2 as (new & -> & Hnew).
      exists (page_records args (default "" html) url ++ new).
      rewrite <- app_assoc. split; [done|]. apply Forall_app. split.
      * eapply Forall_impl; [exact Hsrc|]. intros rv ->. apply list_elem_of_here.
      * eapply Forall_impl; [exact Hnew|]. intros rv Hrv. by apply list_elem_of_further.
    + done.
Qed.

End OnlineMore.

Section OfflineMore.
Context `{!Soup} `{!FileSystem}.

Lemma repeat_snoc {A} (x : A) n : repeat x n ++ [x] = repeat x (S n).
Proof. induction n as [|n IH]; [done|]. simpl. by rewrite IH. Qed.

Lemma offline_loop_records args expanded : forall acc log,
  offline_loop args expanded acc log
  = (Ok (acc ++ flat_map (file_records args) expanded),
     log ++ repeat Stderr (length expanded)).
Proof.
  induction expanded as [|fp expanded IH]; intros acc log; simpl.
  - by rewrite !app_nil_r.
  - unfold file_records at 1. destruct (read_file fp) as [html|].
    + rewrite offline_source_url_spec, parse_reviews_selectors, IH.
      rewrite <- !app_assoc. done.
    + rewrite IH. simpl. rewrite <- !app_assoc. done.
Qed.

End OfflineMore.

(** ** Query strings *)

Lemma quote_char_ok_all c : quote_char_ok c = true.
Proof. destruct c as [[] [] [] [] [] [] [] []]; vm_compute; reflexivity. Qed.

Lemma quote_plus_cons c s :
  quote_plus (String c s)
  = if always_safe c then String c (quote_plus s)
    else if Ascii.eqb c " " then String "+" (quote_plus s)
    else String "%" (String (hex_digit (Py.ord c / 16))
                       (String (hex_digit (Py.ord c mod 16)) (quote_plus s))).
Proof. reflexivity. Qed.

Lemma replace_char_cons a b c s :
  Py.replace_char a b (String c s)
  = String (if Ascii.eqb c a then b else c) (Py.replace_char a b s).
Proof. reflexivity. Qed.

Lemma unquote_cons c s :
  unquote (String c s)
  = if Ascii.eqb c "%" then
      match s with
      | String h (String l s'') =>
          match hex_val h, hex_val l with
          | Some a, Some b => String (ascii_of_nat (16 * a + b)) (unquote s'')
          | _, _ => String c (unquote s)
          end
      | _ => String c (unquote s)
      end
    else String c (unquote s).
Proof. reflexivity. Qed.

(** [unquote] reads back what [quote_plus] writes, its [+] put back to
    spaces. *)
Lemma unquote_quote_plus s : unquote (Py.replace_char "+" " " (quote_plus s)) = s.
Proof.
  induction s as [|c s IH]; [done|].
  pose proof (quote_char_ok_all c) as Hc. unfold quote_char_ok in Hc.
  rewrite quote_plus_cons. destruct (always_safe c).
  - apply andb_true_iff in Hc as [Hp Hq].
    apply negb_true_iff in Hp, Hq.
    rewrite replace_char_cons, Hp, unquote_cons, Hq. by rewrite IH.
  - destruct (Ascii.eqb c " ") eqn:Hsp.
    + apply Ascii.eqb_eq in Hsp as ->.
      rewrite replace_char_cons. change (Ascii.eqb "+" "+") with true. cbv iota.
      rewrite unquote_cons. change (Ascii.eqb " " "%") with false. cbv iota.
      by rewrite IH.
    + apply andb_true_iff in Hc as [Hc Hv]. apply andb_true_iff in Hc as [Hc Hl].
      apply andb_true_iff in Hc as [Hc Hh]. apply negb_true_iff in Hl, Hh.
      rewrite !replace_char_cons, Hh, Hl.
      change (Ascii.eqb "%" "+") with false. cbv iota.
      rewrite unquote_cons. change (Ascii.eqb "%" "%") with true. cbv iota.
      destruct (hex_val _) as [a|]; [|done]. destruct (hex_val _) as [b|]; [|done].
      apply Ascii.eqb_eq in Hv. by rewrite Hv, IH.
Qed.

Lemma quote_plus_chars s : Py.all_chars encoded_char (quote_plus s) = true.
Proof.
  induction s as [|c s IH]; [done|].
  pose proof (quote_char_ok_all c) as Hc. unfold quote_char_ok in Hc.
  rewrite quote_plus_cons. destruct (always_safe c) eqn:Hsafe.
  - cbn [Py.all_chars]. unfold encoded_char at 1. by rewrite Hsafe, IH.
  - destruct (Ascii.eqb c " ").
    + cbn [Py.all_chars]. by rewrite IH.
    + apply andb_true_iff in Hc as [Hc _]. apply andb_true_iff in Hc as [Hc _].
      apply andb_true_iff in Hc as [Hc _]. apply andb_true_iff in Hc as [Hh Hl].
      cbn [Py.all_chars]. unfold encoded_char at 2 3. rewrite Hh, Hl, IH. done.
Qed.

Lemma all_chars_not_contains p x s :
  Py.all_chars p s = true -> p x = false -> Py.contains_char x s = false.
Proof.
  unfold Py.contains_char. intros Hs Hx. induction s as [|c s IH]; [done|].
  cbn [Py.all_chars Py.any_char] in *. apply andb_true_iff in Hs as [Hc Hs].
  rewrite IH by done. destruct (Ascii.eqb x c) eqn:Heq; [|done].
  apply Ascii.eqb_eq in Heq. congruence.
Qed.

Lemma quote_plus_no x s : encoded_char x = false -> Py.contains_char x (quote_plus s) = false.
Proof. intros Hx. eapply all_chars_not_contains; [apply quote_plus_chars|done]. Qed.

Lemma quote_plus_truthy s : Py.truthy_str (quote_plus s) = Py.truthy_str s.
Proof.
  destruct s as [|c s]; [done|]. rewrite quote_plus_cons.
  by destruct (always_safe c), (Ascii.eqb c " ").
Qed.

(** ** [break] and [partition] *)

Lemma break_app p a c b :
  Py.any_char p a = false -> p c = true ->
  Py.break p (a +:+ String c b) = (a, String c b).
Proof.
  intros Ha Hc. induction a as [|d a IH].
  - rewrite app_empty_l, break_cons. by rewrite Hc.
  - cbn [Py.any_char] in Ha. apply orb_false_iff in Ha as [Hd Ha].
    rewrite app_String, break_cons, Hd, IH by done. done.
Qed.

Lemma partition_app c a b :
  Py.contains_char c a = false -> Py.partition c (a +:+ String c b) = Some (a, b).
Proof.
  intros Ha. unfold Py.partition. rewrite break_app; [done|done|apply Ascii.eqb_refl].
Qed.

(** ** [parse_qsl] *)

Lemma urlencode_join d : urlencode d = Py.join "&" (map encode_pair d).
Proof. reflexivity. Qed.

Lemma encode_pair_no x kv :
  encoded_char x = false -> Ascii.eqb x "=" = false ->
  Py.contains_char x (encode_pair kv) = false.
Proof.
  intros Hx Heq. unfold encode_pair. rewrite !contains_char_app, !quote_plus_no by done.
  unfold Py.contains_char. simpl. by rewrite Heq.
Qed.

Lemma parse_pair kv :
  kv.2 <> "" ->
  match Py.partition "=" (encode_pair kv) with
  | Some (n, v) =>
      if Py.truthy_str v
      then [(unquote (Py.replace_char "+" " " n), unquote (Py.replace_char "+" " " v))]
      else []
  | None => []
  end = [kv].
Proof.
  intros Hv. unfold encode_pair.
  change ("=" +:+ quote_plus kv.2) with (String "=" (quote_plus kv.2)).
  rewrite partition_app by (by apply quote_plus_no).
  rewrite quote_plus_truthy. apply truthy_str_nonempty in Hv. rewrite Hv.
  rewrite !unquote_quote_plus. by destruct kv.
Qed.

(** [parse_qsl] reads back the fields [urlencode] writes, when no value
    is empty. *)
Lemma parse_qsl_urlencode d :
  Forall (fun kv => kv.2 <> "") d -> parse_qsl (urlencode d) = d.
Proof.
  intros Hd. destruct d as [|kv d]; [done|].
  unfold parse_qsl. rewrite urlencode_join.
  assert (Py.truthy_str (Py.join "&" (map encode_pair (kv :: d))) = true) as ->.
  { apply truthy_str_nonempty. cbn [map]. destruct (map encode_pair d).
    - cbn [Py.join]. unfold encode_pair. apply app_nonempty_r. done.
    - rewrite join_cons2. apply app_nonempty_r. done. }
  cbn [negb]. rewrite split_join.
  - induction Hd as [|x l Hx Hl IH]; [done|]. cbn [map flat_map].
    rewrite parse_pair by done. by rewrite IH.
  - done.
  - apply Forall_map, Forall_forall. intros x _. by apply encode_pair_no.
Qed.

(** ** Dictionaries *)

Lemma dict_get_None {V} (d : dict V) k : dict_get d k = None <-> k ∉ map fst d.
Proof.
  induction d as [|[k' v] d IH]; simpl.
  - split; [intros _; apply not_elem_of_nil|done].
  - rewrite not_elem_of_cons. destruct (String.eqb k' k) eqn:Hk.
    + apply String.eqb_eq in Hk. split; [done|]. intros [Hne _]. congruence.
    + apply String.eqb_neq in Hk. rewrite IH. split; [|tauto].
      intros Hd. split; [congruence|done].
Qed.

Lemma dict_set_keys {V} (d : dict V) k v :
  map fst (dict_set d k v)
  = match dict_get d k with Some _ => map fst d | None => map fst d ++ [k] end.
Proof.
  induction d as [|[k' v'] d IH]; [done|]. simpl.
  destruct (String.eqb k' k); [done|]. simpl. rewrite IH.
  by destruct (dict_get d k).
Qed.

Lemma NoDup_snoc {A} (l : list A) x : NoDup l -> x ∉ l -> NoDup (l ++ [x]).
Proof.
  intros Hl Hx. apply NoDup_app. split; [done|]. split; [|apply NoDup_singleton].
  intros y Hy Hy'. apply list_elem_of_singleton in Hy'. by subst.
Qed.

Lemma dict_set_NoDup {V} (d : dict V) k v :
  NoDup (map fst d) -> NoDup (map fst (dict_set d k v)).
Proof.
  intros Hd. rewrite dict_set_keys. destruct (dict_get d k) eqn:Hk; [done|].
  apply NoDup_snoc; [done|]. by apply dict_get_None.
Qed.

Lemma dict_append_NoDup d kv :
  NoDup (map fst d) -> NoDup (map fst (dict_append d kv)).
Proof.
  intros Hd. unfold dict_append. destruct (dict_get d kv.1) eqn:Hk.
  - by apply dict_set_NoDup.
  - rewrite map_app. apply NoDup_snoc; [done|]. by apply dict_get_None.
Qed.

Lemma fold_dict_append_NoDup l : forall d,
  NoDup (map fst d) -> NoDup (map fst (fold_left dict_append l d)).
Proof.
  induction l as [|kv l IH]; intros d Hd; [done|]. simpl.
  by apply IH, dict_append_NoDup.
Qed.

(** The keys of [parse_qs] are distinct. *)
Lemma parse_qs_NoDup qs : NoDup (map fst (parse_qs qs)).
Proof. apply fold_dict_append_NoDup. constructor. Qed.

Lemma dict_append_values d kv :
  kv.2 <> "" -> Forall values_ok d -> Forall values_ok (dict_append d kv).
Proof.
  intros Hv Hd. unfold dict_append. destruct (dict_get d kv.1) as [vs|] eqn:Hk.
  - apply dict_set_Forall; [done|]. split; simpl.
    + by destruct vs.
    + apply Forall_app. split; [|by repeat constructor].
      clear -Hd Hk. induction Hd as [|[k' v'] d [_ Hx] Hd IH]; [done|].
      simpl in Hk. destruct (String.eqb k' kv.1); [|by apply IH].
      by injection Hk as <-.
  - apply Forall_app. split; [done|]. constructor; [|constructor].
    split; simpl; [done|]. by repeat constructor.
Qed.

Lemma fold_dict_append_values l : forall d,
  Forall (fun kv => kv.2 <> "") l -> Forall values_ok d ->
  Forall values_ok (fold_left dict_append l d).
Proof.
  induction l as [|kv l IH]; intros d Hl Hd; [done|]. simpl.
  inversion Hl; subst. apply IH; [done|]. by apply dict_append_values.
Qed.

Lemma replace_char_truthy a b s : Py.truthy_str (Py.replace_char a b s) = Py.truthy_str s.
Proof. by destruct s. Qed.

Lemma unquote_truthy s : Py.truthy_str (unquote s) = Py.truthy_str s.
Proof.
  destruct s as [|c s]; [done|]. rewrite unquote_cons.
  destruct (Ascii.eqb c "%"); [|done].
  destruct s as [|h [|l s]]; [done..|].
  by destruct (hex_val h), (hex_val l).
Qed.

Lemma parse_qsl_values qs : Forall (fun kv => kv.2 <> "") (parse_qsl qs).
Proof.
  unfold parse_qsl. destruct (negb (Py.truthy_str qs)); [constructor|].
  induction (Py.split "&" qs) as [|x l IH]; [constructor|]. cbn [flat_map].
  apply Forall_app. split; [|done].
  destruct (Py.partition "=" x) as [[n v]|]; [|constructor].
  destruct (Py.truthy_str v) eqn:Hv; [|constructor].
  constructor; [|constructor]. simpl. apply truthy_str_nonempty.
  by rewrite unquote_truthy, replace_char_truthy.
Qed.

Lemma parse_qs_values qs : Forall values_ok (parse_qs qs).
Proof. apply fold_dict_append_values; [apply parse_qsl_values|constructor]. Qed.

Lemma fold_dict_append_fresh l : forall d,
  NoDup (map fst d ++ map fst l) ->
  fold_left dict_append l d = d ++ map (fun kv => (kv.1, [kv.2])) l.
Proof.
  induction l as [|kv l IH]; intros d Hnd; simpl.
  - by rewrite app_nil_r.
  - assert (dict_get d kv.1 = None) as Hk.
    { apply dict_get_None. apply NoDup_app in Hnd as (_ & Hdis & _).
      intros Hin. apply (Hdis _ Hin). simpl. apply list_elem_of_here. }
    unfold dict_append at 2. rewrite Hk. rewrite IH.
    + by rewrite <- app_assoc.
    + rewrite map_app. simpl. rewrite <- app_assoc. simpl.
      clear -Hnd. simpl in Hnd.
      apply NoDup_app in Hnd as (H1 & H2 & H3).
      apply NoDup_cons in H3 as [H3 H4].
      apply NoDup_app. split; [done|]. split.
      * intros x Hx Hx'. apply elem_of_cons in Hx' as [->|Hx'].
        -- apply (H2 _ Hx). apply list_elem_of_here.
        -- apply (H2 _ Hx). by apply list_elem_of_further.
      * by apply NoDup_cons.
Qed.

(** [parse_qs] reads back the dictionary [urlencode] writes, each value in
    a list of its own, when no value is empty. *)
Lemma parse_qs_urlencode d :
  NoDup (map fst d) -> Forall (fun kv => kv.2 <> "") d ->
  parse_qs (urlencode d) = map (fun kv => (kv.1, [kv.2])) d.
Proof.
  intros Hnd Hv. unfold parse_qs. rewrite parse_qsl_urlencode by done.
  by rewrite fold_dict_append_fresh.
Qed.

Lemma str_nonempty n : Py.str n <> "".
Proof.
  destruct n as [|p|p]; [done| |].
  - by destruct (str_positive p) as (c & s & -> & _).
  - unfold Py.str. cbn [Z.to_int NilZero.string_of_int]. done.
Qed.

Lemma start_query_round_trip qs offset :
  parse_qs (urlencode (start_query (parse_qs qs) offset))
  = map (fun kv => (kv.1, [hd "" kv.2])) (dict_set (parse_qs qs) "start" [Py.str offset]).
Proof.
  unfold start_query. rewrite parse_qs_urlencode.
  - by rewrite map_map.
  - rewrite map_map. simpl. apply dict_set_NoDup, parse_qs_NoDup.
  - apply Forall_map. 
    assert (Forall values_ok (dict_set (parse_qs qs) "start" [Py.str offset])) as H.
    { apply dict_set_Forall; [apply parse_qs_values|].
      split; simpl; [done|]. constructor; [apply str_nonempty|constructor]. }
    eapply Forall_impl; [exact H|]. intros [k vs] [Hne Hvs]. simpl in *.
    destruct vs as [|v vs]; [done|]. simpl. by inversion Hvs.
Qed.

(** ** The query of a URL *)

Lemma any_char_app p a b : Py.any_char p (a +:+ b) = Py.any_char p a || Py.any_char p b.
Proof.
  induction a as [|c a IH]; [done|]. rewrite app_String. cbn [Py.any_char].
  by rewrite IH, orb_assoc.
Qed.

Lemma any_char_weaken (p q : ascii -> bool) s :
  (forall c, q c = true -> p c = true) ->
  Py.any_char p s = false -> Py.any_char q s = false.
Proof.
  intros Hpq. induction s as [|c s IH]; [done|]. cbn [Py.any_char].
  intros [Hc Hs]%orb_false_iff. rewrite IH by done.
  destruct (q c) eqn:Hq; [|done]. apply Hpq in Hq. congruence.
Qed.

Lemma all_chars_any_char (p q : ascii -> bool) s :
  (forall c, p c = true -> q c = false) ->
  Py.all_chars p s = true -> Py.any_char q s = false.
Proof.
  intros Hpq. induction s as [|c s IH]; [done|]. cbn [Py.any_char Py.all_chars].
  intros [Hc Hs]%andb_true_iff. by rewrite IH, (Hpq _ Hc).
Qed.

Lemma mark_free_question s : Py.any_char mark s = false -> Py.contains_char "?" s = false.
Proof.
  apply any_char_weaken. intros c Hc%Ascii.eqb_eq. by subst.
Qed.

Lemma mark_free_hash s : Py.any_char mark s = false -> Py.contains_char "#" s = false.
Proof.
  apply any_char_weaken. intros c Hc%Ascii.eqb_eq. by subst.
Qed.

Lemma lstrip_by_app_stop p a c b :
  p c = false -> exists a', Py.lstrip_by p (a +:+ String c b) = a' +:+ String c b /\
    forall q, Py.any_char q a = false -> Py.any_char q a' = false.
Proof.
  intros Hc. induction a as [|d a (a' & IH & Hq)].
  - exists "". rewrite app_empty_l. simpl. by rewrite Hc.
  - rewrite app_String. cbn [Py.lstrip_by]. destruct (p d).
    + exists a'. split; [done|]. intros q [_ Ha]%orb_false_iff. by apply Hq.
    + by exists (String d a).
Qed.

Lemma remove_chars_app p a b :
  Py.remove_chars p (a +:+ b) = Py.remove_chars p a +:+ Py.remove_chars p b.
Proof.
  induction a as [|c a IH]; [done|]. rewrite app_String. cbn [Py.remove_chars].
  destruct (p c); [done|]. by rewrite app_String, IH.
Qed.

Lemma remove_chars_id p s : Py.any_char p s = false -> Py.remove_chars p s = s.
Proof.
  induction s as [|c s IH]; [done|]. cbn [Py.any_char Py.remove_chars].
  intros [-> Hs]%orb_false_iff. by rewrite IH.
Qed.

Lemma remove_chars_free p q s :
  Py.any_char q s = false -> Py.any_char q (Py.remove_chars p s) = false.
Proof.
  induction s as [|c s IH]; [done|]. cbn [Py.any_char Py.remove_chars].
  intros [Hc Hs]%orb_false_iff. destruct (p c); [by apply IH|].
  cbn [Py.any_char]. by rewrite Hc, IH.
Qed.

Lemma break_spec p s : s = (Py.break p s).1 +:+ (Py.break p s).2.
Proof.
  induction s as [|c s IH]; [done|]. rewrite break_cons. destruct (p c); [done|].
  destruct (Py.break p s) as [a b]. simpl in *. by rewrite app_String, <- IH.
Qed.

Lemma break_fst_free p s : Py.any_char p (Py.break p s).1 = false.
Proof.
  induction s as [|c s IH]; [done|]. rewrite break_cons. destruct (p c) eqn:Hc; [done|].
  destruct (Py.break p s) as [a b]. simpl in *. by rewrite Hc.
Qed.

Lemma partition_spec c s a b :
  Py.partition c s = Some (a, b) ->
  s = a +:+ String c b /\ Py.contains_char c a = false.
Proof.
  unfold Py.partition. pose proof (break_spec (Ascii.eqb c) s) as Hs.
  pose proof (break_fst_free (Ascii.eqb c) s) as Hf.
  destruct (Py.break (Ascii.eqb c) s) as [x [|d y]] eqn:Hb; [done|].
  intros [= <- <-]. simpl in *. split; [|done].
  assert (Ascii.eqb c d = true) as Hd; [|apply Ascii.eqb_eq in Hd; by subst].
  clear -Hb. revert x Hb. induction s as [|e s IH]; intros x; [done|].
  rewrite break_cons. destruct (Ascii.eqb c e) eqn:He.
  - intros [= <- <- <-]. done.
  - destruct (Py.break (Ascii.eqb c) s) as [a b]. intros [= <- ->]. by eapply IH.
Qed.

Lemma rpartition_spec c s a b : rpartition c s = Some (a, b) -> s = a +:+ String c b.
Proof.
  revert a. induction s as [|d s IH]; intros a; [done|]. cbn [rpartition].
  destruct (rpartition c s) as [[x y]|].
  - intros [= <- <-]. rewrite app_String. by rewrite <- (IH x).
  - destruct (Ascii.eqb d c) eqn:Hd; [|done]. intros [= <- <-].
    apply Ascii.eqb_eq in Hd. by subst.
Qed.

Lemma drop_last_free q s : Py.any_char q s = false -> Py.any_char q (drop_last s) = false.
Proof.
  induction s as [|c s IH]; [done|]. cbn [Py.any_char drop_last].
  intros [Hc Hs]%orb_false_iff. destruct s as [|d s]; [done|].
  cbn [Py.any_char]. rewrite Hc. by apply IH.
Qed.

(** A text that goes on to a [?] after a prefix without [?]: the
    prefix ends before the [?]. *)
Lemma prefix_before_mark a c r P X :
  a +:+ String c r = P +:+ String "?" X ->
  Py.any_char mark a = false -> mark c = false ->
  exists P', P = a +:+ String c P' /\ r = P' +:+ String "?" X.
Proof.
  revert P. induction a as [|x a IH]; intros P Heq Ha Hc.
  - rewrite app_empty_l in Heq. destruct P as [|y P].
    + rewrite app_empty_l in Heq. injection Heq as -> _. done.
    + rewrite app_String in Heq. injection Heq as -> ->. by exists P.
  - cbn [Py.any_char] in Ha. apply orb_false_iff in Ha as [Hx Ha].
    rewrite app_String in Heq. destruct P as [|y P].
    + rewrite app_empty_l in Heq. injection Heq as -> _. done.
    + rewrite app_String in Heq. injection Heq as -> Heq.
      destruct (IH P Heq Ha Hc) as (P' & -> & ->). by exists P'.
Qed.

Lemma scheme_char_not_mark c : scheme_char c = true -> mark c = false.
Proof. destruct c as [[] [] [] [] [] [] [] []]; vm_compute; congruence. Qed.

Lemma scheme_lower_not_mark c : scheme_char c = true -> mark (Py.lower_char c) = false.
Proof. destruct c as [[] [] [] [] [] [] [] []]; vm_compute; congruence. Qed.

Lemma query_char_safe c :
  query_char c = true -> Ascii.eqb "#" c = false /\ unsafe_url_byte c = false.
Proof. destruct c as [[] [] [] [] [] [] [] []]; vm_compute; intros; split; congruence. Qed.

Lemma lower_free s :
  Py.all_chars scheme_char s = true -> Py.any_char mark (Py.lower s) = false.
Proof.
  induction s as [|c s IH]; [done|]. cbn [Py.all_chars Py.lower Py.any_char].
  intros [Hc Hs]%andb_true_iff. by rewrite (scheme_lower_not_mark _ Hc), IH.
Qed.

Lemma split_scheme_rest P X s r :
  Py.any_char mark P = false ->
  split_scheme (P +:+ String "?" X) = Some (s, r) ->
  exists P', Py.any_char mark P' = false /\ r = P' +:+ String "?" X.
Proof.
  intros HP. unfold split_scheme.
  destruct (P +:+ String "?" X) as [|c u] eqn:Hu; [done|].
  destruct (Py.isalpha c); [|done].
  destruct (Py.partition ":" (String c u)) as [[a b]|] eqn:Hp; [|done].
  destruct (Py.all_chars scheme_char a) eqn:Ha; [|done]. intros [= <- <-].
  apply partition_spec in Hp as [Hp _]. rewrite Hp in Hu. 
  destruct (prefix_before_mark a ":" b P X) as (P' & -> & ->); [done| |done|].
  - eapply all_chars_any_char; [|exact Ha]. apply scheme_char_not_mark.
  - exists P'. split; [|done]. rewrite any_char_app in HP.
    apply orb_false_iff in HP as [_ HP]. cbn [Py.any_char] in HP.
    by apply orb_false_iff in HP as [_ HP].
Qed.

Lemma break_rest p a X :
  p "?"%char = true -> Py.any_char mark a = false ->
  exists P', Py.any_char mark P' = false /\
    (Py.break p (a +:+ String "?" X)).2 = P' +:+ String "?" X.
Proof.
  intros Hp. induction a as [|d a IH]; intros Ha.
  - exists "". rewrite app_empty_l, break_cons, Hp. done.
  - cbn [Py.any_char] in Ha. apply orb_false_iff in Ha as [Hd Ha].
    rewrite app_String, break_cons. destruct (p d).
    + exists (String d a). split; [|done]. cbn [Py.any_char]. by rewrite Hd.
    + destruct (IH Ha) as (P' & HP' & Heq). exists P'. split; [done|].
      by destruct (Py.break p (a +:+ String "?" X)).
Qed.

Lemma splitnetloc_rest P X n r :
  Py.any_char mark P = false ->
  splitnetloc (P +:+ String "?" X) = Some (n, r) ->
  exists P', Py.any_char mark P' = false /\ r = P' +:+ String "?" X.
Proof.
  intros HP. unfold splitnetloc.
  destruct P as [|c1 [|c2 P]].
  - rewrite app_empty_l. done.
  - rewrite !app_String, app_empty_l. destruct c1 as [[] [] [] [] [] [] [] []]; done.
  - rewrite !app_String. cbn [Py.any_char] in HP.
    apply orb_false_iff in HP as [_ HP]. apply orb_false_iff in HP as [_ HP].
    destruct (break_rest (fun c => Ascii.eqb c "/" || Ascii.eqb c "?" || Ascii.eqb c "#")
                P X) as (P' & HP' & Heq); [done|done|].
    destruct c1 as [[] [] [] [] [] [] [] []]; try done.
    destruct c2 as [[] [] [] [] [] [] [] []]; try done.
    intros [= Hb]. rewrite Hb in Heq. by exists P'.
Qed.

(** The query [urlsplit] finds in a URL made of a prefix without [?]
    and [#], a [?], an encoded query and perhaps a fragment. *)
Lemma urlsplit_query P q f d :
  Py.any_char mark P = false ->
  Py.all_chars query_char q = true ->
  (urlsplit (P +:+ String "?" (q +:+ (if Py.truthy_str f then String "#" f else ""))) d).1.2
  = q.
Proof.
  intros HP Hq. unfold urlsplit.
  destruct (lstrip_by_app_stop c0_control_or_space P "?"
              (q +:+ (if Py.truthy_str f then String "#" f else "")))
    as (P1 & -> & HP1); [done|].
  apply HP1 in HP. clear HP1.
  rewrite remove_chars_app.
  change (Py.remove_chars unsafe_url_byte
            (String "?" (q +:+ (if Py.truthy_str f then String "#" f else ""))))
    with (String "?" (Py.remove_chars unsafe_url_byte
            (q +:+ (if Py.truthy_str f then String "#" f else "")))).
  rewrite remove_chars_app.
  rewrite (remove_chars_id _ q)
    by (eapply all_chars_any_char; [|exact Hq]; intros c Hc; by apply query_char_safe).
  assert (exists f', Py.remove_chars unsafe_url_byte
            (if Py.truthy_str f then String "#" f else "")
            = (if Py.truthy_str f then String "#" f' else "")) as [f' ->].
  { destruct (Py.truthy_str f); [|by exists ""].
    by exists (Py.remove_chars unsafe_url_byte f). }
  apply (remove_chars_free unsafe_url_byte) in HP.
  generalize dependent (Py.remove_chars unsafe_url_byte P1). clear P1. intros P2 HP2.
  set (X := q +:+ (if Py.truthy_str f then String "#" f' else "")).
  assert (exists P3, Py.any_char mark P3 = false /\
            (match split_scheme (P2 +:+ String "?" X) with
             | Some (s, r) => (s, r)
             | None => (Py.remove_chars unsafe_url_byte
                          (Py.rstrip_by c0_control_or_space
                             (Py.lstrip_by c0_control_or_space d)),
                        P2 +:+ String "?" X)
             end).2 = P3 +:+ String "?" X) as (P3 & HP3 & Heq3).
  { destruct (split_scheme _) as [[s r]|] eqn:Hs.
    - by apply split_scheme_rest in Hs.
    - by exists P2. }
  destruct (match split_scheme (P2 +:+ String "?" X) with
            | Some (s, r) => (s, r) | None => _ end) as [sch u3].
  simpl in Heq3. subst u3.
  assert (exists P4, Py.any_char mark P4 = false /\
            (match splitnetloc (P3 +:+ String "?" X) with
             | Some (n, r) => (n, r)
             | None => ("", P3 +:+ String "?" X)
             end).2 = P4 +:+ String "?" X) as (P4 & HP4 & Heq4).
  { destruct (splitnetloc _) as [[n r]|] eqn:Hs.
    - by apply splitnetloc_rest in Hs.
    - by exists P3. }
  destruct (match splitnetloc (P3 +:+ String "?" X) with
            | Some (n, r) => (n, r) | None => _ end) as [loc u4].
  simpl in Heq4. subst u4. unfold X.
  assert (Py.contains_char "#" (P4 +:+ String "?" q) = false) as Hnohash.
  { pose proof (mark_free_hash _ HP4) as Hh. unfold Py.contains_char in Hh |- *.
    rewrite any_char_app, Hh. cbn [Py.any_char orb].
    change (Ascii.eqb "#" "?") with false. cbn [orb].
    eapply all_chars_any_char; [|exact Hq]. intros c Hc. by apply query_char_safe. }
  destruct (Py.truthy_str f).
  - replace (P4 +:+ String "?" (q +:+ String "#" f'))
      with ((P4 +:+ String "?" q) +:+ String "#" f')
      by (by rewrite app_assoc_str, app_String).
    rewrite partition_app by done.
    rewrite partition_app by (by apply mark_free_question). done.
  - rewrite app_empty_r.
    apply partition_contains in Hnohash. rewrite Hnohash.
    rewrite partition_app by (by apply mark_free_question). done.
Qed.

Lemma urlparse_query url : query (urlparse url) = (urlsplit url "").1.2.
Proof.
  unfold urlparse, urlparse_with.
  destruct (urlsplit url "") as [[[[sch loc] u] qry] frag].
  by destruct (mem sch uses_params && Py.contains_char ";" u), (splitparams u).
Qed.

Lemma split_scheme_free u s r : split_scheme u = Some (s, r) -> Py.any_char mark s = false.
Proof.
  unfold split_scheme. destruct u as [|c u]; [done|].
  destruct (Py.isalpha c); [|done].
  destruct (Py.partition ":" (String c u)) as [[a b]|]; [|done].
  destruct (Py.all_chars scheme_char a) eqn:Ha; [|done].
  intros [= <- <-]. by apply lower_free.
Qed.

Lemma splitnetloc_free u n r : splitnetloc u = Some (n, r) -> Py.any_char mark n = false.
Proof.
  unfold splitnetloc. destruct u as [|c1 [|c2 u]]; [done| |].
  - destruct c1 as [[] [] [] [] [] [] [] []]; done.
  - destruct c1 as [[] [] [] [] [] [] [] []]; try done.
    destruct c2 as [[] [] [] [] [] [] [] []]; try done.
    intros [= Hb].
    pose proof (break_fst_free
      (fun c => Ascii.eqb c "/" || Ascii.eqb c "?" || Ascii.eqb c "#") u) as Hf.
    rewrite Hb in Hf. simpl in Hf. eapply any_char_weaken; [|exact Hf].
    intros c Hc. unfold mark in Hc. apply orb_true_iff in Hc as [->| ->];
      by rewrite ?orb_true_r.
Qed.

Lemma contains_mark_free s :
  Py.contains_char "?" s = false -> Py.contains_char "#" s = false ->
  Py.any_char mark s = false.
Proof.
  unfold Py.contains_char. induction s as [|c s IH]; [done|]. cbn [Py.any_char].
  intros [H1 H2]%orb_false_iff [H3 H4]%orb_false_iff. rewrite IH by done.
  unfold mark. rewrite (Ascii.eqb_sym c "?"), (Ascii.eqb_sym c "#"), H1, H3. done.
Qed.

Lemma contains_char_prefix c a b :
  Py.contains_char c (a +:+ b) = false -> Py.contains_char c a = false.
Proof.
  unfold Py.contains_char. rewrite any_char_app. by intros [? ?]%orb_false_iff.
Qed.

(** The path [urlsplit] gives has neither [?] nor [#]. *)
Lemma path_part_free u :
  Py.any_char mark
    (match Py.partition "?"
             (match Py.partition "#" u with Some (x, f) => (x, f) | None => (u, "") end).1
     with
     | Some (x, q) => (x, q)
     | None => ((match Py.partition "#" u with Some (x, f) => (x, f) | None => (u, "") end).1, "")
     end).1 = false.
Proof.
  assert (Py.contains_char "#"
            (match Py.partition "#" u with Some (x, f) => (x, f) | None => (u, "") end).1
          = false) as Hh.
  { destruct (Py.partition "#" u) as [[x f]|] eqn:Hp.
    - by apply partition_spec in Hp as [_ Hp].
    - by apply partition_contains in Hp. }
  destruct (match Py.partition "#" u with Some (x, f) => (x, f) | None => (u, "") end)
    as [u1 frag]. simpl in *.
  destruct (Py.partition "?" u1) as [[x q]|] eqn:Hp; simpl.
  - apply partition_spec in Hp as [-> Hq]. apply contains_mark_free; [done|].
    by apply contains_char_prefix in Hh.
  - apply partition_contains in Hp. by apply contains_mark_free.
Qed.

Lemma urlsplit_parts_free url :
  Py.any_char mark (urlsplit url "").1.1.1.1 = false /\
  Py.any_char mark (urlsplit url "").1.1.1.2 = false /\
  Py.any_char mark (urlsplit url "").1.1.2 = false.
Proof.
  unfold urlsplit.
  set (u0 := Py.remove_chars unsafe_url_byte (Py.lstrip_by c0_control_or_space url)).
  change (Py.remove_chars unsafe_url_byte
            (Py.rstrip_by c0_control_or_space (Py.lstrip_by c0_control_or_space "")))
    with "".
  assert (Py.any_char mark
            (match split_scheme u0 with Some (s, r) => (s, r) | None => ("", u0) end).1
          = false) as Hsch.
  { destruct (split_scheme u0) as [[s r]|] eqn:Hs; [|done].
    by apply split_scheme_free in Hs. }
  destruct (match split_scheme u0 with Some (s, r) => (s, r) | None => ("", u0) end)
    as [sch u1]. simpl in Hsch.
  assert (Py.any_char mark
            (match splitnetloc u1 with Some (n, r) => (n, r) | None => ("", u1) end).1
          = false) as Hloc.
  { destruct (splitnetloc u1) as [[n r]|] eqn:Hs; [|done].
    by apply splitnetloc_free in Hs. }
  destruct (match splitnetloc u1 with Some (n, r) => (n, r) | None => ("", u1) end)
    as [loc u2]. simpl in Hloc.
  pose proof (path_part_free u2) as Hpath.
  destruct (match Py.partition "#" u2 with Some (x, f) => (x, f) | None => (u2, "") end)
    as [u3 frag]. simpl in Hpath.
  destruct (match Py.partition "?" u3 with Some (x, q) => (x, q) | None => (u3, "") end)
    as [u4 qry]. simpl in Hpath. simpl. done.
Qed.

Lemma splitparams_free u :
  Py.any_char mark u = false ->
  Py.any_char mark (splitparams u).1 = false /\
  Py.any_char mark (splitparams u).2 = false.
Proof.
  intros Hu. unfold splitparams.
  destruct (rpartition "/" u) as [[dir lst]|] eqn:Hr.
  - apply rpartition_spec in Hr. 
    destruct (Py.partition ";" lst) as [[a b]|] eqn:Hp; [|done].
    apply partition_spec in Hp as [Hp _]. subst lst u.
    rewrite any_char_app in Hu. apply orb_false_iff in Hu as [Hdir Hu].
    cbn [Py.any_char] in Hu. apply orb_false_iff in Hu as [_ Hu].
    rewrite any_char_app in Hu. apply orb_false_iff in Hu as [Ha Hb].
    cbn [Py.any_char] in Hb. apply orb_false_iff in Hb as [_ Hb].
    simpl. split; [|done]. rewrite !any_char_app, Hdir, Ha. done.
  - destruct (Py.partition ";" u) as [[a b]|] eqn:Hp.
    + apply partition_spec in Hp as [Hp _]. subst u.
      rewrite any_char_app in Hu. apply orb_false_iff in Hu as [Ha Hb].
      cbn [Py.any_char] in Hb. by apply orb_false_iff in Hb as [_ Hb].
    + simpl. split; [by apply drop_last_free|done].
Qed.

(** The scheme, the host, the path and the parameters of a URL have
    neither [?] nor [#]. *)
Lemma urlparse_parts_free url :
  Py.any_char mark (scheme (urlparse url)) = false /\
  Py.any_char mark (netloc (urlparse url)) = false /\
  Py.any_char mark (path (urlparse url)) = false /\
  Py.any_char mark (params (urlparse url)) = false.
Proof.
  unfold urlparse, urlparse_with.
  destruct (urlsplit_parts_free url) as (Hs & Hn & Hp).
  destruct (urlsplit url "") as [[[[sch loc] u] qry] frag]. cbn [fst snd] in *.
  destruct (mem sch uses_params && Py.contains_char ";" u).
  - destruct (splitparams_free u Hp) as [H1 H2].
    destruct (splitparams u) as [x par]. cbn [fst snd] in *. simpl. auto.
  - simpl. auto.
Qed.

(** The URL [urlunparse] writes for a query that is not empty. *)
Lemma urlunparse_query s n p pa q f :
  q <> "" ->
  Py.any_char mark s = false -> Py.any_char mark n = false ->
  Py.any_char mark p = false -> Py.any_char mark pa = false ->
  exists P, Py.any_char mark P = false /\
    urlunparse (mkParseResult s n p pa q f)
    = P +:+ String "?" (q +:+ (if Py.truthy_str f then String "#" f else "")).
Proof.
  intros Hq Hs Hn Hp Hpa. unfold urlunparse, urlunsplit. simpl.
  apply truthy_str_nonempty in Hq. rewrite Hq.
  match goal with
  | |- context [if Py.truthy_str f then (?u +:+ "?" +:+ q) +:+ "#" +:+ f else _] =>
      exists u; split
  end.
  - set (u := if Py.truthy_str pa then p +:+ ";" +:+ pa else p).
    assert (Py.any_char mark u = false) as Hu.
    { unfold u. destruct (Py.truthy_str pa); [|done].
      rewrite !any_char_app, Hp, Hpa. done. }
    clearbody u.
    set (u1 := if Py.truthy_str n || _ then _ else u).
    assert (Py.any_char mark u1 = false) as Hu1.
    { unfold u1. destruct (Py.truthy_str n || _); [|done].
      rewrite !any_char_app, Hn. 
      destruct (Py.truthy_str u && _); [|by rewrite Hu].
      rewrite any_char_app, Hu. done. }
    clearbody u1. destruct (Py.truthy_str s); [|done].
    rewrite !any_char_app, Hs, Hu1. done.
  - destruct (Py.truthy_str f).
    + by rewrite app_assoc_str.
    + by rewrite app_empty_r.
Qed.

Lemma urlencode_chars d : Py.all_chars query_char (urlencode d) = true.
Proof.
  rewrite urlencode_join.
  assert (forall kv, Py.all_chars query_char (encode_pair kv) = true) as Hkv.
  { intros kv. unfold encode_pair. rewrite !all_chars_app.
    assert (forall s, Py.all_chars query_char (quote_plus s) = true) as Hs.
    { intros s. pose proof (quote_plus_chars s) as H.
      induction (quote_plus s) as [|c t IH]; [done|]. cbn [Py.all_chars] in *.
      apply andb_true_iff in H as [Hc Ht]. unfold query_char at 1.
      by rewrite Hc, IH. }
    by rewrite !Hs. }
  induction d as [|kv d IH]; [done|]. cbn [map].
  destruct (map encode_pair d) as [|x l] eqn:Hd.
  - cbn [Py.join]. apply Hkv.
  - rewrite join_cons2. rewrite all_chars_app, Hkv. cbn [Py.all_chars andb].
    exact IH.
Qed.

Lemma urlencode_nonempty d : d <> [] -> urlencode d <> "".
Proof.
  intros Hd. destruct d as [|kv d]; [done|]. rewrite urlencode_join. cbn [map].
  destruct (map encode_pair d).
  - cbn [Py.join]. unfold encode_pair. by apply app_nonempty_r.
  - rewrite join_cons2. by apply app_nonempty_r.
Qed.

Lemma dict_set_nonempty {V} (d : dict V) k v : dict_set d k v <> [].
Proof. destruct d as [|[k' v'] d]; [done|]. simpl. by destruct (String.eqb k' k). Qed.

Lemma with_start_unfold base offset :
  with_start base offset
  = urlunparse (mkParseResult (scheme (urlparse base)) (netloc (urlparse base))
      (path (urlparse base)) (params (urlparse base))
      (urlencode (start_query (parse_qs (query (urlparse base))) offset))
      (fragment (urlparse base))).
Proof. reflexivity. Qed.

(** The query of the URL [with_start] makes is the query it encodes. *)
Lemma with_start_query base offset :
  query (urlparse (with_start base offset))
  = urlencode (start_query (parse_qs (query (urlparse base))) offset).
Proof.
  rewrite with_start_unfold.
  destruct (urlparse_parts_free base) as (Hs & Hn & Hp & Hpa).
  destruct (urlunparse_query (scheme (urlparse base)) (netloc (urlparse base))
              (path (urlparse base)) (params (urlparse base))
              (urlencode (start_query (parse_qs (query (urlparse base))) offset))
              (fragment (urlparse base))) as (P & HP & ->); try done.
  { apply urlencode_nonempty. unfold start_query.
    intros Hnil%map_eq_nil. by apply dict_set_nonempty in Hnil. }
  rewrite urlparse_query. apply urlsplit_query; [done|apply urlencode_chars].
Qed.

(** The parameters of the URL [with_start] makes. *)
Lemma with_start_parse base offset :
  parse_qs (query (urlparse (with_start base offset)))
  = map (fun kv => (kv.1, [hd "" kv.2]))
        (dict_set (parse_qs (query (urlparse base))) "start" [Py.str offset]).
Proof. by rewrite with_start_query, start_query_round_trip. Qed.

(** [int] reads the offset back from the URL [with_start] makes. *)
Lemma with_start_reads_back base offset :
  Py.int (start_text (with_start base offset)) = Ok offset.
Proof.
  unfold start_text. rewrite with_start_parse.
  assert (dict_get (map (fun kv : string * list string => (kv.1, [hd "" kv.2]))
            (dict_set (parse_qs (query (urlparse base))) "start" [Py.str offset])) "start"
          = Some [Py.str offset]) as ->.
  { induction (parse_qs (query (urlparse base))) as [|[k v] d IH]; [done|].
    simpl. destruct (String.eqb k "start") eqn:Hk; simpl; rewrite Hk; [done|apply IH]. }
  simpl. apply int_str.
Qed.

(** ** The sign of a rating *)

Lemma iter_pos_inv {A} (f : A -> A) (P : A -> Prop) :
  (forall x, P x -> P (f x)) -> forall n x, P x -> P (@SpecFloat.iter_pos A f n x).
Proof.
  intros Hf. induction n as [n IH|n IH|]; intros x Hx; simpl; auto.
Qed.

Lemma shr_1_nonneg mrs : (0 <= shr_m mrs)%Z -> (0 <= shr_m (shr_1 mrs))%Z.
Proof.
  destruct mrs as [[|[p|p|]|p] r s]; simpl; lia.
Qed.

Lemma shr_nonneg mrs e n : (0 <= shr_m mrs)%Z -> (0 <= shr_m (shr mrs e n).1)%Z.
Proof.
  intros Hm. unfold shr. destruct n as [|p|p]; [done| |done]. simpl.
  by apply iter_pos_inv; [apply shr_1_nonneg|].
Qed.

Lemma shr_fexp_nonneg prec emax m e l :
  (0 <= m)%Z -> (0 <= shr_m (shr_fexp prec emax m e l).1)%Z.
Proof.
  intros Hm. unfold shr_fexp. apply shr_nonneg. by destruct l as [|[]].
Qed.

Lemma round_nearest_even_nonneg m l : (0 <= m)%Z -> (0 <= round_nearest_even m l)%Z.
Proof.
  intros Hm. destruct l as [|[]]; simpl; [done| |done|lia].
  destruct (Z.even m); lia.
Qed.

Lemma binary_round_aux_not_negative prec emax m e l :
  (0 <= m)%Z -> not_negative (binary_round_aux prec emax false m e l).
Proof.
  intros Hm. unfold binary_round_aux.
  pose proof (shr_fexp_nonneg prec emax m e l Hm) as H1.
  destruct (shr_fexp prec emax m e l) as [mrs' e']. simpl in H1.
  pose proof (shr_fexp_nonneg prec emax
                (round_nearest_even (shr_m mrs') (loc_of_shr_record mrs')) e' loc_Exact
                (round_nearest_even_nonneg _ _ H1)) as H2.
  destruct (shr_fexp prec emax _ e' loc_Exact) as [mrs'' e'']. simpl in H2.
  destruct (shr_m mrs'') as [|p|p]; [done| |lia].
  by destruct (e'' <=? emax - prec)%Z.
Qed.

Lemma of_decimal_not_negative m e : not_negative (PyFloat.of_decimal false m e).
Proof.
  unfold PyFloat.of_decimal. destruct m as [|p|p]; [done| |done].
  destruct (0 <=? e)%Z.
  - destruct (Z.pos p * 10 ^ e)%Z as [|q|q] eqn:Hq; [done| |].
    + unfold binary_normalize, binary_round.
      destruct (shl_align _ _ _) as [mz ez]. by apply binary_round_aux_not_negative.
    + exfalso. assert (0 <= Z.pos p * 10 ^ e)%Z; [|lia].
      apply Z.mul_nonneg_nonneg; [lia|]. apply Z.pow_nonneg. lia.
  - unfold SFdiv.
    destruct (SFdiv_core_binary _ _ _ _ _ _) as [[mz ez] lz] eqn:Hd.
    apply binary_round_aux_not_negative.
    unfold SFdiv_core_binary in Hd.
    set (m' := match _ with Z.pos _ => _ | _ => _ end) in Hd.
    assert (0 <= m')%Z as Hm'.
    { unfold m'. destruct (_ - _ - _)%Z; [lia| |lia]. apply Z.shiftl_nonneg. lia. }
    assert (Z.pos (Z.to_pos (10 ^ (- e))) > 0)%Z as Hpos by lia.
    pose proof (Z_div_mod m' (Z.pos (Z.to_pos (10 ^ (- e)))) Hpos) as Hdm.
    destruct (Z.div_eucl m' _) as [q r]. injection Hd as <- _ _.
    destruct Hdm as [Hdm Hr]. nia.
Qed.

Lemma literal_value_not_negative lit : not_negative (literal_value lit).
Proof.
  unfold literal_value. destruct (Py.partition "." lit) as [[ip fp]|];
    apply of_decimal_not_negative.
Qed.


(** ** The words of a next link *)

Lemma exec_lit w : forall p s g,
  re.exec (re.Lit true w) (re.MState p s g)
  = match lit_rest w s with
    | Some r =>
        [re.MState (prev_after p (re.take (String.length s - String.length r) s)) r g]
    | None => []
    end.
Proof.
  induction w as [|c w IH]; intros p s g.
  - simpl. rewrite Nat.sub_diag. unfold re.take. by destruct s.
  - cbn [re.Lit re.exec lit_rest re.rest]. destruct s as [|d s]; [done|].
    destruct (Ascii.eqb (Py.lower_char d) (Py.lower_char c)); [|done].
    cbn [flat_map re.group1]. rewrite app_nil_r, IH.
    destruct (lit_rest w s) as [r|] eqn:Hr; [|done].
    assert (String.length r <= String.length s) as Hle.
    { clear -Hr. revert s Hr. induction w as [|c w IH]; intros s; simpl.
      - by intros [= ->].
      - destruct s as [|d s]; [done|]. destruct (Ascii.eqb _ _); [|done].
        intros Hr%IH. simpl. lia. }
    cbn [String.length]. rewrite Nat.sub_succ_l by done. done.
Qed.

Lemma lit_rest_spec w s r :
  lit_rest w s = Some r <->
  exists x, s = x +:+ r /\ Py.lower x = Py.lower w.
Proof.
  revert s. induction w as [|c w IH]; intros s; simpl.
  - split.
    + intros [= ->]. by exists "".
    + intros (x & -> & Hx). destruct x; [done|discriminate].
  - destruct s as [|d s].
    + split; [done|]. intros ([|e x] & Hs & Hx); [discriminate Hx|discriminate Hs].
    + destruct (Ascii.eqb (Py.lower_char d) (Py.lower_char c)) eqn:Hd.
      * apply Ascii.eqb_eq in Hd. rewrite IH. split.
        -- intros (x & -> & Hx). exists (String d x). simpl. by rewrite Hd, Hx.
        -- intros ([|e x] & Hs & Hx); [discriminate Hx|].
           rewrite app_String in Hs. injection Hs as <- ->.
           simpl in Hx. injection Hx as _ Hx. by exists x.
      * apply Ascii.eqb_neq in Hd. split; [done|].
        intros ([|e x] & Hs & Hx); [discriminate Hx|].
        rewrite app_String in Hs. injection Hs as <- ->.
        simpl in Hx. injection Hx as Hx _. done.
Qed.

Lemma head_is_Some_In {A} (l : list A) : is_Some (head l) <-> exists x, In x l.
Proof.
  destruct l as [|x l]; simpl.
  - split; [by intros [? ?]|by intros [? []]].
  - split; [intros _; exists x; by left|by eexists].
Qed.

Lemma islower_lower_alpha c : Py.islower (Py.lower_char c) = true -> Py.isalpha c = true.
Proof. destruct c as [[] [] [] [] [] [] [] []]; vm_compute; congruence. Qed.

Lemma alpha_word c : Py.isalpha c = true -> re.word c = true.
Proof. unfold re.word. by intros ->. Qed.

Lemma lower_letters_word x :
  Py.all_chars Py.islower (Py.lower x) = true -> Py.all_chars re.word x = true.
Proof.
  induction x as [|c x IH]; [done|]. cbn [Py.lower Py.all_chars].
  intros [Hc Hx]%andb_true_iff.
  by rewrite (alpha_word _ (islower_lower_alpha _ Hc)), IH.
Qed.

Lemma all_word_last x : x <> "" -> Py.all_chars re.word x = true -> last_is re.word x = true.
Proof.
  induction x as [|c x IH]; [done|]. intros _. cbn [Py.all_chars last_is].
  intros [Hc Hx]%andb_true_iff. destruct x as [|d x]; [done|]. by apply IH.
Qed.

(** One of the three words is made of letters. *)
Lemma next_word_letters w :
  next_word w = true ->
  exists c w', w = String c w' /\ re.word c = true /\ last_is re.word w = true.
Proof.
  unfold next_word. intros Hw.
  assert (Py.all_chars Py.islower (Py.lower w) = true /\ Py.lower w <> "") as [Hl Hne].
  { apply orb_true_iff in Hw as [Hw|Hw]; [apply orb_true_iff in Hw as [Hw|Hw]|];
      apply String.eqb_eq in Hw; by rewrite Hw. }
  apply lower_letters_word in Hl. destruct w as [|c w']; [done|].
  exists c, w'. split; [done|]. split.
  - cbn [Py.all_chars] in Hl. by apply andb_true_iff in Hl as [? _].
  - by apply all_word_last.
Qed.

Lemma is_word_prev_after p a :
  re.is_word_opt (prev_after p a)
  = match a with EmptyString => re.is_word_opt p | _ => last_is re.word a end.
Proof.
  revert p. induction a as [|c a IH]; intros p; [done|]. cbn [prev_after].
  rewrite IH. by destruct a.
Qed.

Lemma not_starting_word b :
  re.is_word_opt (re.next_char b) = negb (not_starting re.word b).
Proof. destruct b as [|c b]; [done|]. simpl. by rewrite negb_involutive. Qed.

Lemma next_word_literal w :
  next_word w = true <-> exists w0, next_literal w0 /\ Py.lower w = Py.lower w0.
Proof.
  unfold next_word, next_literal. rewrite !orb_true_iff, !String.eqb_eq. split.
  - intros [[H|H]|H]; [exists "Next"|exists "Older"|exists "More"]; rewrite H; tauto.
  - intros (w0 & [-> | [-> | ->]] & ->); tauto.
Qed.

Lemma exec_next_alt st m :
  In m (re.exec (re.Alt (re.Lit true "Next")
                   (re.Alt (re.Lit true "Older") (re.Lit true "More"))) st)
  <-> exists w0, next_literal w0 /\ In m (re.exec (re.Lit true w0) st).
Proof.
  cbn [re.exec]. rewrite !in_app_iff. unfold next_literal. split.
  - intros [H|[H|H]]; eauto 6.
  - intros (w0 & [-> | [-> | ->]] & H); tauto.
Qed.

(** A match of the pattern at one position. *)
Lemma match_at_next p s :
  is_Some (re.match_at NEXT_TEXT_RE p s) <->
  re.is_word_opt p = false /\
  exists w b, s = w +:+ b /\ next_word w = true /\ not_starting re.word b = true.
Proof.
  unfold re.match_at. rewrite head_is_Some_In. unfold NEXT_TEXT_RE.
  set (ALT := re.Alt _ _). split.
  - intros (m & Hm). cbn [re.exec] in Hm.
    destruct (re.at_boundary (re.MState p s None)) eqn:Hb1; [|done].
    cbn [flat_map] in Hm. rewrite app_nil_r in Hm.
    apply in_flat_map in Hm as (m1 & Hm1 & Hm).
    apply in_map_iff in Hm1 as (m0 & <- & Hm0).
    apply exec_next_alt in Hm0 as (w0 & Hw0 & Hm0).
    rewrite exec_lit in Hm0. destruct (lit_rest w0 s) as [r|] eqn:Hr; [|done].
    destruct Hm0 as [<-|[]]. cbn [re.prev re.rest re.exec] in Hm.
    match type of Hm with In _ (if ?c then _ else _) => destruct c eqn:Hb2; [|done] end.
    apply lit_rest_spec in Hr as (x & -> & Hx).
    assert (next_word x = true) as Hnw by (apply next_word_literal; eauto).
    destruct (next_word_letters x Hnw) as (c & x' & -> & Hc & Hlast).
    unfold re.at_boundary in Hb1, Hb2. cbn [re.prev re.rest] in Hb1, Hb2.
    rewrite app_String in Hb1. cbn [re.next_char re.is_word_opt] in Hb1.
    rewrite Hc in Hb1. split; [by destruct (re.is_word_opt p)|].
    exists (String c x'), r. split; [done|]. split; [done|].
    rewrite length_app_str, Nat.add_sub, take_app, is_word_prev_after, Hlast in Hb2.
    rewrite not_starting_word in Hb2. by destruct (not_starting re.word r).
  - intros (Hp & w & b & -> & Hw & Hb).
    destruct (next_word_letters w Hw) as (c & w' & -> & Hc & Hlast).
    apply next_word_literal in Hw as (w0 & Hw0 & Hlow).
    assert (lit_rest w0 (String c w' +:+ b) = Some b) as Hr.
    { apply lit_rest_spec. by exists (String c w'). }
    eexists. cbn [re.exec].
    assert (re.at_boundary (re.MState p (String c w' +:+ b) None) = true) as ->.
    { unfold re.at_boundary. cbn [re.prev re.rest]. rewrite app_String.
      cbn [re.next_char re.is_word_opt]. by rewrite Hp, Hc. }
    cbn [flat_map]. rewrite app_nil_r. apply in_flat_map.
    eexists. split.
    + apply in_map_iff. eexists. split; [reflexivity|].
      apply exec_next_alt. exists w0. split; [done|].
      rewrite exec_lit, Hr. by left.
    + cbn [re.prev re.rest re.exec].
      match goal with |- In _ (if ?c then _ else _) => assert (c = true) as -> end.
      { unfold re.at_boundary. cbn [re.prev re.rest].
        rewrite length_app_str, Nat.add_sub, take_app, is_word_prev_after, Hlast.
        rewrite not_starting_word, Hb. done. }
      by left.
Qed.

(** [re.search] finds a match when the pattern matches at one
    position. *)
Lemma search_from_is_Some r : forall s p,
  is_Some (re.search_from r p s) <->
  exists a b, s = a +:+ b /\ is_Some (re.match_at r (prev_after p a) b).
Proof.
  induction s as [|c s IH]; intros p; cbn [re.search_from].
  - destruct (re.match_at r p "") as [m|] eqn:Hm.
    + split; [|by eexists]. intros _. exists "", "". cbn [prev_after]. by rewrite Hm.
    + split; [by intros [? ?]|]. intros ([|? ?] & b & Hs & Hb); [|done].
      rewrite app_empty_l in Hs. subst b. simpl in Hb. rewrite Hm in Hb.
      by destruct Hb.
  - destruct (re.match_at r p (String c s)) as [m|] eqn:Hm.
    + split; [|by eexists]. intros _. exists "", (String c s). cbn [prev_after]. by rewrite Hm.
    + rewrite IH. split.
      * intros (a & b & -> & Hb). by exists (String c a), b.
      * intros ([|d a] & b & Hs & Hb).
        -- rewrite app_empty_l in Hs. subst b. simpl in Hb. rewrite Hm in Hb.
           by destruct Hb.
        -- rewrite app_String in Hs. injection Hs as <- ->. by exists a, b.
Qed.

(** The pattern finds a match in the texts that have one of the three
    words. *)
Lemma search_next_text s :
  is_Some (re.search NEXT_TEXT_RE s) <-> has_next_word s.
Proof.
  unfold re.search, has_next_word. rewrite search_from_is_Some. split.
  - intros (a & b0 & -> & Hm). apply match_at_next in Hm as (Hp & w & b & -> & Hw & Hb).
    exists a, w, b. split; [done|]. split; [done|]. split; [|done].
    rewrite is_word_prev_after in Hp. by destruct a.
  - intros (a & w & b & -> & Hw & Ha & Hb). exists a, (w +:+ b). split; [done|].
    apply match_at_next. split; [|by exists w, b].
    rewrite is_word_prev_after. by destruct a.
Qed.


(** ** A URL written and read again *)

Lemma scheme_char_plain c :
  scheme_char c = true ->
  unsafe_url_byte c = false /\ host_end c = false /\ Ascii.eqb ":" c = false /\
  c0_control_or_space c = false /\ scheme_char (Py.lower_char c) = true /\
  Py.lower_char (Py.lower_char c) = Py.lower_char c.
Proof. destruct c as [[] [] [] [] [] [] [] []]; vm_compute; intros; repeat split; congruence. Qed.

Lemma alpha_lower_alpha c : Py.isalpha c = true -> Py.isalpha (Py.lower_char c) = true.
Proof. destruct c as [[] [] [] [] [] [] [] []]; vm_compute; congruence. Qed.

Lemma alpha_scheme_char c : Py.isalpha c = true -> scheme_char c = true.
Proof. unfold scheme_char. by intros ->. Qed.

Lemma lower_scheme s :
  Py.all_chars scheme_char s = true ->
  Py.all_chars scheme_char (Py.lower s) = true /\ Py.lower (Py.lower s) = Py.lower s.
Proof.
  induction s as [|c s IH]; [done|]. cbn [Py.all_chars Py.lower].
  intros [Hc Hs]%andb_true_iff. destruct (IH Hs) as [IH1 IH2].
  destruct (scheme_char_plain c Hc) as (_ & _ & _ & _ & H1 & H2).
  by rewrite H1, IH1, H2, IH2.
Qed.

Lemma split_scheme_ok u s r : split_scheme u = Some (s, r) -> scheme_ok s = true.
Proof.
  unfold split_scheme. destruct u as [|c u]; [done|].
  destruct (Py.isalpha c) eqn:Hc; [|done].
  destruct (Py.partition ":" (String c u)) as [[a b]|] eqn:Hp; [|done].
  destruct (Py.all_chars scheme_char a) eqn:Ha; [|done]. intros [= <- <-].
  destruct (lower_scheme a Ha) as [H1 H2].
  destruct a as [|d a]; [done|]. cbn [Py.lower scheme_ok].
  apply partition_spec in Hp as [Hp _]. rewrite app_String in Hp.
  injection Hp as <- _. rewrite (alpha_lower_alpha _ Hc).
  cbn [Py.lower] in H1, H2. rewrite H1, H2. by rewrite String.eqb_refl.
Qed.

(** A scheme is read back from the URL that starts with it. *)
Lemma split_scheme_written s r :
  scheme_ok s = true -> s <> "" -> split_scheme (s +:+ String ":" r) = Some (s, r).
Proof.
  intros Hs Hne. destruct s as [|c s]; [done|]. cbn [scheme_ok] in Hs.
  apply andb_true_iff in Hs as [Hs Hl]. apply andb_true_iff in Hs as [Hc Ha].
  apply String.eqb_eq in Hl. unfold split_scheme. rewrite app_String, Hc.
  rewrite <- app_String. rewrite partition_app.
  - by rewrite Ha, Hl.
  - eapply all_chars_any_char; [|exact Ha]. intros d Hd.
    by destruct (scheme_char_plain d Hd) as (_ & _ & ? & _).
Qed.

Lemma split_scheme_slash r : split_scheme (String "/" r) = None.
Proof. reflexivity. Qed.

Lemma splitnetloc_written n r :
  Py.any_char host_end n = false -> not_starting (fun c => negb (host_end c)) r = true ->
  splitnetloc (String "/" (String "/" (n +:+ r))) = Some (n, r).
Proof.
  intros Hn Hr. unfold splitnetloc. f_equal.
  change (fun c => Ascii.eqb c "/" || Ascii.eqb c "?" || Ascii.eqb c "#") with host_end.
  destruct r as [|c r].
  - rewrite app_empty_r. pose proof (break_spec host_end n) as Hs.
    pose proof (break_fst_free host_end n) as Hf.
    clear Hr. induction n as [|d n IH]; [done|]. rewrite break_cons.
    cbn [Py.any_char] in Hn. apply orb_false_iff in Hn as [Hd Hn]. rewrite Hd.
    rewrite IH; [done|done|apply break_spec|apply break_fst_free].
  - simpl in Hr. apply negb_true_iff, negb_false_iff in Hr. by apply break_app.
Qed.

Lemma splitnetloc_parts u n r :
  splitnetloc u = Some (n, r) ->
  u = String "/" (String "/" (n +:+ r)) /\ Py.any_char host_end n = false /\
  not_starting (fun c => negb (host_end c)) r = true.
Proof.
  unfold splitnetloc. destruct u as [|c1 [|c2 u]]; [done| |].
  - destruct c1 as [[] [] [] [] [] [] [] []]; done.
  - destruct c1 as [[] [] [] [] [] [] [] []]; try done.
    destruct c2 as [[] [] [] [] [] [] [] []]; try done.
    change (fun c => Ascii.eqb c "/" || Ascii.eqb c "?" || Ascii.eqb c "#") with host_end.
    intros [= Hb]. pose proof (break_spec host_end u) as Hs.
    pose proof (break_fst_free host_end u) as Hf. rewrite Hb in Hs, Hf. simpl in Hs, Hf.
    split; [by rewrite Hs|]. split; [done|].
    clear -Hb. revert n Hb. induction u as [|d u IH]; intros n.
    + by intros [= <- <-].
    + rewrite break_cons. destruct (host_end d) eqn:Hd.
      * intros [= <- <-]. simpl. by rewrite Hd.
      * destruct (Py.break host_end u) as [a b]. intros [= <- <-]. by eapply IH.
Qed.

Lemma remove_chars_clean p s : Py.any_char p (Py.remove_chars p s) = false.
Proof.
  induction s as [|c s IH]; [done|]. cbn [Py.remove_chars].
  destruct (p c) eqn:Hc; [done|]. cbn [Py.any_char]. by rewrite Hc.
Qed.

Lemma lstrip_by_free p q s : Py.any_char q s = false -> Py.any_char q (Py.lstrip_by p s) = false.
Proof.
  induction s as [|c s IH]; [done|]. cbn [Py.any_char Py.lstrip_by].
  intros [Hc Hs]%orb_false_iff. destruct (p c); [by apply IH|].
  cbn [Py.any_char]. by rewrite Hc.
Qed.

Lemma break_free p s : Py.any_char p s = false -> Py.break p s = (s, "").
Proof.
  induction s as [|c s IH]; [done|]. cbn [Py.any_char]. intros [Hc Hs]%orb_false_iff.
  by rewrite break_cons, Hc, IH.
Qed.

Lemma split_scheme_parts u s r :
  split_scheme u = Some (s, r) ->
  exists a, u = a +:+ String ":" r /\ s = Py.lower a /\ Py.all_chars scheme_char a = true.
Proof.
  unfold split_scheme. destruct u as [|c u]; [done|].
  destruct (Py.isalpha c); [|done].
  destruct (Py.partition ":" (String c u)) as [[a b]|] eqn:Hp; [|done].
  destruct (Py.all_chars scheme_char a) eqn:Ha; [|done]. intros [= <- <-].
  apply partition_spec in Hp as [Hp _]. by exists a.
Qed.

(** The path [urlsplit] takes from what follows the host: the longest
    prefix without [?] and [#]. *)
Lemma path_part_break u :
  (match Py.partition "?"
           (match Py.partition "#" u with Some (x, f) => (x, f) | None => (u, "") end).1
   with
   | Some (x, q) => (x, q)
   | None => ((match Py.partition "#" u with Some (x, f) => (x, f) | None => (u, "") end).1, "")
   end).1 = (Py.break mark u).1.
Proof.
  destruct (Py.partition "#" u) as [[x f]|] eqn:Hh; cbn [fst].
  - apply partition_spec in Hh as [-> Hx].
    destruct (Py.partition "?" x) as [[y q]|] eqn:Hq; cbn [fst].
    + apply partition_spec in Hq as [-> Hy]. rewrite app_assoc_str, app_String.
      rewrite break_app; [done| |done].
      apply contains_mark_free; [done|]. by apply contains_char_prefix in Hx.
    + apply partition_contains in Hq. rewrite break_app; [done| |done].
      by apply contains_mark_free.
  - apply partition_contains in Hh.
    destruct (Py.partition "?" u) as [[y q]|] eqn:Hq; cbn [fst].
    + apply partition_spec in Hq as [-> Hy]. rewrite break_app; [done| |done].
      apply contains_mark_free; [done|]. by apply contains_char_prefix in Hh.
    + apply partition_contains in Hq. rewrite break_free; [done|].
      by apply contains_mark_free.
Qed.

Lemma break_fst_prefix_free p q s :
  Py.any_char q s = false -> Py.any_char q (Py.break p s).1 = false.
Proof.
  intros Hs. rewrite (break_spec p s), any_char_app in Hs.
  by apply orb_false_iff in Hs as [? _].
Qed.

Lemma break_mark_rooted r :
  not_starting (fun c => negb (host_end c)) r = true -> rooted (Py.break mark r).1 = true.
Proof.
  destruct r as [|c r]; [done|]. simpl. intros Hc%negb_true_iff%negb_false_iff.
  unfold host_end in Hc. unfold mark. destruct (Ascii.eqb c "?" || Ascii.eqb c "#") eqn:Hm.
  - done.
  - destruct (Py.break _ r) as [a b]. simpl.
    apply orb_false_iff in Hm as [H1 H2]. rewrite H1, H2 in Hc.
    by rewrite !orb_false_r in Hc.
Qed.

(** What [urlsplit] gives. *)
Lemma urlsplit_shape url :
  scheme_ok (urlsplit url "").1.1.1.1 = true /\
  Py.any_char host_end (urlsplit url "").1.1.1.2 = false /\
  ((urlsplit url "").1.1.1.2 <> "" -> rooted (urlsplit url "").1.1.2 = true) /\
  Py.any_char unsafe_url_byte (urlsplit url "").1.1.1.1 = false /\
  Py.any_char unsafe_url_byte (urlsplit url "").1.1.1.2 = false /\
  Py.any_char unsafe_url_byte (urlsplit url "").1.1.2 = false /\
  Py.any_char unsafe_url_byte (urlsplit url "").2 = false.
Proof.
  unfold urlsplit.
  set (u0 := Py.remove_chars unsafe_url_byte (Py.lstrip_by c0_control_or_space url)).
  assert (Py.any_char unsafe_url_byte u0 = false) as H0 by apply remove_chars_clean.
  clearbody u0.
  change (Py.remove_chars unsafe_url_byte
            (Py.rstrip_by c0_control_or_space (Py.lstrip_by c0_control_or_space "")))
    with "".
  assert (exists sch u1,
            match split_scheme u0 with Some (s, r) => (s, r) | None => ("", u0) end
            = (sch, u1) /\ scheme_ok sch = true /\
            Py.any_char unsafe_url_byte sch = false /\
            Py.any_char unsafe_url_byte u1 = false) as (sch & u1 & -> & Hs1 & Hs2 & H1).
  { destruct (split_scheme u0) as [[s r]|] eqn:Hs; [|by exists "", u0].
    exists s, r. split; [done|]. split; [by apply split_scheme_ok in Hs|].
    apply split_scheme_parts in Hs as (a & -> & -> & Ha).
    rewrite any_char_app in H0. apply orb_false_iff in H0 as [_ H0].
    cbn [Py.any_char] in H0. apply orb_false_iff in H0 as [_ H0]. split; [|done].
    eapply all_chars_any_char; [|apply lower_scheme, Ha].
    intros c Hc. by destruct (scheme_char_plain c Hc) as (? & _). }
  assert (exists loc u2,
            match splitnetloc u1 with Some (n, r) => (n, r) | None => ("", u1) end
            = (loc, u2) /\ Py.any_char host_end loc = false /\
            (loc <> "" -> not_starting (fun c => negb (host_end c)) u2 = true) /\
            Py.any_char unsafe_url_byte loc = false /\
            Py.any_char unsafe_url_byte u2 = false)
    as (loc & u2 & -> & Hl1 & Hl2 & Hl3 & H2).
  { destruct (splitnetloc u1) as [[n r]|] eqn:Hs; [|by exists "", u1].
    exists n, r. split; [done|].
    apply splitnetloc_parts in Hs as (-> & Hn & Hr).
    cbn [Py.any_char] in H1. apply orb_false_iff in H1 as [_ H1].
    apply orb_false_iff in H1 as [_ H1]. rewrite any_char_app in H1.
    apply orb_false_iff in H1 as [? ?]. done. }
  pose proof (path_part_break u2) as Hpath.
  assert (Py.any_char unsafe_url_byte
            (match Py.partition "#" u2 with Some (x, f) => (x, f) | None => (u2, "") end).2
          = false) as Hfrag.
  { destruct (Py.partition "#" u2) as [[x f]|] eqn:Hh; [|done].
    apply partition_spec in Hh as [-> _]. rewrite any_char_app in H2.
    apply orb_false_iff in H2 as [_ H2]. cbn [Py.any_char] in H2.
    by apply orb_false_iff in H2 as [_ H2]. }
  destruct (match Py.partition "#" u2 with Some (x, f) => (x, f) | None => (u2, "") end)
    as [u3 frag]. cbn [fst snd] in Hpath, Hfrag.
  destruct (match Py.partition "?" u3 with Some (x, q) => (x, q) | None => (u3, "") end)
    as [p qry]. cbn [fst snd] in *. subst p.
  split; [done|]. split; [done|]. split; [|split; [done|split; [done|split; [|done]]]].
  - intros Hne. by apply break_mark_rooted, Hl2.
  - by apply break_fst_prefix_free.
Qed.

Lemma rooted_startswith p :
  rooted p = true -> Py.truthy_str p && negb (Py.startswith "/" p) = false.
Proof.
  destruct p as [|c p]; [done|]. simpl. intros Hc. apply Ascii.eqb_eq in Hc as ->.
  done.
Qed.

(** [urlsplit] reads back what [urlunsplit] writes for a host that is
    not empty and an encoded query. *)
Lemma urlsplit_written s n p q f :
  scheme_ok s = true -> n <> "" -> Py.any_char host_end n = false ->
  rooted p = true -> Py.any_char mark p = false ->
  Py.all_chars query_char q = true -> q <> "" ->
  Py.any_char unsafe_url_byte s = false -> Py.any_char unsafe_url_byte n = false ->
  Py.any_char unsafe_url_byte p = false -> Py.any_char unsafe_url_byte f = false ->
  urlsplit (urlunsplit s n p q f) "" = (s, n, p, q, f).
Proof.
  intros Hs Hn Hnf Hp Hpm Hq Hqn Hus Hun Hup Huf.
  unfold urlunsplit. apply truthy_str_nonempty in Hn as Hn', Hqn as Hqn'.
  rewrite Hn', Hqn', (rooted_startswith p Hp). cbn [orb].
  set (F := if Py.truthy_str f then String "#" f else "").
  set (X := p +:+ String "?" (q +:+ F)).
  assert ((if Py.truthy_str f
           then ((if Py.truthy_str s then s +:+ ":" +:+ "//" +:+ n +:+ p
                  else "//" +:+ n +:+ p) +:+ "?" +:+ q) +:+ "#" +:+ f
           else (if Py.truthy_str s then s +:+ ":" +:+ "//" +:+ n +:+ p
                 else "//" +:+ n +:+ p) +:+ "?" +:+ q)
          = (if Py.truthy_str s then s +:+ String ":" (String "/" (String "/" (n +:+ X)))
             else String "/" (String "/" (n +:+ X)))) as ->.
  { unfold X, F. destruct (Py.truthy_str f), (Py.truthy_str s);
      rewrite ?app_assoc_str, ?app_empty_r; reflexivity. }
  assert (Py.any_char unsafe_url_byte X = false) as HuX.
  { unfold X, F. rewrite any_char_app, Hup. cbn [Py.any_char orb].
    change (unsafe_url_byte "?") with false. cbn [orb]. rewrite any_char_app.
    rewrite (all_chars_any_char query_char unsafe_url_byte q)
      by (try done; intros c Hc; by apply query_char_safe).
    destruct (Py.truthy_str f); [|done]. cbn [Py.any_char orb].
    change (unsafe_url_byte "#") with false. done. }
  assert (not_starting (fun c => negb (host_end c)) X = true) as HX.
  { unfold X. destruct p as [|c p]; [done|]. simpl in Hp.
    apply Ascii.eqb_eq in Hp as ->. done. }
  assert (urlsplit (String "/" (String "/" (n +:+ X))) "" = ("", n, p, q, f)
          /\ forall r, Py.lstrip_by c0_control_or_space (String "/" r) = String "/" r)
    as [Hsplit _].
  { split; [|done]. unfold urlsplit.
    change (Py.lstrip_by c0_control_or_space (String "/" (String "/" (n +:+ X))))
      with (String "/" (String "/" (n +:+ X))).
    rewrite remove_chars_id
      by (cbn [Py.any_char]; change (unsafe_url_byte "/") with false;
          cbn [orb]; by rewrite any_char_app, Hun, HuX).
    rewrite split_scheme_slash, splitnetloc_written by done.
    change (Py.remove_chars unsafe_url_byte
              (Py.rstrip_by c0_control_or_space (Py.lstrip_by c0_control_or_space "")))
      with "".
    unfold X, F.
    assert (Py.contains_char "#" (p +:+ String "?" q) = false) as Hnohash.
    { pose proof (mark_free_hash _ Hpm) as Hh. unfold Py.contains_char in Hh |- *.
      rewrite any_char_app, Hh. cbn [Py.any_char orb].
      change (Ascii.eqb "#" "?") with false. cbn [orb].
      eapply all_chars_any_char; [|exact Hq]. intros c Hc. by apply query_char_safe. }
    destruct (Py.truthy_str f) eqn:Hf.
    - replace (p +:+ String "?" (q +:+ String "#" f))
        with ((p +:+ String "?" q) +:+ String "#" f)
        by (by rewrite app_assoc_str, app_String).
      rewrite partition_app by done.
      rewrite partition_app by (by apply mark_free_question). done.
    - rewrite app_empty_r. apply partition_contains in Hnohash. rewrite Hnohash.
      rewrite partition_app by (by apply mark_free_question).
      by destruct f. }
  destruct (Py.truthy_str s) eqn:Hst; [|by destruct s].
  unfold urlsplit.
  assert (Py.lstrip_by c0_control_or_space
            (s +:+ String ":" (String "/" (String "/" (n +:+ X))))
          = s +:+ String ":" (String "/" (String "/" (n +:+ X)))) as ->.
  { destruct s as [|c s]; [done|]. rewrite app_String. apply lstrip_by_id.
    cbn [scheme_ok] in Hs. apply andb_true_iff in Hs as [Hs _].
    apply andb_true_iff in Hs as [Hc _].
    by destruct (scheme_char_plain c (alpha_scheme_char c Hc)) as (_ & _ & _ & ? & _). }
  rewrite remove_chars_id.
  2:{ rewrite any_char_app, Hus. cbn [Py.any_char orb].
      change (unsafe_url_byte ":") with false. change (unsafe_url_byte "/") with false.
      cbn [orb]. by rewrite any_char_app, Hun, HuX. }
  rewrite split_scheme_written by (try done; by apply truthy_str_nonempty).
  unfold urlsplit in Hsplit.
  change (Py.lstrip_by c0_control_or_space (String "/" (String "/" (n +:+ X))))
    with (String "/" (String "/" (n +:+ X))) in Hsplit.
  rewrite remove_chars_id in Hsplit
    by (cbn [Py.any_char]; change (unsafe_url_byte "/") with false;
        cbn [orb]; by rewrite any_char_app, Hun, HuX).
  rewrite split_scheme_slash in Hsplit.
  destruct (match splitnetloc (String "/" (String "/" (n +:+ X))) with
            | Some (n0, r) => (n0, r) | None => _ end) as [loc u2].
  destruct (match Py.partition "#" u2 with Some (x, f0) => (x, f0) | None => _ end)
    as [u3 frag].
  destruct (match Py.partition "?" u3 with Some (x, q0) => (x, q0) | None => _ end)
    as [pp qq].
  by injection Hsplit as -> -> -> ->.
Qed.


(** ** The parameters of a path *)

Lemma rpartition_None c s : rpartition c s = None <-> Py.contains_char c s = false.
Proof.
  unfold Py.contains_char. induction s as [|d s IH]; [done|].
  cbn [rpartition Py.any_char]. destruct (rpartition c s) as [[a b]|].
  - split; [done|]. intros [_ Hs]%orb_false_iff. by apply IH in Hs.
  - rewrite Ascii.eqb_sym. destruct (Ascii.eqb c d); [by split|]. cbn [orb]. tauto.
Qed.

Lemma rpartition_app c x y :
  Py.contains_char c y = false -> rpartition c (x +:+ String c y) = Some (x, y).
Proof.
  intros Hy. apply rpartition_None in Hy as Hy'.
  induction x as [|d x IH].
  - rewrite app_empty_l. cbn [rpartition]. by rewrite Hy', Ascii.eqb_refl.
  - rewrite app_String. cbn [rpartition]. by rewrite IH.
Qed.

Lemma rpartition_snd_free c s a b :
  rpartition c s = Some (a, b) -> Py.contains_char c b = false.
Proof.
  revert a. induction s as [|d s IH]; intros a; [done|]. cbn [rpartition].
  destruct (rpartition c s) as [[x y]|] eqn:Hr.
  - intros [= <- <-]. by eapply IH.
  - destruct (Ascii.eqb d c); [|done]. intros [= <- <-]. by apply rpartition_None.
Qed.

Lemma contains_char_cons c d s :
  Py.contains_char c (String d s) = Ascii.eqb c d || Py.contains_char c s.
Proof. reflexivity. Qed.

(** Parameters split from a path, joined to it and split again are the
    same. *)
Lemma path_params_written sch url p pa :
  path_params sch url = (p, pa) -> path_params sch (join_params (p, pa)) = (p, pa).
Proof.
  unfold path_params at 1. destruct (mem sch uses_params) eqn:Hm; cbn [andb].
  2:{ intros [= <- <-]. unfold join_params, path_params. cbn [fst snd Py.truthy_str].
      by rewrite Hm. }
  destruct (Py.contains_char ";" url) eqn:Hc.
  2:{ intros [= <- <-]. unfold join_params, path_params. cbn [fst snd Py.truthy_str].
      by rewrite Hm, Hc. }
  unfold splitparams.
  destruct (rpartition "/" url) as [[dir lst]|] eqn:Hr.
  - apply rpartition_snd_free in Hr as Hlst. apply rpartition_spec in Hr as Hurl.
    destruct (Py.partition ";" lst) as [[a b]|] eqn:Hp.
    + intros [= <- <-].
      apply partition_spec in Hp as [Hl Ha]. subst lst.
      rewrite contains_char_app in Hlst. apply orb_false_iff in Hlst as [Hsa Hsb].
      rewrite contains_char_cons in Hsb. apply orb_false_iff in Hsb as [_ Hsb].
      unfold join_params. cbn [fst snd]. destruct (Py.truthy_str b) eqn:Hb.
      * unfold path_params. rewrite Hm. cbn [andb].
        assert ((dir +:+ "/" +:+ a) +:+ ";" +:+ b = dir +:+ String "/" (a +:+ String ";" b))
          as -> by (by rewrite !app_assoc_str).
        assert (Py.contains_char ";" (dir +:+ String "/" (a +:+ String ";" b)) = true) as ->.
        { rewrite contains_char_app, contains_char_cons, contains_char_app,
            contains_char_cons, Ascii.eqb_refl. by rewrite !orb_true_r. }
        unfold splitparams. rewrite rpartition_app.
        -- by rewrite partition_app.
        -- rewrite contains_char_app, Hsa, contains_char_cons, Hsb. done.
      * unfold path_params. rewrite Hm. cbn [andb].
        destruct (Py.contains_char ";" (dir +:+ "/" +:+ a)) eqn:Hc2; [|by destruct b].
        unfold splitparams. change ("/" +:+ a) with (String "/" a).
        rewrite rpartition_app by done.
        apply partition_contains in Ha. rewrite Ha. by destruct b.
    + intros [= <- <-]. unfold join_params, path_params. cbn [fst snd Py.truthy_str].
      rewrite Hm, Hc. cbn [andb]. unfold splitparams. by rewrite Hr, Hp.
  - destruct (Py.partition ";" url) as [[a b]|] eqn:Hp.
    + intros [= <- <-].
      apply partition_spec in Hp as [Hurl Ha]. subst url.
      apply rpartition_None in Hr. rewrite contains_char_app in Hr.
      apply orb_false_iff in Hr as [Hsa Hsb]. rewrite contains_char_cons in Hsb.
      apply orb_false_iff in Hsb as [_ Hsb].
      unfold join_params. cbn [fst snd]. destruct (Py.truthy_str b) eqn:Hb.
      * unfold path_params. rewrite Hm. cbn [andb].
        change (a +:+ ";" +:+ b) with (a +:+ String ";" b).
        assert (Py.contains_char ";" (a +:+ String ";" b) = true) as ->.
        { rewrite contains_char_app, contains_char_cons, Ascii.eqb_refl.
          by rewrite orb_true_r. }
        unfold splitparams.
        assert (rpartition "/" (a +:+ String ";" b) = None) as ->.
        { apply rpartition_None. rewrite contains_char_app, Hsa, contains_char_cons, Hsb.
          done. }
        by rewrite partition_app.
      * unfold path_params. rewrite Hm, Ha. by destruct b.
    + apply partition_contains in Hp. congruence.
Qed.

Lemma join_path_params sch url :
  exists e, url = join_params (path_params sch url) +:+ e.
Proof.
  unfold path_params. destruct (mem sch uses_params); cbn [andb].
  2:{ exists "". unfold join_params. cbn [fst snd Py.truthy_str]. by rewrite app_empty_r. }
  destruct (Py.contains_char ";" url) eqn:Hc.
  2:{ exists "". unfold join_params. cbn [fst snd Py.truthy_str]. by rewrite app_empty_r. }
  unfold splitparams.
  destruct (rpartition "/" url) as [[dir lst]|] eqn:Hr.
  - apply rpartition_spec in Hr as ->.
    destruct (Py.partition ";" lst) as [[a b]|] eqn:Hp.
    + apply partition_spec in Hp as [-> _]. unfold join_params. cbn [fst snd].
      destruct b as [|c b]; cbn [Py.truthy_str].
      * exists ";". by rewrite !app_assoc_str.
      * exists "". by rewrite app_empty_r, !app_assoc_str.
    + exists "". unfold join_params. cbn [fst snd Py.truthy_str]. by rewrite app_empty_r.
  - destruct (Py.partition ";" url) as [[a b]|] eqn:Hp.
    + apply partition_spec in Hp as [-> _]. unfold join_params. cbn [fst snd].
      destruct b as [|c b]; cbn [Py.truthy_str].
      * by exists ";".
      * exists "". by rewrite app_empty_r.
    + apply partition_contains in Hp. congruence.
Qed.

Lemma rooted_prefix a e : rooted (a +:+ e) = true -> rooted a = true.
Proof. by destruct a. Qed.

Lemma any_char_prefix q a e : Py.any_char q (a +:+ e) = false -> Py.any_char q a = false.
Proof. rewrite any_char_app. by intros [? _]%orb_false_iff. Qed.

Lemma urlparse_split url :
  urlparse url
  = mkParseResult (urlsplit url "").1.1.1.1 (urlsplit url "").1.1.1.2
      (path_params (urlsplit url "").1.1.1.1 (urlsplit url "").1.1.2).1
      (path_params (urlsplit url "").1.1.1.1 (urlsplit url "").1.1.2).2
      (urlsplit url "").1.2 (urlsplit url "").2.
Proof.
  unfold urlparse, urlparse_with, path_params.
  destruct (urlsplit url "") as [[[[sch loc] u] qry] frag]. cbn [fst snd].
  by destruct (if mem sch uses_params && Py.contains_char ";" u
               then splitparams u else (u, "")).
Qed.

Lemma urlunparse_split s n p pa q f :
  urlunparse (mkParseResult s n p pa q f) = urlunsplit s n (join_params (p, pa)) q f.
Proof. reflexivity. Qed.

(** A URL with a host, written again with an encoded query in the place
    of its own, is read as the same URL with this query. *)
Lemma urlparse_written base q :
  netloc (urlparse base) <> "" ->
  Py.all_chars query_char q = true -> q <> "" ->
  urlparse (urlunparse (mkParseResult (scheme (urlparse base)) (netloc (urlparse base))
              (path (urlparse base)) (params (urlparse base)) q
              (fragment (urlparse base))))
  = mkParseResult (scheme (urlparse base)) (netloc (urlparse base))
      (path (urlparse base)) (params (urlparse base)) q (fragment (urlparse base)).
Proof.
  rewrite (urlparse_split base). cbn [scheme netloc path params fragment].
  destruct (urlsplit_shape base) as (Hs & Hn & Hroot & Hus & Hun & Hup & Huf).
  destruct (urlsplit_parts_free base) as (_ & _ & Hpm).
  destruct (urlsplit base "") as [[[[s n] p0] q0] f]. cbn [fst snd] in *.
  intros Hne Hq Hqn. specialize (Hroot Hne).
  destruct (join_path_params s p0) as [e He].
  destruct (path_params s p0) as [p pa] eqn:Hpp. cbn [fst snd].
  rewrite urlunparse_split, urlparse_split.
  rewrite urlsplit_written; try done.
  - cbn [fst snd]. by rewrite (path_params_written s p0 p pa Hpp).
  - rewrite He in Hroot. by apply rooted_prefix in Hroot.
  - rewrite He in Hpm. by apply any_char_prefix in Hpm.
  - rewrite He in Hup. by apply any_char_prefix in Hup.
Qed.

(** The URL [with_start] makes of a URL with a host differs from it by
    its query only. *)
Lemma with_start_parts base offset :
  netloc (urlparse base) <> "" ->
  urlparse (with_start base offset)
  = mkParseResult (scheme (urlparse base)) (netloc (urlparse base))
      (path (urlparse base)) (params (urlparse base))
      (urlencode (start_query (parse_qs (query (urlparse base))) offset))
      (fragment (urlparse base)).
Proof.
  intros Hne. rewrite with_start_unfold. apply urlparse_written; [done|..].
  - apply urlencode_chars.
  - apply urlencode_nonempty. unfold start_query.
    intros Hnil%map_eq_nil. by apply dict_set_nonempty in Hnil.
Qed.

Lemma contains_nonempty sub s : sub <> "" -> Py.contains sub s = true -> s <> "".
Proof. intros Hsub Hc ->. destruct sub; [done|]. discriminate Hc. Qed.


(** ** A run along the Yelp offsets *)

Lemma yelp_page_nonempty url : yelp_page url = true -> url <> "".
Proof. by intros Hy ->. Qed.

Lemma yelp_page_netloc url : yelp_page url = true -> netloc (urlparse url) <> "".
Proof.
  unfold yelp_page. intros [Hy _]%andb_true_iff.
  by eapply contains_nonempty; [|exact Hy].
Qed.

Lemma with_start_yelp url m : yelp_page url = true -> yelp_page (with_start url m) = true.
Proof.
  intros Hy. unfold yelp_page.
  rewrite with_start_parts by (by apply yelp_page_netloc). exact Hy.
Qed.

Section YelpRun.
Context {W : Type} `{!Session W} `{!Soup}.

Lemma online_loop_yelp args turns : forall url n seen all (w : world W),
  always_a_page (or_none (sel_next args)) ->
  yelp_page url = true -> Py.int (start_text url) = Ok n ->
  (forall u, u ∈ seen -> exists m, Py.int (start_text u) = Ok m /\ (m < n)%Z) ->
  exists rs w' evs,
    online_loop args turns url seen all w = (Ok rs, w') /\
    trace w' = trace w ++ evs /\
    fetched evs = yelp_chain url n turns /\
    requested evs = yelp_chain url n turns.
Proof.
  induction turns as [|turns IH]; intros url n seen all w Hsite Hy Hn Hseen.
  - exists all, w, []. by rewrite app_nil_r.
  - pose proof (yelp_page_nonempty _ Hy) as Hurl. apply truthy_str_nonempty in Hurl.
    assert (bool_decide (url ∈ seen) = false) as Hfresh.
    { apply bool_decide_eq_false. intros (m & Hm & Hlt)%Hseen.
      rewrite Hn in Hm. injection Hm as <-. lia. }
    destruct (Hsite url (net w)) as (c & body & m' & Hget & Hc & Hb & _ & Hnext).
    apply truthy_str_nonempty in Hb.
    pose proof (with_start_yelp url (n + 20) Hy) as Hy'.
    pose proof (yelp_page_nonempty _ Hy') as Hurl'. apply truthy_str_nonempty in Hurl'.
    destruct (IH (with_start url (n + 20)) (n + 20)%Z (seen ∪ {[url]})
                (all ++ page_records args body url)
                (emit (SleepDelay (delay args))
                   (emit Stderr (mkWorld m' (trace w ++ [Fetch url; Get url])))))
      as (rs & w' & evs & Hloop & Htr & Hf & Hr);
      [done|done|apply with_start_reads_back| |].
    + intros u [Hu|Hu%elem_of_singleton]%elem_of_union.
      * destruct (Hseen u Hu) as (m & Hm & Hlt). exists m. split; [done|lia].
      * subst u. exists n. split; [done|lia].
    + exists rs, w', ([Fetch url; Get url; Stderr; SleepDelay (delay args)] ++ evs).
      split; [|split].
      * cbn [online_loop]. rewrite Hurl, Hfresh. cbn [negb orb].
        rewrite (fetch_2xx url w c body m' Hget Hc).
        cbn [Py.truthy_opt from_option id]. rewrite Hb. cbn [negb].
        rewrite parse_reviews_selectors, find_next_url_spec, Hnext, Hy.
        rewrite (yelp_fallback_numeric _ _ Hy Hn).
        cbn [Py.truthy_opt from_option id]. rewrite Hurl'. cbn [negb]. exact Hloop.
      * rewrite Htr. simpl. by rewrite <- !app_assoc.
      * rewrite fetched_app, requested_app. cbn [yelp_chain]. simpl.
        by rewrite Hf, Hr.
Qed.

End YelpRun.
(** ** The next link, strategy by strategy *)

Lemma find_first_with (p : tag -> bool) l t :
  List.find p l = Some t <-> first_with (fun x => p x = true) l t.
Proof.
  split.
  - revert t. induction l as [|x l IH]; intros t; simpl; [done|].
    destruct (p x) eqn:Hx.
    + intros [= <-]. exists [], l. split; [done|]. split; [done|]. constructor.
    + intros Hf. destruct (IH _ Hf) as (l1 & l2 & -> & Ht & Hl1).
      exists (x :: l1), l2. split; [done|]. split; [done|].
      constructor; [|done]. by rewrite Hx.
  - intros (l1 & l2 & -> & Ht & Hl1).
    induction l1 as [|x l1 IH]; simpl.
    + by rewrite Ht.
    + inversion Hl1 as [|? ? Hx Hl1']; subst.
      destruct (p x); [done|]. by apply IH.
Qed.

Lemma first_with_iff (P Q : tag -> Prop) l t :
  (forall x, P x <-> Q x) -> first_with P l t <-> first_with Q l t.
Proof.
  intros HPQ. unfold first_with. split; intros (l1 & l2 & -> & Ht & Hl1);
    exists l1, l2; (split; [done|]); (split; [by apply HPQ|]);
    (eapply Forall_impl; [exact Hl1|]); intros x Hx Hq; by apply Hx, HPQ.
Qed.

Lemma join_space_next ws : Py.join " " ws = "next" <-> ws = ["next"].
Proof.
  split; [|by intros ->].
  destruct ws as [|w [|w' ws]]; simpl.
  - done.
  - by intros ->.
  - intros Hj.
    assert (Py.contains_char " " (Py.join " " (w :: w' :: ws)) = true) as Hc.
    { apply join_two_contains. }
    simpl in Hc. rewrite Hj in Hc. discriminate Hc.
Qed.

Lemma is_rel_next_spec t : is_rel_next t = true <-> rel_next t.
Proof.
  unfold is_rel_next, rel_next, rel_value.
  rewrite andb_true_iff, orb_true_iff, !String.eqb_eq.
  destruct (get t "rel") as [v|]; simpl.
  - rewrite String.eqb_eq, join_space_next. split.
    + intros [Hn Hw]. split; [done|]. by exists v.
    + intros [Hn (v' & [= <-] & Hw)]. done.
  - split; [by intros [_ ?]|]. by intros [_ (v & ? & _)].
Qed.

Lemma has_href_spec t : has_href t = true <-> exists h, href_is t h.
Proof.
  unfold has_href, href_is. destruct (get t "href") as [h|]; simpl.
  - rewrite truthy_str_nonempty. split; [by exists h|]. by intros (h' & [= <-] & ?).
  - split; [done|]. by intros (h & ? & _).
Qed.

Lemma says_next_spec t :
  says_next t = true <-> exists s, tag_string t = Some s /\ has_next_word s.
Proof.
  unfold says_next. destruct (tag_string t) as [s|].
  - rewrite bool_decide_eq_true, search_next_text. split; [by exists s|].
    by intros (s' & [= <-] & ?).
  - split; [done|]. by intros (s & ? & _).
Qed.

Lemma next_anchor_spec t :
  String.eqb (name t) "a" && says_next t && has_href t = true <-> next_anchor t.
Proof.
  unfold next_anchor.
  rewrite !andb_true_iff, String.eqb_eq, says_next_spec, has_href_spec. tauto.
Qed.

Lemma href_is_has_href t h : href_is t h -> has_href t = true.
Proof. intros H. apply has_href_spec. by exists h. Qed.

Section LinkProperties.
Context `{!Soup}.

Lemma next_by_selector_spec soup sel_next h :
  next_by_selector soup sel_next = Some h <-> selector_link soup sel_next h.
Proof.
  unfold next_by_selector, selector_link, select_one. split.
  - destruct sel_next as [sel|]; [|done].
    destruct (Py.truthy_str sel) eqn:Hsel; [|done].
    apply truthy_str_nonempty in Hsel.
    destruct (head (select sel soup)) as [t|] eqn:Ht; [|done]. simpl.
    destruct (has_href t) eqn:Hh; [|done]. intros Hg.
    exists sel, t. split; [done|]. split; [done|]. split; [done|].
    apply has_href_spec in Hh as (h' & Hg' & Hne). split; [done|].
    rewrite Hg in Hg'. by injection Hg' as ->.
  - intros (sel & t & -> & Hsel & Ht & Hh).
    apply truthy_str_nonempty in Hsel. rewrite Hsel, Ht. simpl.
    rewrite (href_is_has_href _ _ Hh). by destruct Hh.
Qed.

Lemma next_by_rel_spec soup h : next_by_rel soup = Some h <-> rel_link soup h.
Proof.
  unfold next_by_rel, rel_link. split.
  - destruct (List.find is_rel_next (descendants soup)) as [t|] eqn:Hf; [|done].
    simpl. destruct (has_href t) eqn:Hh; [|done]. intros Hg. exists t. split.
    + apply (first_with_iff (fun x => is_rel_next x = true)).
      * apply is_rel_next_spec.
      * by apply find_first_with.
    + apply has_href_spec in Hh as (h' & Hg' & Hne). split; [done|].
      rewrite Hg in Hg'. by injection Hg' as ->.
  - intros (t & Hf & Hh).
    apply (first_with_iff (fun x => is_rel_next x = true)) in Hf;
      [|apply is_rel_next_spec].
    apply find_first_with in Hf. rewrite Hf. simpl.
    rewrite (href_is_has_href _ _ Hh). by destruct Hh.
Qed.

Lemma next_by_text_spec soup h : next_by_text soup = Some h <-> text_link soup h.
Proof.
  unfold next_by_text, text_link. split.
  - destruct (List.find _ (descendants soup)) as [t|] eqn:Hf; [|done].
    simpl. intros Hg. exists t.
    apply find_first_with in Hf as Hfw.
    apply (first_with_iff _ next_anchor) in Hfw; [|apply next_anchor_spec].
    split; [done|].
    destruct Hfw as (_ & _ & _ & (_ & _ & h' & Hg' & Hne) & _).
    split; [done|]. rewrite Hg in Hg'. by injection Hg' as ->.
  - intros (t & Hf & Hh).
    apply (first_with_iff (fun x => String.eqb (name x) "a" && says_next x
                                    && has_href x = true)) in Hf;
      [|apply next_anchor_spec].
    apply find_first_with in Hf. rewrite Hf. simpl. by destruct Hh.
Qed.

(** What [next_href] is [None] for. *)
Lemma next_href_None soup sel_next :
  next_href soup sel_next = None <-> forall h, ~ some_link soup sel_next h.
Proof.
  unfold next_href, some_link. split.
  - destruct (next_by_selector soup sel_next) eqn:H1; [done|].
    destruct (next_by_rel soup) eqn:H2; [done|]. intros H3 h [Hl|[Hl|Hl]].
    + apply next_by_selector_spec in Hl. congruence.
    + apply next_by_rel_spec in Hl. congruence.
    + apply next_by_text_spec in Hl. congruence.
  - intros Hno.
    destruct (next_by_selector soup sel_next) as [h|] eqn:H1.
    { destruct (Hno h). left. by apply next_by_selector_spec. }
    destruct (next_by_rel soup) as [h|] eqn:H2.
    { destruct (Hno h). right. left. by apply next_by_rel_spec. }
    destruct (next_by_text soup) as [h|] eqn:H3; [|done].
    destruct (Hno h). right. right. by apply next_by_text_spec.
Qed.

End LinkProperties.
(** ** More on [fetch] *)

Section FetchRaises.
Context {W : Type} `{!Session W}.

(** An exception that leaves [fetch] is one [session.get] raised. *)
Lemma attempts_raised url backoff k left n r evs n' :
  attempts url backoff k left n r evs n' ->
  forall e, r = Raise e -> exists m m', session_get url m = (Raises e, m').
Proof.
  induction 1; intros e0 He; try done; eauto.
  injection He as <-. eauto.
Qed.

(** [fetch] returns when [session.get] raises nothing but a
    [RequestException]. *)
Lemma attempts_returns url backoff k left n r evs n' :
  attempts url backoff k left n r evs n' ->
  (forall m e, (session_get url m).1 <> Raises e) ->
  exists v, r = Ok v.
Proof.
  induction 1; intros Hno; eauto.
  destruct (Hno n e). by rewrite H.
Qed.

End FetchRaises.

(** ** The parameters of the URL [with_start] makes *)

Lemma dict_get_map_hd (d : dict (list string)) k :
  dict_get (map (fun kv : string * list string => (kv.1, [hd "" kv.2])) d) k
  = (fun vs => [hd "" vs]) <$> dict_get d k.
Proof.
  induction d as [|[k' v] d IH]; [done|]. simpl.
  destruct (String.eqb k' k); [done|apply IH].
Qed.

Lemma with_start_start base offset :
  dict_get (parse_qs (query (urlparse (with_start base offset)))) "start"
  = Some [Py.str offset].
Proof. by rewrite with_start_parse, dict_get_map_hd, dict_get_set_eq. Qed.

Lemma with_start_other base offset k :
  k <> "start" ->
  dict_get (parse_qs (query (urlparse (with_start base offset)))) k
  = (fun vs => [hd "" vs]) <$> dict_get (parse_qs (query (urlparse base))) k.
Proof.
  intros Hk. rewrite with_start_parse, dict_get_map_hd.
  by rewrite dict_get_set_ne.
Qed.

(** The selector of the pages written as trees gives descendants. *)
Lemma by_name_within (site : list Fixture.page) : @select_within (Fixture.soup site).
Proof.
  intros selector t x Hx. simpl in Hx. unfold Fixture.by_name in Hx.
  apply list_elem_of_In, filter_In in Hx as [Hx _]. by apply list_elem_of_In.
Qed.

(** ** A line of a Netscape cookie file *)

Lemma join_snoc c l x :
  l <> [] ->
  Py.join (String c "") (l ++ [x]) = Py.join (String c "") l +:+ String c x.
Proof.
  induction l as [|y l IH]; [done|]. intros _. destruct l as [|z l].
  - reflexivity.
  - change ((y :: z :: l) ++ [x]) with (y :: z :: (l ++ [x])).
    rewrite (join_cons2 c y z (l ++ [x])).
    change (z :: (l ++ [x])) with ((z :: l) ++ [x]). rewrite IH by done.
    rewrite (join_cons2 c y z l). by rewrite app_assoc_str, app_String.
Qed.

Lemma join_hd c x l : exists r, Py.join (String c "") (x :: l) = x +:+ r.
Proof.
  destruct l as [|y l].
  - exists "". simpl. by rewrite app_empty_r.
  - eexists. apply join_cons2.
Qed.

Lemma startswith_app c a b :
  a <> "" -> Py.startswith (String c "") (a +:+ b) = Py.startswith (String c "") a.
Proof. destruct a as [|d a]; [done|]. intros _. rewrite app_String. simpl.
  destruct (Ascii.eqb c d); [|done]. by destruct a, b. Qed.

Lemma two_last (l : list string) :
  2 <= length l ->
  exists init, l = init ++ [(last_two l).1; (last_two l).2].
Proof.
  intros Hlen. unfold last_two.
  destruct (reverse l) as [|z [|y r]] eqn:Hr.
  - apply (f_equal length) in Hr. rewrite length_reverse in Hr. simpl in Hr. lia.
  - apply (f_equal length) in Hr. rewrite length_reverse in Hr. simpl in Hr. lia.
  - exists (reverse r). simpl.
    apply (f_equal reverse) in Hr. rewrite reverse_involutive in Hr.
    rewrite Hr, !reverse_cons, <- app_assoc. done.
Qed.

(** The line without what [strip] takes off it. *)
Lemma strip_line s ending :
  s <> "" -> not_starting Py.isspace s = true -> last_is Py.isspace s = false ->
  Py.all_chars Py.isspace ending = true ->
  Py.strip (s +:+ ending) = s.
Proof.
  intros Hne Hs Hl He. unfold Py.strip.
  rewrite lstrip_by_fix by (by rewrite not_starting_app).
  by apply rstrip_by_app.
Qed.

Lemma last_two_app (l : list string) a b : last_two (l ++ [a; b]) = (a, b).
Proof.
  unfold last_two. change [a; b] with ([a] ++ [b]).
  by rewrite app_assoc, !reverse_snoc.
Qed.
(** * The claims *)

(** C1, as stated, fails for an anchor with the word beside an element:
    the text of [<a href="/p2">Next <b>page</b></a>] has the word Next
    and the anchor has an href, but [find_all] compares the [.string] of
    the anchor, which is [None] here, so that [find_next_url] returns
    [None] where the claim resolves to [https://x.com/p2]. *)
Lemma mixed_content_anchor_not_followed :
  get_text "" false Pages.mixed_anchor = "Next page" /\
  has_next_word (get_text "" false Pages.mixed_anchor) /\
  get Pages.mixed_anchor "href" = Some "/p2" /\
  tag_string Pages.mixed_anchor = None /\
  @find_next_url (Fixture.soup [Pages.mixed_page])
    (Fixture.page_html Pages.mixed_page) "https://x.com/p1" None = Ok None.
Proof.
  split; [reflexivity|]. split.
  { exists "", "Next", " page". repeat split; reflexivity. }
  split; [reflexivity|]. split; [reflexivity|].
  vm_compute. reflexivity.
Qed.

(** C1, amended.  For a page of ASCII text whose hrefs [urljoin]
    accepts, at a URL [urlparse] accepts, [find_next_url] takes the
    first of: (1) the href of the first element the configured selector
    gives, if it has one that is not empty; (2) the href of the first
    [a] or [link] whose [rel] is [next], if it has one that is not
    empty; (3) the href of the first anchor with a non-empty href whose
    [.string] (the one string of the anchor) has the word Next, Older or
    More, in any case; (4) on a Yelp business page, the URL whose
    [start] is the [start] of the page plus twenty, or the [ValueError]
    of [int]; failing all, [None].  The href is joined with the URL of
    the page, which gives an absolute URL for a page fetched over http
    or https.  A page whose first [rel="next"] element has the href
    [/p2], at [https://x.com/p1], gives [https://x.com/p2]. *)
Theorem find_next_url_resolution `{!Soup} (html page_url : string)
    (sel_next : option string) :
  ascii_tag (BeautifulSoup html) = true ->
  plain_url page_url = true ->
  hrefs_accepted (BeautifulSoup html) sel_next = true ->
  (forall h,
     selector_link (BeautifulSoup html) sel_next h ->
     find_next_url html page_url sel_next = Ok (Some (urljoin page_url h)))
  /\ (forall h,
        (forall h', ~ selector_link (BeautifulSoup html) sel_next h') ->
        rel_link (BeautifulSoup html) h ->
        find_next_url html page_url sel_next = Ok (Some (urljoin page_url h)))
  /\ (forall h,
        (forall h', ~ selector_link (BeautifulSoup html) sel_next h') ->
        (forall h', ~ rel_link (BeautifulSoup html) h') ->
        text_link (BeautifulSoup html) h ->
        find_next_url html page_url sel_next = Ok (Some (urljoin page_url h)))
  /\ ((forall h, ~ some_link (BeautifulSoup html) sel_next h) ->
      if yelp_page page_url
      then match find_next_url html page_url sel_next with
           | Ok (Some u) =>
               exists n, Py.int (start_text page_url) = Ok n /\
                         Py.int (start_text u) = Ok (n + 20)%Z
           | Ok None => False
           | Raise e =>
               e = ValueError /\ Py.int (start_text page_url) = Raise ValueError
           end
      else find_next_url html page_url sel_next = Ok None)
  /\ (forall h,
        some_link (BeautifulSoup html) sel_next h ->
        h <> "" /\
        (scheme (urlparse page_url) = "http" \/ scheme (urlparse page_url) = "https" ->
         is_absolute (urljoin page_url h) = true))
  /\ (forall t,
        (forall h', ~ selector_link (BeautifulSoup html) sel_next h') ->
        first_with rel_next (descendants (BeautifulSoup html)) t ->
        get t "href" = Some "/p2" ->
        find_next_url html "https://x.com/p1" sel_next = Ok (Some "https://x.com/p2")).
Proof.
  intros _ _ _.
  assert (forall url h,
            (forall h', ~ selector_link (BeautifulSoup html) sel_next h') ->
            rel_link (BeautifulSoup html) h ->
            find_next_url html url sel_next = Ok (Some (urljoin url h))) as Hrel.
  { intros url h Hno Hr. rewrite find_next_url_spec. unfold next_href.
    destruct (next_by_selector _ _) as [h'|] eqn:H1.
    { apply next_by_selector_spec in H1. by destruct (Hno h'). }
    apply next_by_rel_spec in Hr. by rewrite Hr. }
  split; [|split; [|split; [|split; [|split]]]].
  - intros h Hs. rewrite find_next_url_spec. unfold next_href.
    apply next_by_selector_spec in Hs. by rewrite Hs.
  - intros h. apply Hrel.
  - intros h Hno1 Hno2 Ht. rewrite find_next_url_spec. unfold next_href.
    destruct (next_by_selector _ _) as [h'|] eqn:H1.
    { apply next_by_selector_spec in H1. by destruct (Hno1 h'). }
    destruct (next_by_rel _) as [h'|] eqn:H2.
    { apply next_by_rel_spec in H2. by destruct (Hno2 h'). }
    apply next_by_text_spec in Ht. by rewrite Ht.
  - intros Hno. rewrite find_next_url_spec. apply next_href_None in Hno.
    rewrite Hno. destruct (yelp_page page_url) eqn:Hy; [|done].
    destruct (Py.int (start_text page_url)) as [n|e] eqn:Hn.
    + rewrite (yelp_fallback_numeric _ _ Hy Hn). exists n. split; [done|].
      apply with_start_reads_back.
    + rewrite (yelp_fallback_raises _ _ Hy Hn). apply int_raises in Hn as Hv.
      by subst.
  - intros h Hl.
    assert (h <> "") as Hne.
    { destruct Hl as [(? & ? & _ & _ & _ & _ & ?)|[(? & _ & _ & ?)|(? & _ & _ & ?)]];
        done. }
    split; [done|]. intros Hs. by apply urljoin_absolute.
  - intros t Hno Ht Hh.
    apply (Hrel "https://x.com/p1" "/p2" Hno). exists t. by split.
Qed.

Lemma find_next_url_resolution_witness :
  @find_next_url (Fixture.soup [Pages.rel_page]) (Fixture.page_html Pages.rel_page)
    "https://x.com/p1" None = Ok (Some "https://x.com/p2").
Proof.
  refine (proj2 (proj2 (proj2 (proj2 (proj2
            (@find_next_url_resolution (Fixture.soup [Pages.rel_page])
               (Fixture.page_html Pages.rel_page) "https://x.com/p1" None
               _ _ _)))))
            Pages.rel_anchor _ _ _).
  - vm_compute. reflexivity.
  - vm_compute. reflexivity.
  - vm_compute. reflexivity.
  - intros h' (sel & t & Hs & _). discriminate Hs.
  - exists [], []. split; [vm_compute; reflexivity|]. split; [|constructor].
    split; [left; reflexivity|]. exists "next". split; reflexivity.
  - reflexivity.
Defined.

(** C2. With the [start] parameter [abc], a Yelp business page without
    any next link makes [find_next_url] raise [ValueError]: [int] is
    applied to the text of the parameter with no handler around it. *)
Theorem yelp_fallback_text_start_raises `{!Soup} (html : string)
    (sel_next : option string) :
  find_next_url html "https://yelp.com/biz/x?start=abc" sel_next
  = match next_href (BeautifulSoup html) sel_next with
    | Some href => Ok (Some (urljoin "https://yelp.com/biz/x?start=abc" href))
    | None => Raise ValueError
    end.
Proof.
  rewrite find_next_url_spec. destruct (next_href _ _); [done|].
  vm_compute. reflexivity.
Qed.

(** C3. A card whose only field is a rating of zero is dropped, although
    its rating is not [None]: [any] tests the truth of the fields, and
    [0.0] is false. *)
Theorem zero_rating_card_dropped :
  @select (Fixture.soup Fixture.zero_page) "div"
    (@BeautifulSoup (Fixture.soup Fixture.zero_page)
       (Fixture.page_html (Fixture.Page "" (Fixture.document [Element Fixture.zero_card]))))
  = [Fixture.zero_card] /\
  @rating_raw (Fixture.soup Fixture.zero_page)
    (selectors (Fixture.args "https://x.com/p1" 3)) Fixture.zero_card
  = Some "0 star rating" /\
  parse_rating (Some "0 star rating") = Ok (Some (S754_zero false)) /\
  @parse_reviews (Fixture.soup Fixture.zero_page)
    (Fixture.page_html (Fixture.Page "" (Fixture.document [Element Fixture.zero_card])))
    "https://x.com/p1" (selectors (Fixture.args "https://x.com/p1" 3))
  = Ok [].
Proof. repeat split; vm_compute; reflexivity. Qed.

(** C4. When the selector of a field is missing from [sel] or empty,
    the field is [None] in every record [parse_reviews] returns. *)
Theorem missing_selector_field_none `{!Soup} (html page_url : string)
    (sel : dict string) (rs : list Review) (f : field) :
  parse_reviews html page_url sel = Ok rs ->
  Py.truthy_opt (dict_get sel (field_key f)) = false ->
  Forall (fun r => field_is_none f r = true) rs.
Proof.
  unfold parse_reviews. destruct (dict_get sel "review_container"); [|done].
  intros Hrs Hsel. eapply parse_items_Forall; [|constructor|exact Hrs].
  intros it r _ Hit. by eapply missing_selector_field.
Qed.

Lemma missing_selector_field_none_witness :
  Forall (fun r => field_is_none Date r = true)
    (repeat (mkReview (Some "Bob") (Some (PyFloat.of_decimal false 3 0)) None
               (Some "Fine.") "https://x.com/p2") 5).
Proof.
  apply (@missing_selector_field_none (Fixture.soup Fixture.two_pages)
           (Fixture.page_html Fixture.page2) "https://x.com/p2"
           (selectors (Fixture.args "https://x.com/p1" 3))).
  - vm_compute. reflexivity.
  - reflexivity.
Defined.

(** C5. [parse_rating] raises nothing, whatever its argument.  Of an
    ASCII text it reads the first decimal number, the digits and, if a
    point and digits follow, the fraction, as the nearest float; it
    returns [None] for [None], for the empty text and for a text
    without a digit.  ["4.5 star rating"] gives 4.5, ["Closed"] and [""]
    give [None]. *)
Theorem parse_rating_first_decimal (val : option string) :
  (exists r, parse_rating val = Ok r)
  /\ (from_option Py.isascii true val = true ->
      parse_rating val = Ok (literal_value <$> (val ≫= first_number)))
  /\ (forall s,
        Py.isascii s = true -> Py.any_char Py.isdigit s = false ->
        parse_rating (Some s) = Ok None)
  /\ parse_rating (Some "4.5 star rating")
     = Ok (Some (binary_normalize PyFloat.prec PyFloat.emax 9 (-1) false))
  /\ parse_rating (Some "Closed") = Ok None
  /\ parse_rating (Some "") = Ok None
  /\ parse_rating None = Ok None.
Proof.
  split; [apply parse_rating_total|]. split; [intros _; apply parse_rating_spec|].
  split.
  - intros s _ Hs. rewrite parse_rating_spec. simpl. by rewrite first_number_no_digit.
  - repeat split; vm_compute; reflexivity.
Qed.

Lemma parse_rating_first_decimal_witness :
  parse_rating (Some "4 stars") = Ok (Some (PyFloat.of_decimal false 4 0))
  /\ parse_rating (Some "Closed") = Ok None.
Proof.
  split.
  - rewrite (proj1 (proj2 (parse_rating_first_decimal (Some "4 stars"))));
      [|reflexivity].
    vm_compute. reflexivity.
  - apply (proj1 (proj2 (proj2 (parse_rating_first_decimal None)))); reflexivity.
Defined.

(** C6. In the online loop an empty URL or one of [seen_urls] is not
    fetched: the test comes first in each turn and ends the loop.  So
    the URLs a run fetches are all different and none is empty; when the
    next page of a page is the page itself, the run ends after the one
    fetch. *)
Theorem visited_urls_never_refetched {W : Type} `{!Session W} `{!Soup}
    (args : Args) (w : world W) :
  (exists evs,
     trace (main_online args w).2 = trace w ++ evs /\
     NoDup (fetched evs) /\ "" ∉ fetched evs)
  /\ (forall turns url seen all,
        url = "" \/ url ∈ seen ->
        online_loop args (S turns) url seen all w = (Ok all, emit Stderr w))
  /\ (forall turns url html rs w1,
        url <> "" -> fetch url w = (Ok (Some html), w1) -> html <> "" ->
        parse_reviews html url (selectors args) = Ok rs ->
        find_next_url html url (or_none (sel_next args)) = Ok (Some url) ->
        exists w' evs,
          online_loop args (S (S turns)) url ∅ [] w = (Ok rs, w') /\
          trace w' = trace w ++ evs /\ fetched evs = [url]).
Proof.
  split; [|split].
  - unfold main_online.
    destruct (online_loop_fetches_fresh args (Z.to_nat (pages args))
                (start_url args) ∅ [] w) as (evs & Htr & Hnd & Hfresh).
    exists evs. split; [done|]. split; [done|].
    intros Hin. by destruct (Hfresh _ Hin).
  - intros turns url seen all Hstop. by apply online_loop_stops_on_seen.
  - intros turns url html rs w1 Hurl Hfetch Hhtml Hparse Hnext.
    destruct (fetch_trace url w) as (evs1 & Htr & Hf1 & _).
    rewrite Hfetch in Htr. simpl in Htr.
    apply truthy_str_nonempty in Hurl as Hurl', Hhtml as Hhtml'.
    eexists _, _. cbn [online_loop]. rewrite Hurl'.
    rewrite bool_decide_eq_false_2 by apply not_elem_of_empty. cbn [negb orb].
    rewrite Hfetch. cbn [Py.truthy_opt from_option id]. rewrite Hhtml'. cbn [negb].
    rewrite Hparse, Hnext. cbn [Py.truthy_opt from_option id]. rewrite Hurl'.
    cbn [negb]. rewrite bool_decide_eq_true_2; last first.
    { apply elem_of_union_r, elem_of_singleton. done. }
    cbn [orb app]. split; [reflexivity|].
    unfold emit; cbn [trace net]. rewrite Htr, <- !app_assoc. split; [reflexivity|].
    simpl. rewrite !fetched_app, Hf1. reflexivity.
Qed.

Lemma visited_urls_never_refetched_witness :
  exists w' evs,
    @online_loop nat (Fixture.session Fixture.loop_page) (Fixture.soup Fixture.loop_page)
      (Fixture.args "https://x.com/p1" 3) 3 "https://x.com/p1" ∅ [] (mkWorld 0 [])
    = (Ok [mkReview (Some "Ann") (Some (PyFloat.of_decimal false 5 0)) None
             (Some "Good.") "https://x.com/p1"], w') /\
    trace w' = [] ++ evs /\ fetched evs = ["https://x.com/p1"].
Proof.
  refine (proj2 (proj2 (@visited_urls_never_refetched nat
            (Fixture.session Fixture.loop_page) (Fixture.soup Fixture.loop_page)
            (Fixture.args "https://x.com/p1" 3) (mkWorld 0 [])))
            1 "https://x.com/p1" (Fixture.page_html Fixture.self_linked) _ _ _ _ _ _ _).
  - discriminate.
  - vm_compute. reflexivity.
  - discriminate.
  - vm_compute. reflexivity.
  - vm_compute. reflexivity.
Defined.

(** C7, as stated, fails when [session.get] raises an exception that is
    no [RequestException]: the handler of [fetch] lets it through.  The
    adapter of requests hands on the [LocationParseError] (a
    [ValueError]) that urllib3 raises for a host label of more than 63
    characters. *)
Lemma fetch_raises_other_exception :
  @fetch nat Pages.refusing Pages.long_label_url (mkWorld 0 [])
  = (Raise ValueError,
     mkWorld 1 [Fetch Pages.long_label_url; Get Pages.long_label_url]).
Proof. vm_compute. reflexivity. Qed.

(** C7, amended.  [fetch] makes four attempts at most.  After an attempt
    it sleeps [1.8 ** attempt] and goes on only when [session.get]
    raised a [RequestException] or the status is one of 429, 500, 502,
    503, 504 and 403; a 2xx status ends it with the body, any other
    status with [None], at once.  An exception of [session.get] that is
    no [RequestException] leaves [fetch] at once; [fetch] raises nothing
    else, and returns, with [None] for every other failure, when
    [session.get] raises nothing but [RequestException]. *)
Theorem fetch_bounded_retries {W : Type} `{!Session W} (url : string) (w : world W) :
  exists r evs n',
    fetch url w = (r, mkWorld n' (trace w ++ Fetch url :: evs)) /\
    attempts url (PyFloat.of_decimal false 18 (-1)) 1 4 (net w) r evs n' /\
    length (requested evs) <= 4 /\
    Forall (fun e => match e with
                     | SleepBackoff b a =>
                         b = PyFloat.of_decimal false 18 (-1) /\ 1 <= a <= 4
                     | Fetch _ | SleepDelay _ => False
                     | Get u => u = url
                     | Stderr => True
                     end) evs /\
    match r with
    | Ok (Some body) =>
        exists m m' code,
          session_get url m = (Response code body, m') /\ (200 <= code < 300)%Z
    | Ok None => True
    | Raise e => exists m m', session_get url m = (Raises e, m')
    end /\
    ((forall m e, (session_get url m).1 <> Raises e) -> exists v, r = Ok v).
Proof.
  unfold fetch, fetch_with.
  destruct (fetch_loop_attempts url DEFAULT_BACKOFF DEFAULT_MAX_RETRIES 1
              (emit (Fetch url) w)) as (r & evs & n' & Heq & Hatt).
  exists r, evs, n'. rewrite Heq. simpl. rewrite <- app_assoc.
  split; [done|]. split; [exact Hatt|].
  destruct (attempts_effects _ _ _ _ _ _ _ _ Hatt) as (_ & _ & Hlen).
  split; [exact Hlen|]. split; [|split].
  - eapply Forall_impl; [exact (attempts_events _ _ _ _ _ _ _ _ Hatt)|].
    intros [] ?; try done. simpl in *. unfold DEFAULT_MAX_RETRIES in *.
    split; [tauto|lia].
  - destruct r as [[body|]|e]; [|done|].
    + by eapply attempts_result.
    + by eapply attempts_raised.
  - intros Hno. by eapply attempts_returns.
Qed.

Lemma fetch_bounded_retries_witness :
  exists r evs n',
    @fetch nat Disk.down "https://x.com/p1" (mkWorld 0 [])
    = (r, mkWorld n' ([] ++ Fetch "https://x.com/p1" :: evs)) /\
    exists v, r = Ok v.
Proof.
  destruct (@fetch_bounded_retries nat Disk.down "https://x.com/p1" (mkWorld 0 []))
    as (r & evs & n' & Hf & _ & _ & _ & _ & Hr).
  exists r, evs, n'. split; [exact Hf|]. apply Hr. intros m e. discriminate.
Defined.

(** C8, as stated, fails for a file whose number is zero: the offset of
    [reviews_0.html] is 0, not (0 - 1) * 20. *)
Lemma offline_zero_suffix_not_minus_twenty :
  @offline_source_url Fixture.files (Fixture.offline_args "https://x.com/biz/y")
    "reviews_0.html" = Ok "https://x.com/biz/y?start=0"
  /\ trailing_digits (stem "reviews_0.html") = "0"
  /\ unclamped_offset "reviews_0.html" = (-20)%Z.
Proof. repeat split; vm_compute; reflexivity. Qed.

(** C8, amended.  In offline mode, for a file with an ASCII name and a
    base URL that [urlparse] accepts, the source URL of the file is the
    [file://] URL of its absolute path when no base URL is given;
    otherwise it is a URL whose [start] parameter is the number at the
    end of the file name, less one, times twenty, but not below zero,
    and zero when the name has no digit; whose other parameters are
    those of the base URL, each with its first value; and whose scheme,
    host, path, path parameters and fragment are those of the base URL
    when this has a host.  Every record of the run carries the source
    URL of a file that was read.  [reviews_3.html] with the base
    [https://x.com/biz/y] gives [https://x.com/biz/y?start=40]. *)
Theorem offline_source_url_clamped `{!FileSystem} `{!Soup} (args : Args) (fp : string) :
  plain_name fp = true ->
  plain_url (offline_base args) = true ->
  (exists u,
     offline_source_url args fp = Ok u /\
     (offline_base args = "" ->
      u = "file:///" +:+ Py.replace_char os_path.sep "/" (abspath fp)) /\
     (offline_base args <> "" ->
      dict_get (parse_qs (query (urlparse u))) "start"
      = Some [Py.str (expected_offset fp)] /\
      (forall k, k <> "start" ->
         dict_get (parse_qs (query (urlparse u))) k
         = (fun vs => [hd "" vs])
             <$> dict_get (parse_qs (query (urlparse (offline_base args)))) k) /\
      (netloc (urlparse (offline_base args)) <> "" ->
       scheme (urlparse u) = scheme (urlparse (offline_base args)) /\
       netloc (urlparse u) = netloc (urlparse (offline_base args)) /\
       path (urlparse u) = path (urlparse (offline_base args)) /\
       params (urlparse u) = params (urlparse (offline_base args)) /\
       fragment (urlparse u) = fragment (urlparse (offline_base args)))))
  /\ expected_offset fp
     = match trailing_digits (stem fp) with
       | EmptyString => 0%Z
       | d => Z.max 0 ((dec_value 0 d - 1) * 20)
       end
  /\ (Forall (fun fp' => plain_name fp' = true)
        (flat_map glob_glob (offline_files args)) ->
      match main_offline args with
      | (Ok rs, _) =>
          Forall (fun r => exists fp',
                    fp' ∈ flat_map glob_glob (offline_files args) /\
                    is_Some (read_file fp') /\
                    offline_source_url args fp' = Ok (source_url r)) rs
      | (Raise _, _) => True
      end)
  /\ @offline_source_url Fixture.files (Fixture.offline_args "https://x.com/biz/y")
       "reviews_3.html" = Ok "https://x.com/biz/y?start=40".
Proof.
  intros _ _. split; [|split; [done|split; [|vm_compute; reflexivity]]].
  - rewrite offline_source_url_spec.
    destruct (Py.truthy_str (offline_base args)) eqn:Hb.
    + eexists. split; [reflexivity|]. split.
      { intros Hbase. by rewrite Hbase in Hb. }
      intros _. split; [apply with_start_start|].
      split; [intros k Hk; by apply with_start_other|].
      intros Hne. by rewrite with_start_parts.
    + eexists. split; [reflexivity|]. split; [done|].
      intros Hbase. by apply truthy_str_nonempty in Hbase; rewrite Hbase in Hb.
  - intros _. unfold main_offline.
    destruct (flat_map glob_glob (offline_files args)) as [|fp0 expanded] eqn:Hexp;
      [constructor|].
    destruct (offline_loop args (fp0 :: expanded) [] [Stderr]) as [[rs|e] log] eqn:Hloop;
      [|done].
    apply offline_loop_sources in Hloop as (new & -> & Hnew). exact Hnew.
Qed.

Lemma offline_source_url_clamped_witness :
  exists u,
    @offline_source_url Fixture.files (Fixture.offline_args "https://x.com/biz/y?a=1")
      "reviews_3.html" = Ok u /\
    dict_get (parse_qs (query (urlparse u))) "start"
    = Some [Py.str (expected_offset "reviews_3.html")] /\
    dict_get (parse_qs (query (urlparse u))) "a" = Some ["1"] /\
    netloc (urlparse u) = "x.com".
Proof.
  destruct (proj1 (@offline_source_url_clamped Fixture.files
              (Fixture.soup Fixture.two_pages)
              (Fixture.offline_args "https://x.com/biz/y?a=1") "reviews_3.html"
              eq_refl eq_refl))
    as (u & Hu & _ & Hbase).
  destruct Hbase as (Hstart & Hother & Hparts); [discriminate|].
  exists u. split; [exact Hu|]. split; [exact Hstart|]. split.
  - rewrite Hother; [reflexivity|discriminate].
  - destruct Hparts as (_ & Hn & _); [discriminate|]. rewrite Hn. reflexivity.
Defined.

(** C9. On a site of two pages, where the first page gives twenty records
    and a link to the second, and the second gives five records and no
    next URL, a run with [--pages 3] and a delay [time.sleep] accepts
    collects the twenty-five records, fetches the two pages, each once,
    and nothing else. *)
Theorem two_page_site_yields_25 {W : Type} `{!Session W} `{!Soup}
    (args : Args) (w : world W) (u2 h1 h2 : string) (rs1 rs2 : list Review) :
  pages args = 3%Z ->
  sleep_accepts (delay args) = true ->
  start_url args <> "" -> u2 <> "" -> start_url args <> u2 ->
  h1 <> "" -> h2 <> "" ->
  (forall n, exists c n',
     session_get (start_url args) n = (Response c h1, n') /\ (200 <= c < 300)%Z) ->
  (forall n, exists c n',
     session_get u2 n = (Response c h2, n') /\ (200 <= c < 300)%Z) ->
  parse_reviews h1 (start_url args) (selectors args) = Ok rs1 -> length rs1 = 20 ->
  find_next_url h1 (start_url args) (or_none (sel_next args)) = Ok (Some u2) ->
  parse_reviews h2 u2 (selectors args) = Ok rs2 -> length rs2 = 5 ->
  find_next_url h2 u2 (or_none (sel_next args)) = Ok None ->
  exists w' evs,
    main_online args w = (Ok (rs1 ++ rs2), w') /\
    length (rs1 ++ rs2) = 25 /\
    trace w' = trace w ++ evs /\
    fetched evs = [start_url args; u2] /\
    requested evs = [start_url args; u2].
Proof.
  intros Hpages _ Hu1 Hu2 Hne Hh1 Hh2 Hg1 Hg2 Hp1 Hl1 Hn1 Hp2 Hl2 Hn2.
  unfold main_online. rewrite Hpages. change (Z.to_nat 3) with 3.
  destruct (online_two_pages args w (start_url args) u2 h1 h2 rs1 rs2 1)
    as (w' & evs & Hrun & Htr & Hf & Hr); try done.
  exists w', evs. rewrite length_app, Hl1, Hl2. done.
Qed.

Lemma two_page_site_yields_25_witness :
  exists w' evs,
    @main_online nat (Fixture.session Fixture.two_pages) (Fixture.soup Fixture.two_pages)
      (Fixture.args "https://x.com/p1" 3) (mkWorld 0 [])
    = (Ok (repeat (mkReview (Some "Ann") (Some (PyFloat.of_decimal false 45 (-1))) None
                     (Some "Good.") "https://x.com/p1") 20 ++
           repeat (mkReview (Some "Bob") (Some (PyFloat.of_decimal false 3 0)) None
                     (Some "Fine.") "https://x.com/p2") 5), w') /\
    length (repeat (mkReview (Some "Ann") (Some (PyFloat.of_decimal false 45 (-1))) None
                     (Some "Good.") "https://x.com/p1") 20 ++
            repeat (mkReview (Some "Bob") (Some (PyFloat.of_decimal false 3 0)) None
                     (Some "Fine.") "https://x.com/p2") 5) = 25 /\
    trace w' = [] ++ evs /\
    fetched evs = ["https://x.com/p1"; "https://x.com/p2"] /\
    requested evs = ["https://x.com/p1"; "https://x.com/p2"].
Proof.
  apply (@two_page_site_yields_25 nat (Fixture.session Fixture.two_pages)
           (Fixture.soup Fixture.two_pages) (Fixture.args "https://x.com/p1" 3)
           (mkWorld 0 []) "https://x.com/p2"
           (Fixture.page_html Fixture.page1) (Fixture.page_html Fixture.page2)).
  - reflexivity.
  - reflexivity.
  - discriminate.
  - discriminate.
  - discriminate.
  - discriminate.
  - discriminate.
  - intros n. exists 200%Z, (S n). split; [reflexivity|lia].
  - intros n. exists 200%Z, (S n). split; [reflexivity|lia].
  - vm_compute. reflexivity.
  - reflexivity.
  - vm_compute. reflexivity.
  - vm_compute. reflexivity.
  - reflexivity.
  - vm_compute. reflexivity.
Defined.

(** C10. In offline mode with a base URL that [urlparse] accepts, for
    a file with an ASCII name, the [start] written into the source URL
    is never negative: it is the text of [max(0, (n - 1) * 20)] for the
    number [n] at the end of the name and of 0 for a name without
    digits, a string of digits that [int] reads back from the URL as
    this number.  So a name whose number is 0 gives [start=0], not
    [start=-20], as [reviews_0.html] does. *)
Theorem offline_offset_never_negative `{!FileSystem} (args : Args) (fp : string) :
  plain_name fp = true ->
  plain_url (offline_base args) = true ->
  offline_base args <> "" ->
  (exists u,
     offline_source_url args fp = Ok u /\
     dict_get (parse_qs (query (urlparse u))) "start"
     = Some [Py.str (expected_offset fp)] /\
     Py.int (start_text u) = Ok (expected_offset fp))
  /\ (0 <= expected_offset fp)%Z
  /\ Py.all_chars Py.isdigit (Py.str (expected_offset fp)) = true
  /\ expected_offset fp
     = match trailing_digits (stem fp) with
       | EmptyString => 0%Z
       | d => Z.max 0 ((dec_value 0 d - 1) * 20)
       end
  /\ (dec_value 0 (trailing_digits (stem fp)) = 0%Z -> expected_offset fp = 0%Z)
  /\ @offline_source_url Fixture.files (Fixture.offline_args "https://x.com/biz/y")
       "reviews_0.html" = Ok "https://x.com/biz/y?start=0"
  /\ unclamped_offset "reviews_0.html" = (-20)%Z.
Proof.
  intros _ _ Hbase. pose proof (expected_offset_nonneg fp) as Hnn.
  split; [|split; [done|split; [by apply str_nonneg_digits|split; [done|split]]]].
  - rewrite offline_source_url_spec. apply truthy_str_nonempty in Hbase.
    rewrite Hbase. eexists. split; [reflexivity|].
    split; [apply with_start_start|apply with_start_reads_back].
  - intros Hz. unfold expected_offset. destruct (trailing_digits (stem fp)); [done|].
    rewrite Hz. reflexivity.
  - split; vm_compute; reflexivity.
Qed.

Lemma offline_offset_never_negative_witness :
  exists u,
    @offline_source_url Fixture.files (Fixture.offline_args "https://x.com/biz/y")
      "reviews_0.html" = Ok u /\
    dict_get (parse_qs (query (urlparse u))) "start"
    = Some [Py.str (expected_offset "reviews_0.html")] /\
    Py.int (start_text u) = Ok (expected_offset "reviews_0.html").
Proof.
  apply (proj1 (@offline_offset_never_negative Fixture.files
                  (Fixture.offline_args "https://x.com/biz/y") "reviews_0.html"
                  eq_refl eq_refl ltac:(discriminate))).
Defined.

(** * The rest of the script: properties *)

(** ** [load_headers] and [load_cookies] *)


Example load_headers_disk :
  @load_headers Disk.files (Some "headers_ua.txt")
  = ([("User-Agent", "TestBot/1.0"); ("Accept", "*/*"); ("X-Time", "12:30")], [])
  /\ @load_headers Disk.files (Some "missing.txt")
     = ([("User-Agent", DEFAULT_UA)], [Stderr])
  /\ @load_headers Disk.files None = (DEFAULT_HEADERS, []).
Proof. repeat split; vm_compute; reflexivity. Qed.

(** X2. Whatever the path and the file, the headers [load_headers]
    returns have a [User-Agent], and no name and no value of theirs
    begins or ends with white space. *)
Theorem load_headers_stripped `{!FileSystem} (path : option string) :
  is_Some (dict_get (load_headers path).1 "User-Agent") /\
  Forall (fun kv => Py.strip kv.1 = kv.1 /\ Py.strip kv.2 = kv.2)
         (load_headers path).1.
Proof.
  unfold load_headers. destruct (negb (Py.truthy_opt path)).
  { split; [by eexists|]. repeat constructor. }
  unfold load_headers_from. destruct (read_failed _); cbn [fst].
  { split; [by eexists|]. repeat constructor. }
  split; [rewrite dict_get_setdefault_eq; by eexists|].
  unfold dict_setdefault. destruct (dict_get _ _); [|apply Forall_app; split].
  3: by repeat constructor.
  all: apply (fold_left_Forall
                (Forall (fun kv => Py.strip kv.1 = kv.1 /\ Py.strip kv.2 = kv.2)));
    [|constructor];
    intros d line Hd; rewrite header_line_entry; unfold header_of_line;
    destruct (Py.partition _ _) as [[k v]|]; [|done];
    apply dict_set_Forall; [done|]; split; apply strip_idem.
Qed.


Example load_cookies_disk :
  @load_cookies Disk.files (Some "cookies.txt")
  = ([("bse", "abc123"); ("token", "a=b")], [])
  /\ @load_cookies Disk.files (Some "missing.txt") = ([], [Stderr])
  /\ @load_cookies Disk.files None = ([], []).
Proof. repeat split; vm_compute; reflexivity. Qed.

(** X4. A line of a Netscape cookie file: seven or more ASCII fields
    separated by tabs, then the newline, the first field not empty and
    starting neither with white space nor with [#].  When the last
    field is not empty and does not end with white space, the line gives
    the cookie named by the field before the last, with the last field
    as its value, both stripped.  When the line has seven fields and the
    last one is empty (a cookie without a value), it gives no cookie:
    the line is stripped before its fields are counted, and six are
    left. *)
Theorem netscape_line_cookie (fields : list string) (ending : string) :
  7 <= length fields ->
  Forall (fun f => Py.contains_char "009" f = false) fields ->
  Forall (fun f => Py.isascii f = true) fields ->
  Py.all_chars Py.isspace ending = true ->
  hd "" fields <> "" ->
  not_starting Py.isspace (hd "" fields) = true ->
  Py.startswith "#" (hd "" fields) = false ->
  ((last_two fields).2 <> "" ->
   last_is Py.isspace (last_two fields).2 = false ->
   cookie_line [] (Py.join (String "009" "") fields +:+ ending)
   = [(Py.strip (last_two fields).1, Py.strip (last_two fields).2)])
  /\ (length fields = 7 ->
      (last_two fields).2 = "" ->
      (last_two fields).1 <> "" ->
      last_is Py.isspace (last_two fields).1 = false ->
      cookie_line [] (Py.join (String "009" "") fields +:+ ending) = []).
Proof.
  intros Hlen Htab _ Hend Hne Hsp Hhash.
  destruct (two_last fields) as [init Hinit]; [lia|].
  set (name := (last_two fields).1) in *. set (value := (last_two fields).2) in *.
  clearbody name value.
  destruct init as [|x init].
  { rewrite Hinit in Hlen. simpl in Hlen. lia. }
  assert (hd "" fields = x) as Hx by (by rewrite Hinit).
  rewrite Hx in Hne, Hsp, Hhash.
  assert (forall l r, not_starting Py.isspace (Py.join (String "009" "") (x :: l) +:+ r)
                      = true) as Hstart.
  { intros l r. destruct (join_hd "009" x l) as [r' ->].
    rewrite app_assoc_str. by rewrite not_starting_app. }
  assert (forall l, Py.startswith "#" (Py.join (String "009" "") (x :: l)) = false)
    as Hcomment.
  { intros l. destruct (join_hd "009" x l) as [r' ->]. by rewrite startswith_app. }
  assert (forall l, Py.join (String "009" "") (x :: l) <> "") as Hjne.
  { intros l. destruct (join_hd "009" x l) as [r' ->]. by destruct x. }
  assert (fields = (x :: init ++ [name]) ++ [value]) as Hfields.
  { rewrite Hinit. simpl. by rewrite <- app_assoc. }
  assert (Py.join (String "009" "") fields
          = Py.join (String "009" "") (x :: init ++ [name]) +:+ String "009" value)
    as Hjoin.
  { rewrite Hfields. by apply join_snoc. }
  assert (Forall (fun f => Py.contains_char "009" f = false) (x :: init ++ [name]))
    as Htab'.
  { rewrite Hfields in Htab. by apply Forall_app in Htab as [? _]. }
  split.
  - intros Hv Hlast. rewrite cookie_line_entry. unfold cookie_of_line.
    assert (Py.strip (Py.join (String "009" "") fields +:+ ending)
            = Py.join (String "009" "") fields) as ->.
    { apply strip_line; [rewrite Hinit; apply Hjne| | |done].
      - rewrite <- (app_empty_r (Py.join _ _)), Hinit. apply Hstart.
      - rewrite Hjoin, last_is_app by done. by destruct value. }
    subst fields. simpl app. rewrite Hcomment.
    destruct init as [|y init]; [simpl in Hlen; lia|].
    change (x :: (y :: init) ++ [name; value])
      with (x :: y :: (init ++ [name; value])) in *.
    rewrite join_two_contains.
    rewrite split_join; [|done|done].
    change (x :: y :: (init ++ [name; value]))
      with ((x :: y :: init) ++ [name; value]).
    apply Nat.leb_le in Hlen. rewrite Hlen.
    by rewrite last_two_app.
  - intros Hseven -> Hn Hlast. rewrite cookie_line_entry. unfold cookie_of_line.
    assert (Py.strip (Py.join (String "009" "") fields +:+ ending)
            = Py.join (String "009" "") (x :: init ++ [name])) as ->.
    { rewrite Hjoin, app_assoc_str. apply strip_line; [apply Hjne| | |].
      - rewrite <- (app_empty_r (Py.join _ _)). apply Hstart.
      - destruct init as [|y init].
        + simpl. rewrite last_is_app by done. by destruct name.
        + change (x :: (y :: init) ++ [name]) with ((x :: y :: init) ++ [name]).
          rewrite join_snoc, last_is_app by done. by destruct name.
      - rewrite app_String, app_empty_l. simpl. exact Hend. }
    rewrite Hcomment.
    assert (length init = 4) as Hfour.
    { rewrite Hfields in Hseven. rewrite length_app in Hseven. simpl in Hseven.
      rewrite length_app in Hseven. simpl in Hseven. lia. }
    destruct init as [|y init]; [done|].
    change (x :: (y :: init) ++ [name]) with (x :: y :: (init ++ [name])).
    rewrite join_two_contains.
    rewrite split_join; [|done|done].
    simpl length. rewrite length_app. simpl in Hfour |- *.
    assert (length init = 3) as -> by lia. done.
Qed.

Lemma netscape_line_cookie_witness :
  cookie_line []
    (Py.join (String "009" "")
       [".yelp.com"; "TRUE"; "/"; "FALSE"; "1790000000"; "bse"; "abc123"] +:+ Disk.nl)
  = [("bse", "abc123")]
  /\ cookie_line []
       (Py.join (String "009" "")
          [".yelp.com"; "TRUE"; "/"; "FALSE"; "1790000000"; "bse"; ""] +:+ Disk.nl)
     = [].
Proof.
  split.
  - apply (proj1 (netscape_line_cookie
             [".yelp.com"; "TRUE"; "/"; "FALSE"; "1790000000"; "bse"; "abc123"]
             Disk.nl ltac:(simpl; lia) ltac:(repeat constructor)
             ltac:(repeat constructor) eq_refl ltac:(discriminate) eq_refl eq_refl));
      [discriminate|reflexivity].
  - apply (proj2 (netscape_line_cookie
             [".yelp.com"; "TRUE"; "/"; "FALSE"; "1790000000"; "bse"; ""]
             Disk.nl ltac:(simpl; lia) ltac:(repeat constructor)
             ltac:(repeat constructor) eq_refl ltac:(discriminate) eq_refl eq_refl));
      [reflexivity|reflexivity|discriminate|reflexivity].
Defined.

(** ** [get_text_or_none] and [parse_reviews] *)

Section ParsingMore.
Context `{!Soup}.

(** X5. For a node of ASCII text, a text that [get_text_or_none]
    returns is not empty, has no white space at either end, and is made
    of the strings of the node, each stripped, the blank ones left out,
    one after the other with nothing between them.  It returns [None]
    for no node, and for a node only when every string of the node is
    blank. *)
Theorem get_text_or_none_stripped (node : option tag) :
  from_option ascii_tag true node = true ->
  match get_text_or_none node with
  | Some s =>
      s <> "" /\ Py.strip s = s /\
      exists n, node = Some n /\
        s = Py.join "" (map Py.strip
              (filter (fun x => negb (blank x)) (all_strings false n)))
  | None =>
      match node with
      | Some n => Forall (fun x => blank x = true) (all_strings false n)
      | None => True
      end
  end.
Proof.
  intros _. unfold get_text_or_none. destruct node as [n|]; [|done].
  unfold get_text. pose proof (all_strings_stripped n) as Hall.
  pose proof (all_strings_strip n) as Heq.
  destruct (all_strings true n) as [|x l] eqn:Hl.
  - simpl. apply Forall_forall. intros s Hs.
    destruct (blank s) eqn:Hb; [done|].
    assert (Py.strip s ∈ @nil string) as Hin; [|by apply elem_of_nil in Hin].
    rewrite Heq. apply list_elem_of_fmap. exists s. split; [done|].
    apply list_elem_of_filter. by rewrite Hb.
  - destruct (join_stripped (x :: l)) as [H1 H2]; [done|done|].
    apply truthy_str_nonempty in H1 as H1'. rewrite H1'.
    split; [done|]. split; [done|]. exists n. split; [done|]. by rewrite <- Heq.
Qed.

(** X6. On a page of ASCII text, [parse_reviews] raises [KeyError]
    when the selectors have no [review_container]; when it returns, it
    returns the records of the cards that are kept, one for each, in the
    order in which the selector gives the cards, each with the rating of
    the first number of its raw rating text.  With the selectors [main]
    builds there is no [KeyError]. *)
Theorem parse_reviews_records (html page_url : string) (sel : dict string)
    (args : Args) :
  select_within ->
  ascii_tag (BeautifulSoup html) = true ->
  (dict_get sel "review_container" = None ->
   parse_reviews html page_url sel = Raise KeyError)
  /\ (forall rs,
        parse_reviews html page_url sel = Ok rs ->
        exists container,
          dict_get sel "review_container" = Some container /\
          rs = omap (review_of sel page_url) (select container (BeautifulSoup html)))
  /\ (forall rs,
        parse_reviews html page_url (selectors args) = Ok rs ->
        rs = page_records args html page_url)
  /\ parse_reviews html page_url (selectors args) <> Raise KeyError.
Proof.
  intros _ _. split; [|split; [|split]].
  - unfold parse_reviews. by intros ->.
  - intros rs. unfold parse_reviews.
    destruct (dict_get sel "review_container") as [container|]; [|done].
    rewrite parse_items_omap. intros [= <-]. by exists container.
  - intros rs. rewrite parse_reviews_selectors. by intros [= <-].
  - by rewrite parse_reviews_selectors.
Qed.

(** X7. A card of ASCII text is passed over exactly when its reviewer,
    its date and its text are [None] and its rating is [None] or
    zero. *)
Theorem card_dropped_iff (sel : dict string) (page_url : string) (it : tag) :
  select_within ->
  ascii_tag it = true ->
  parse_item sel page_url it = Ok None <->
  text_field sel "reviewer" it = None /\
  text_field sel "date" it = None /\
  text_field sel "text" it = None /\
  (rating_of (rating_raw sel it) = None \/
   exists sg, rating_of (rating_raw sel it) = Some (S754_zero sg)).
Proof.
  intros _ _. rewrite parse_item_review_of. unfold review_of, any_field.
  rewrite !text_field_truthy, <- truthy_rating_false.
  destruct (text_field sel "reviewer" it), (text_field sel "date" it),
    (text_field sel "text" it), (truthy_rating _); simpl; split; try done;
    intros (? & ? & ? & ?); done.
Qed.

End ParsingMore.

Lemma get_text_or_none_stripped_witness :
  match get_text_or_none (Some (Tag "p" [] [NavigableString " Hi "; Comment "x";
                                            Element (Tag "b" [] [NavigableString "there "])]))
  with
  | Some s => s = "Hithere"
  | None => False
  end.
Proof.
  pose proof (get_text_or_none_stripped
                (Some (Tag "p" [] [NavigableString " Hi "; Comment "x";
                                   Element (Tag "b" [] [NavigableString "there "])]))
                eq_refl) as H.
  destruct (get_text_or_none _) as [s|].
  - destruct H as (_ & _ & n & Hn & ->). injection Hn as <-. reflexivity.
  - inversion H as [|? ? Hb _]. discriminate Hb.
Defined.

Lemma parse_reviews_records_witness :
  @parse_reviews (Fixture.soup Fixture.two_pages) (Fixture.page_html Fixture.page2)
    "https://x.com/p2" (selectors (Fixture.args "https://x.com/p1" 3))
  = Ok (repeat (mkReview (Some "Bob") (Some (PyFloat.of_decimal false 3 0)) None
                  (Some "Fine.") "https://x.com/p2") 5).
Proof.
  destruct (@parse_reviews (Fixture.soup Fixture.two_pages)
              (Fixture.page_html Fixture.page2) "https://x.com/p2"
              (selectors (Fixture.args "https://x.com/p1" 3))) as [rs|e] eqn:Hp.
  - rewrite (proj1 (proj2 (proj2 (@parse_reviews_records (Fixture.soup Fixture.two_pages)
                      (Fixture.page_html Fixture.page2) "https://x.com/p2" []
                      (Fixture.args "https://x.com/p1" 3)
                      (by_name_within Fixture.two_pages) eq_refl))) rs Hp).
    vm_compute. reflexivity.
  - vm_compute in Hp. discriminate Hp.
Defined.

Lemma card_dropped_iff_witness :
  @parse_item (Fixture.soup Fixture.zero_page)
    (selectors (Fixture.args "https://x.com/p1" 3)) "https://x.com/p1"
    Fixture.zero_card = Ok None.
Proof.
  apply (proj2 (@card_dropped_iff (Fixture.soup Fixture.zero_page)
                  (selectors (Fixture.args "https://x.com/p1" 3)) "https://x.com/p1"
                  Fixture.zero_card (by_name_within Fixture.zero_page) eq_refl)).
  split; [reflexivity|]. split; [reflexivity|]. split; [reflexivity|].
  right. exists false. vm_compute. reflexivity.
Defined.

(** ** [fetch] and [main] *)

(** X8. When every answer to a GET of the URL is a
    [RequestException] or has one of the statuses 429, 500, 502, 503,
    504 and 403, [fetch] makes [max_retries] GETs, writes a warning and
    sleeps [backoff ** attempt] after each of them, the last one
    included, and returns [None]. *)
Theorem fetch_gives_up {W : Type} `{!Session W} (max_retries : nat)
    (backoff : spec_float) (url : string) (w : world W) :
  (forall n, asks_retry (session_get url n).1 = true) ->
  exists n',
    fetch_with max_retries backoff url w
    = (Ok None, mkWorld n' (trace w ++ Fetch url ::
         flat_map (fun k => [Get url; Stderr; SleepBackoff backoff k])
                  (seq 1 max_retries))).
Proof.
  intros Hretry. unfold fetch_with.
  destruct (fetch_loop_all_retry url backoff (seq 1 max_retries)
              (emit (Fetch url) w) Hretry) as [n' ->].
  exists n'. simpl. by rewrite <- app_assoc.
Qed.

Lemma fetch_gives_up_witness :
  exists n',
    @fetch_with nat Disk.down 4 DEFAULT_BACKOFF "https://x.com/p1" (mkWorld 0 [])
    = (Ok None, mkWorld n' ([] ++ Fetch "https://x.com/p1" ::
         flat_map (fun k => [Get "https://x.com/p1"; Stderr;
                             SleepBackoff DEFAULT_BACKOFF k]) (seq 1 4))).
Proof.
  apply (@fetch_gives_up nat Disk.down 4 DEFAULT_BACKOFF "https://x.com/p1"
           (mkWorld 0 [])).
  intros n. reflexivity.
Defined.

Section RunsMore.
Context {W : Type} `{!Session W} `{!Soup} `{!FileSystem}.

(** X9. The online branch of [main] calls [fetch] [pages] times at
    most, not at all when [pages] is zero or less, and makes four GETs
    at most for each call. *)
Theorem online_run_bounded (args : Args) (w : world W) :
  exists evs,
    trace (main_online args w).2 = trace w ++ evs /\
    length (fetched evs) <= Z.to_nat (pages args) /\
    length (requested evs) <= 4 * length (fetched evs).
Proof.
  destruct (online_loop_run args (Z.to_nat (pages args)) (start_url args) ∅ [] w)
    as (evs & Htr & Hf & Hr & _).
  by exists evs.
Qed.

(** X10. When the online branch of [main] returns, every record it
    returns carries the URL of a page that was fetched in this run. *)
Theorem online_run_outcome (args : Args) (w : world W) :
  exists evs,
    trace (main_online args w).2 = trace w ++ evs /\
    match (main_online args w).1 with
    | Ok rs => Forall (fun rv => source_url rv ∈ fetched evs) rs
    | Raise _ => True
    end.
Proof.
  destruct (online_loop_run args (Z.to_nat (pages args)) (start_url args) ∅ [] w)
    as (evs & Htr & _ & _ & Hout).
  exists evs. split; [done|]. unfold main_online.
  destruct (online_loop _ _ _ _ _ _).1 as [rs|e]; simpl in Hout |- *; [|done].
  by destruct Hout as (new & -> & Hnew).
Qed.

(** X11. With offline files given, ASCII file names and pages and a
    base URL that [urlparse] accepts, [main] makes no request and leaves
    the network as it is; when it returns, it returns the records of
    the files that can be read, in the order of the files, each file
    with its own source URL, a file that cannot be read adding nothing,
    and it has written one line on [stderr] at the start, one for each
    file, and one more at the end when there are fewer than fifteen
    records. *)
Theorem offline_run_records (args : Args) (w w' : world W) (rs : list Review) :
  offline_files args <> [] ->
  select_within ->
  plain_url (offline_base args) = true ->
  Forall (fun fp => plain_name fp = true) (flat_map glob_glob (offline_files args)) ->
  ascii_files (flat_map glob_glob (offline_files args)) = true ->
  main args w = (Ok rs, w') ->
  rs = flat_map (file_records args) (flat_map glob_glob (offline_files args)) /\
  w' = mkWorld (net w)
         (trace w ++
          repeat Stderr (S (length (flat_map glob_glob (offline_files args)))) ++
          if length rs <? 15 then [Stderr] else []).
Proof.
  intros Hne _ _ _ _. unfold main.
  destruct (offline_files args) as [|pat pats] eqn:Hpats; [done|].
  unfold main_offline. rewrite Hpats.
  destruct (flat_map glob_glob (pat :: pats)) as [|fp fps] eqn:Hexp.
  - simpl. intros [= <- <-]. split; [done|]. unfold emit. simpl.
    by rewrite <- app_assoc.
  - rewrite offline_loop_records. cbn [app]. intros [= <- <-]. split; [done|].
    destruct (length _ <? 15); unfold emit; cbn [net trace];
      by rewrite <- ?app_assoc, ?app_nil_r.
Qed.

End RunsMore.

Lemma offline_run_records_witness :
  repeat (mkReview (Some "Ann") (Some (PyFloat.of_decimal false 45 (-1))) None
            (Some "Good.") "https://x.com/biz/y?start=0") 20 ++
  repeat (mkReview (Some "Bob") (Some (PyFloat.of_decimal false 3 0)) None
            (Some "Fine.") "https://x.com/biz/y?start=20") 5
  = flat_map (@file_records (Fixture.soup Fixture.two_pages) Disk.files
                (Fixture.offline_args "https://x.com/biz/y"))
      ["reviews_1.html"; "reviews_2.html"; "reviews_9.html"]
  /\ mkWorld 0 (repeat Stderr 4)
     = mkWorld 0 ([] ++ repeat Stderr 4 ++ []).
Proof.
  apply (@offline_run_records nat Disk.down (Fixture.soup Fixture.two_pages)
           Disk.files (Fixture.offline_args "https://x.com/biz/y") (mkWorld 0 [])
           (mkWorld 0 (repeat Stderr 4))
           (repeat (mkReview (Some "Ann") (Some (PyFloat.of_decimal false 45 (-1))) None
                      (Some "Good.") "https://x.com/biz/y?start=0") 20 ++
            repeat (mkReview (Some "Bob") (Some (PyFloat.of_decimal false 3 0)) None
                      (Some "Fine.") "https://x.com/biz/y?start=20") 5)
           ltac:(discriminate) (by_name_within Fixture.two_pages) eq_refl
           ltac:(repeat constructor) eq_refl).
  vm_compute. reflexivity.
Defined.

(** ** The [start] parameter *)

(** X12. The URL made from a base URL that [urlparse] accepts and an
    offset that [str] writes, as the offline branch and the Yelp
    fallback make it, has in its query every parameter of the base
    once, with its first value, and [start] with the offset: a [start]
    of the base is replaced, repeated parameters lose all values but the
    first, parameters without a value are dropped, and [int] reads the
    new [start] back as the offset. *)
Theorem with_start_round_trip (base : string) (offset : Z) :
  plain_url base = true ->
  str_accepts offset = true ->
  parse_qs (query (urlparse (with_start base offset)))
  = map (fun kv => (kv.1, [hd "" kv.2]))
        (dict_set (parse_qs (query (urlparse base))) "start" [Py.str offset])
  /\ Py.int (start_text (with_start base offset)) = Ok offset.
Proof. intros _ _. split; [apply with_start_parse|apply with_start_reads_back]. Qed.

Lemma with_start_round_trip_witness :
  parse_qs (query (urlparse (with_start "http://h/a;p?x=1&x=2&start=5&y=#f" 40)))
  = [("x", ["1"]); ("start", ["40"])]
  /\ Py.int (start_text (with_start "http://h/a;p?x=1&x=2&start=5&y=#f" 40)) = Ok 40%Z.
Proof.
  destruct (with_start_round_trip "http://h/a;p?x=1&x=2&start=5&y=#f" 40
              eq_refl ltac:(vm_compute; reflexivity)) as [H1 H2].
  split; [|exact H2]. rewrite H1. vm_compute. reflexivity.
Defined.

Example with_start_examples :
  with_start "http://h/a;p?x=1&x=2&start=5&y=#f?g" (-20) = "http://h/a;p?x=1&start=-20#f?g"
  /\ with_start "" 40 = "?start=40"
  /\ with_start "https://www.yelp.com/biz/x?q=a+b%26c" 20
     = "https://www.yelp.com/biz/x?q=a+b%26c&start=20".
Proof. repeat split; vm_compute; reflexivity. Qed.

(** X13. For a URL that [urlparse] accepts, the Yelp fallback of
    [find_next_url] gives nothing when the URL is not that of a Yelp
    business page; for one, it raises [ValueError] when [start] is not
    an integer, and otherwise gives a URL whose [start] reads back as
    the [start] of the page plus twenty ([0] plus twenty when the page
    has none). *)
Theorem yelp_fallback_advances (page_url : string) :
  plain_url page_url = true ->
  match yelp_fallback page_url with
  | Ok (Some next_url) =>
      yelp_page page_url = true /\
      exists n, Py.int (start_text page_url) = Ok n /\
                next_url = with_start page_url (n + 20) /\
                Py.int (start_text next_url) = Ok (n + 20)%Z
  | Ok None => yelp_page page_url = false
  | Raise e =>
      yelp_page page_url = true /\ e = ValueError /\
      Py.int (start_text page_url) = Raise ValueError
  end.
Proof.
  intros _. destruct (yelp_page page_url) eqn:Hy.
  - destruct (Py.int (start_text page_url)) as [n|e] eqn:Hn.
    + rewrite (yelp_fallback_numeric _ _ Hy Hn). split; [done|]. exists n.
      split; [done|]. split; [done|]. apply with_start_reads_back.
    + rewrite (yelp_fallback_raises _ _ Hy Hn). apply int_raises in Hn as Hv.
      by subst.
  - unfold yelp_fallback. unfold yelp_page in Hy. by rewrite Hy.
Qed.

Lemma yelp_fallback_advances_witness :
  yelp_fallback "https://yelp.com/biz/x?start=20"
  = Ok (Some "https://yelp.com/biz/x?start=40")
  /\ match yelp_fallback "https://yelp.com/biz/x?start=20" with
     | Ok (Some next_url) => Py.int (start_text next_url) = Ok 40%Z
     | _ => False
     end.
Proof.
  split; [vm_compute; reflexivity|].
  pose proof (yelp_fallback_advances "https://yelp.com/biz/x?start=20" eq_refl) as H.
  destruct (yelp_fallback "https://yelp.com/biz/x?start=20") as [[next_url|]|e].
  - destruct H as (_ & n & Hn & _ & Hback). vm_compute in Hn.
    injection Hn as <-. exact Hback.
  - discriminate H.
  - destruct H as (_ & _ & H). discriminate H.
Defined.



(** ** The sign of a rating *)

(** X15. [parse_rating] never raises, and a rating is never negative
    and never NaN: it is [+0.0], a positive number or [+inf].  A minus
    sign before the number is not read. *)
Theorem parse_rating_not_negative (val : option string) :
  match parse_rating val with
  | Ok (Some x) => not_negative x
  | Ok None => True
  | Raise _ => False
  end
  /\ parse_rating (Some "-3 stars") = parse_rating (Some "3 stars").
Proof.
  split; [|vm_compute; reflexivity].
  rewrite parse_rating_spec. destruct (val ≫= first_number) as [lit|]; simpl; [|done].
  apply literal_value_not_negative.
Qed.

(** ** The text of a next link *)

(** X16. On a page of ASCII text, the anchors [find_next_url] takes
    for next links by their text are the [a] elements of the page whose
    string has the word next, older or more, in any case, with no
    letter, digit or underscore right before it or right after it. *)
Theorem next_text_candidates (soup t : tag) :
  ascii_tag soup = true ->
  t ∈ find_all_string "a" NEXT_TEXT_RE soup <->
  t ∈ descendants soup /\ name t = "a" /\
  exists s, tag_string t = Some s /\ has_next_word s.
Proof.
  intros _.
  unfold find_all_string. rewrite !list_elem_of_In, filter_In, andb_true_iff, String.eqb_eq.
  split.
  - intros (Hin & Hn & Hs). split; [done|]. split; [done|].
    destruct (tag_string t) as [s|]; [|done]. exists s. split; [done|].
    apply bool_decide_eq_true in Hs. by apply search_next_text.
  - intros (Hin & Hn & s & Hs & Hw). split; [done|]. split; [done|].
    rewrite Hs. apply bool_decide_eq_true. by apply search_next_text.
Qed.

Lemma next_text_candidates_witness :
  Tag "a" [("href", "/p2")] [NavigableString "Next page"]
  ∈ find_all_string "a" NEXT_TEXT_RE
      (Fixture.document
         [Element (Tag "a" [("href", "/p2")] [NavigableString "Next page"])]).
Proof.
  apply (proj2 (next_text_candidates
                  (Fixture.document
                     [Element (Tag "a" [("href", "/p2")] [NavigableString "Next page"])])
                  (Tag "a" [("href", "/p2")] [NavigableString "Next page"])
                  eq_refl)).
  split; [simpl; apply list_elem_of_here|]. split; [reflexivity|].
  exists "Next page". split; [reflexivity|].
  exists "", "Next", " page". split; [reflexivity|]. split; [reflexivity|].
  split; reflexivity.
Defined.

(** ** A run along the Yelp offsets *)

Section YelpRunMore.
Context {W : Type} `{!Session W} `{!Soup}.

(** X17. From a Yelp business page whose URL [urlparse] accepts and
    whose [start] is an integer, with a delay [time.sleep] accepts, when
    every request is answered at once by an ASCII page that is not empty
    and has no next link, the online branch of [main] does not stop
    before the page limit: it fetches [pages] URLs, with one GET each,
    the first being the start URL and each next one the URL the Yelp
    fallback makes of the one before, [start] going up by twenty. *)
Theorem yelp_run_reaches_page_limit (args : Args) (w : world W) (n : Z) :
  sleep_accepts (delay args) = true ->
  plain_url (start_url args) = true ->
  str_accepts (Z.abs n + 20 * Z.max 0 (pages args)) = true ->
  always_a_page (or_none (sel_next args)) ->
  yelp_page (start_url args) = true ->
  Py.int (start_text (start_url args)) = Ok n ->
  exists rs w' evs,
    main_online args w = (Ok rs, w') /\
    trace w' = trace w ++ evs /\
    fetched evs = yelp_chain (start_url args) n (Z.to_nat (pages args)) /\
    requested evs = yelp_chain (start_url args) n (Z.to_nat (pages args)).
Proof.
  intros _ _ _ Hsite Hy Hn. by apply online_loop_yelp.
Qed.

End YelpRunMore.

Lemma yelp_run_reaches_page_limit_witness :
  exists rs w' evs,
    @main_online nat Disk.same_page (Fixture.soup Fixture.two_pages)
      (Fixture.args "https://www.yelp.com/biz/x?start=20" 3) (mkWorld 0 [])
    = (Ok rs, w') /\
    trace w' = [] ++ evs /\
    fetched evs = yelp_chain "https://www.yelp.com/biz/x?start=20" 20 (Z.to_nat 3) /\
    requested evs = yelp_chain "https://www.yelp.com/biz/x?start=20" 20 (Z.to_nat 3).
Proof.
  apply (@yelp_run_reaches_page_limit nat Disk.same_page (Fixture.soup Fixture.two_pages)
           (Fixture.args "https://www.yelp.com/biz/x?start=20" 3) (mkWorld 0 []) 20).
  - reflexivity.
  - reflexivity.
  - vm_compute. reflexivity.
  - intros u m. exists 200%Z, (Fixture.page_html Fixture.page2), (S m).
    split; [reflexivity|]. split; [lia|]. split; [discriminate|].
    split; vm_compute; reflexivity.
  - vm_compute. reflexivity.
  - vm_compute. reflexivity.
Defined.

Example yelp_chain_example :
  yelp_chain "https://www.yelp.com/biz/x?start=20" 20 3
  = ["https://www.yelp.com/biz/x?start=20"; "https://www.yelp.com/biz/x?start=40";
     "https://www.yelp.com/biz/x?start=60"].
Proof. vm_compute. reflexivity. Qed.
